(** * LuminaLib: prompt rendering, generation adapters, review service

    A shallow embedding of the Python sources of LuminaLib
    (app/prompts/templates.py, app/adapters/llm/{mock,ollama,openai_adapter}.py,
    app/services/{review,auth}.py, app/api/routes/intelligence.py,
    app/ports/recommender.py, app/domain/models.py) together with the
    properties its specification states about them and further
    properties the code has.

    Conventions of the embedding:
    - a Python [str] is a [string]; a character is an 8-bit code point;
    - a Python [int] is a [Z]; [//] is [Z.div] (both round towards minus
      infinity for a positive divisor);
    - a Python [float] is the exact value of a finite binary64 number;
    - a Python [dict] with string keys is a [gmap string _];
    - a call that may raise returns an [Outcome];
    - code with effects is a state-passing function [Stateful S A]: the
      adapters log, sleep and call their transport in a [World], the
      services read and write a database [Session]. *)

From Stdlib Require Import ZArith String Ascii List Lia.
From Stdlib Require PrimFloat Uint63 SpecFloat FloatOps.
From stdpp Require Import base option gmap list strings pretty.

Open Scope Z_scope.

Set Warnings "-register-all".

(** ** Python values and built-ins *)

Module Py.

(** The newline character and the one-character string holding it. *)
Definition nl_char : ascii := Ascii.ascii_of_nat 10.
Definition nl : string := String nl_char "".

(** [len(s)] *)
Definition len (s : string) : Z := Z.of_nat (String.length s).

(** The first [n] characters of [s] (all of [s] when it is shorter). *)
Fixpoint take (n : nat) (s : string) : string :=
  match n, s with
  | S n', String c s' => String c (take n' s')
  | _, _ => ""
  end.

(** [s[:stop]]: a negative [stop] counts from the end, and the bound is
    clamped to the string. *)
Definition slice_to (s : string) (stop : Z) : string :=
  if 0 <=? stop then take (Z.to_nat stop) s
  else take (Z.to_nat (len s + stop)) s.

(** [s[i]] for a non-negative index, [None] when out of range. *)
Definition char_at (s : string) (i : Z) : option ascii :=
  if 0 <=? i then String.get (Z.to_nat i) s else None.

(** [s.rfind(c)] for a one-character needle: the highest index holding
    [c], or [-1].  [rfind_from c s i] scans [s], whose first character
    has index [i]. *)
Fixpoint rfind_from (c : ascii) (s : string) (i : Z) : Z :=
  match s with
  | EmptyString => -1
  | String a s' =>
      let r := rfind_from c s' (i + 1) in
      if 0 <=? r then r else if Ascii.eqb a c then i else -1
  end.

Definition rfind (s : string) (c : ascii) : Z := rfind_from c s 0.

(** [i > n * 0.8] for integers [i] and [n].  Python multiplies in
    binary64 and compares the integer with the product exactly.  [0.8]
    is the double [0.8 + 0.4 * 2^-53]; for [|n| < 2^50] the rounded
    product is [4n/5] itself when 5 divides [n], and otherwise lies
    strictly between the same two integers as [4n/5], so the comparison
    is the exact one. *)
Definition gt_times_0_8 (i n : Z) : bool := 4 * n <? 5 * i.

(** The same comparison on the machine's binary64 numbers, for [i] and
    [n] from 0 below [2^53], where the conversion of an int is exact: the
    literal [0.8] is the double nearest to 4/5, which the division
    yields. *)
Definition binary64_of_int (n : Z) : PrimFloat.float :=
  PrimFloat.of_uint63 (Uint63.of_Z n).

Definition binary64_0_8 : PrimFloat.float :=
  PrimFloat.div (binary64_of_int 4) (binary64_of_int 5).

Definition binary64_gt_times_0_8 (i n : Z) : bool :=
  PrimFloat.ltb (PrimFloat.mul (binary64_of_int n) binary64_0_8)
                (binary64_of_int i).

(** [str(n)] for an [int]. *)
Definition str_of_int (n : Z) : string := pretty n.

(** The request errors of httpx (subclasses of [httpx.RequestError]). *)
Inductive HttpxRequestError : Type :=
| ConnectError | ReadError | WriteError | CloseError
| ConnectTimeout | ReadTimeout | WriteTimeout | PoolTimeout
| LocalProtocolError | RemoteProtocolError
| ProxyError | UnsupportedProtocol | DecodingError | TooManyRedirects.

(** Python exceptions met in the embedded code.  These are all the
    classes the sources and the libraries they call can raise here; the
    sources define no exception class of their own. *)
Inductive Exc : Type :=
| KeyError (key : string)
| IndexError (msg : string)
| ValueError (msg : string)
| TypeError (msg : string)
| ZeroDivisionError (msg : string)
| OverflowError (msg : string)
| HTTPException (status_code : Z) (detail : string)
| MultipleResultsFound
| IntegrityError
| HTTPStatusError (status_code : Z)
| RequestError (kind : HttpxRequestError)
| JSONDecodeError
| APIConnectionError
| APITimeoutError
| APIStatusError (status_code : Z).

Definition httpx_class_name (k : HttpxRequestError) : string :=
  match k with
  | ConnectError => "ConnectError"
  | ReadError => "ReadError"
  | WriteError => "WriteError"
  | CloseError => "CloseError"
  | ConnectTimeout => "ConnectTimeout"
  | ReadTimeout => "ReadTimeout"
  | WriteTimeout => "WriteTimeout"
  | PoolTimeout => "PoolTimeout"
  | LocalProtocolError => "LocalProtocolError"
  | RemoteProtocolError => "RemoteProtocolError"
  | ProxyError => "ProxyError"
  | UnsupportedProtocol => "UnsupportedProtocol"
  | DecodingError => "DecodingError"
  | TooManyRedirects => "TooManyRedirects"
  end.

(** The class the OpenAI client picks for an error status. *)
Definition openai_status_class_name (status_code : Z) : string :=
  if status_code =? 400 then "BadRequestError"
  else if status_code =? 401 then "AuthenticationError"
  else if status_code =? 403 then "PermissionDeniedError"
  else if status_code =? 404 then "NotFoundError"
  else if status_code =? 409 then "ConflictError"
  else if status_code =? 422 then "UnprocessableEntityError"
  else if status_code =? 429 then "RateLimitError"
  else if 500 <=? status_code then "InternalServerError"
  else "APIStatusError".

(** [type(e).__name__]. *)
Definition class_name (e : Exc) : string :=
  match e with
  | KeyError _ => "KeyError"
  | IndexError _ => "IndexError"
  | ValueError _ => "ValueError"
  | TypeError _ => "TypeError"
  | ZeroDivisionError _ => "ZeroDivisionError"
  | OverflowError _ => "OverflowError"
  | HTTPException _ _ => "HTTPException"
  | MultipleResultsFound => "MultipleResultsFound"
  | IntegrityError => "IntegrityError"
  | HTTPStatusError _ => "HTTPStatusError"
  | RequestError kind => httpx_class_name kind
  | JSONDecodeError => "JSONDecodeError"
  | APIConnectionError => "APIConnectionError"
  | APITimeoutError => "APITimeoutError"
  | APIStatusError status_code => openai_status_class_name status_code
  end.

(** The result of a call: a value, or a raised exception. *)
Inductive Outcome (A : Type) : Type :=
| Returns (a : A)
| Raises (e : Exc).
Arguments Returns {A} a.
Arguments Raises {A} e.

(** *** Floats

    A finite binary64 value is kept as its exact value
    [(-1)^neg * mant * 2^expo]; comparison and formatting depend on the
    value only.  Infinities and NaN do not arise in the embedded code. *)

Record float : Type := { neg : bool; mant : Z; expo : Z }.

(** The float literal of a small integer, such as [4.0]. *)
Definition float_literal (n : Z) : float :=
  {| neg := n <? 0; mant := Z.abs n; expo := 0 |}.

(** [num / den] rounded to the nearest integer, ties to even
    ([0 <= num], [0 < den]). *)
Definition round_half_even (num den : Z) : Z :=
  let q := num / den in
  let r := num mod den in
  match 2 * r ?= den with
  | Lt => q
  | Gt => q + 1
  | Eq => if Z.even q then q else q + 1
  end.

(** The binary64 nearest to [n / d] ([0 <= n], [0 < d]), ties to even,
    as mantissa and exponent; [None] when it exceeds the largest finite
    double.  Results below the normal range are rounded on the
    subnormal grid [2^-1074]. *)
Definition round_ratio (n d : Z) : option (Z * Z) :=
  if n =? 0 then Some (0, 0)
  else
    let e1 := Z.log2 n - Z.log2 d - 53 in
    let at_least_2_53 :=
      if 0 <=? e1 then 2 ^ 53 * d * 2 ^ e1 <=? n
      else 2 ^ 53 * d <=? n * 2 ^ (- e1) in
    let e := if at_least_2_53 then e1 + 1 else e1 in
    let e := Z.max e (-1074) in
    let m :=
      if 0 <=? e then round_half_even n (d * 2 ^ e)
      else round_half_even (n * 2 ^ (- e)) d in
    let '(m, e) := if m =? 2 ^ 53 then (2 ^ 52, e + 1) else (m, e) in
    if 971 <? e then None else Some (m, e).

(** [a / b] for two ints: the correctly rounded quotient. *)
Definition truediv (a b : Z) : Outcome float :=
  if b =? 0 then Raises (ZeroDivisionError "division by zero")
  else
    match round_ratio (Z.abs a) (Z.abs b) with
    | Some (m, e) =>
        Returns {| neg := xorb (a <? 0) (b <? 0); mant := m; expo := e |}
    | None =>
        Raises (OverflowError
                  "integer division result too large for a float")
    end.

(** Whether [x] is the value of the machine number [f]. *)
Definition is_binary64 (x : float) (f : PrimFloat.float) : bool :=
  match FloatOps.Prim2SF f with
  | SpecFloat.S754_zero s => Bool.eqb s (neg x) && (mant x =? 0)
  | SpecFloat.S754_finite s m e =>
      Bool.eqb s (neg x) && (mant x =? Z.pos m) && (expo x =? e)
  | _ => false
  end.

(** [float(n)] for an int. *)
Definition float_of_int (n : Z) : Outcome float :=
  match round_ratio (Z.abs n) 1 with
  | Some (m, e) => Returns {| neg := n <? 0; mant := m; expo := e |}
  | None => Raises (OverflowError "int too large to convert to float")
  end.

Definition signed_mant (x : float) : Z :=
  if neg x then - mant x else mant x.

Definition float_compare (x y : float) : comparison :=
  let k := Z.min (expo x) (expo y) in
  signed_mant x * 2 ^ (expo x - k) ?= signed_mant y * 2 ^ (expo y - k).

(** [x >= y] *)
Definition float_ge (x y : float) : bool :=
  match float_compare x y with
  | Lt => false
  | _ => true
  end.

(** [f"{x:.1f}"] and ["%.1f" % x]: the decimal expansion of the exact
    value, rounded to one digit after the point, ties to even. *)
Definition format_1f (x : float) : string :=
  let tenths :=
    if 0 <=? expo x then 10 * mant x * 2 ^ expo x
    else round_half_even (10 * mant x) (2 ^ (- expo x)) in
  (if neg x then "-" else "")
  +:+ str_of_int (tenths / 10) +:+ "." +:+ str_of_int (tenths mod 10).

(** [x] is zero, of either sign. *)
Definition float_is_zero (x : float) : bool := mant x =? 0.

(** [round(x, 2)]: the decimal expansion of the exact value rounded to
    two digits after the point, ties to even, then the double nearest to
    that decimal. *)
Definition float_round_2 (x : float) : float :=
  let hundredths :=
    if 0 <=? expo x then 100 * mant x * 2 ^ expo x
    else round_half_even (100 * mant x) (2 ^ (- expo x)) in
  match round_ratio hundredths 100 with
  | Some (m, e) => {| neg := neg x; mant := m; expo := e |}
  | None => x
  end.

(** [sum(xs)] over ints. *)
Definition sum (xs : list Z) : Z := fold_left Z.add xs 0.

(** *** Whitespace and [str.split()] *)

(** [c.isspace()] on the 8-bit code points. *)
Definition isspace (c : ascii) : bool :=
  let n := N_of_ascii c in
  (((9 <=? n) && (n <=? 13)) || ((28 <=? n) && (n <=? 32))
   || (n =? 133) || (n =? 160))%N.

(** [len(s.split())]: the number of maximal runs of non-whitespace.
    [in_word] tells whether the previous character was part of a
    word. *)
Fixpoint count_words (in_word : bool) (s : string) : Z :=
  match s with
  | EmptyString => 0
  | String c s' =>
      if isspace c then count_words false s'
      else (if in_word then 0 else 1) + count_words true s'
  end.

Definition len_split (s : string) : Z := count_words false s.

End Py.

Import Py.

(** ** app/prompts/templates.py *)

Module Templates.

Definition CHARS_PER_TOKEN : Z := 4.

(** [estimate_tokens]: [len(text) // CHARS_PER_TOKEN]. *)
Definition estimate_tokens (text : string) : Z :=
  len text / CHARS_PER_TOKEN.

Definition TRUNCATION_MARKER : string :=
  nl +:+ nl +:+ "[Content truncated for processing]".

(** [truncate_to_tokens]. *)
Definition truncate_to_tokens (text : string) (max_tokens : Z) : string :=
  let max_chars := max_tokens * CHARS_PER_TOKEN in
  if len text <=? max_chars then text
  else
    let truncated := slice_to text max_chars in
    let last_period := rfind truncated "." in
    let truncated :=
      if gt_times_0_8 last_period max_chars
      then slice_to truncated (last_period + 1)
      else truncated in
    truncated +:+ TRUNCATION_MARKER.

(** *** [str.format] with keyword arguments

    CPython scans the format string from left to right and renders each
    replacement field as soon as it has read it, so the leftmost problem
    decides the exception.  The scanner below follows it for literal
    text, the escapes [{{] and [}}], and fields [{name}].  A field that
    uses a conversion ([!]), a format specification ([:]) or attribute
    or index access ([.], [[]) is outside the modelled fragment: the
    scanner then answers [None]. *)

Inductive scan_state : Type :=
| InText
| InField (field_name : string).

Definition is_decimal_digit (c : ascii) : bool :=
  let n := N_of_ascii c in ((48 <=? n) && (n <=? 57))%N.

Fixpoint all_decimal (s : string) : bool :=
  match s with
  | EmptyString => true
  | String c s' => is_decimal_digit c && all_decimal s'
  end.

(** The value of a run of decimal digits, most significant first. *)
Fixpoint decimal_value (acc : Z) (s : string) : Z :=
  match s with
  | EmptyString => acc
  | String c s' => decimal_value (10 * acc + (Z.of_N (N_of_ascii c) - 48)) s'
  end.

Definition PY_SSIZE_T_MAX : Z := 2 ^ 63 - 1.

(** Looking up one field.  [render] passes keyword arguments only, so
    the positional tuple is empty: an empty name (auto-numbering) and a
    numeric name index into it and fail. *)
Definition get_field (kwargs : gmap string string) (field_name : string)
  : Outcome string :=
  if String.eqb field_name "" then
    Raises (IndexError
              "Replacement index 0 out of range for positional args tuple")
  else if all_decimal field_name then
    let idx := decimal_value 0 field_name in
    if PY_SSIZE_T_MAX <? idx
    then Raises (ValueError "Too many decimal digits in format string")
    else Raises (IndexError
                   ("Replacement index " +:+ str_of_int idx +:+
                    " out of range for positional args tuple"))
  else
    match kwargs !! field_name with
    | Some v => Returns v
    | None => Raises (KeyError field_name)
    end.

Definition is_unmodelled_field_char (c : ascii) : bool :=
  Ascii.eqb c "!" || Ascii.eqb c ":" || Ascii.eqb c "." || Ascii.eqb c "[".

(** Put [p] in front of the text a scan produced. *)
Definition prepend (p : string) (r : option (Outcome string))
  : option (Outcome string) :=
  match r with
  | Some (Returns s) => Some (Returns (p +:+ s))
  | other => other
  end.

Fixpoint format_scan (kwargs : gmap string string) (st : scan_state)
         (s : string) : option (Outcome string) :=
  match st, s with
  | InText, EmptyString => Some (Returns "")
  | InText, String c rest =>
      if Ascii.eqb c "{" then
        match rest with
        | EmptyString =>
            Some (Raises
                    (ValueError "Single '{' encountered in format string"))
        | String c2 rest2 =>
            if Ascii.eqb c2 "{"
            then prepend "{" (format_scan kwargs InText rest2)
            else format_scan kwargs (InField "") rest
        end
      else if Ascii.eqb c "}" then
        match rest with
        | String c2 rest2 =>
            if Ascii.eqb c2 "}"
            then prepend "}" (format_scan kwargs InText rest2)
            else Some (Raises
                         (ValueError
                            "Single '}' encountered in format string"))
        | EmptyString =>
            Some (Raises
                    (ValueError "Single '}' encountered in format string"))
        end
      else prepend (String c "") (format_scan kwargs InText rest)
  | InField _, EmptyString =>
      Some (Raises (ValueError "expected '}' before end of string"))
  | InField field_name, String c rest =>
      if Ascii.eqb c "}" then
        match get_field kwargs field_name with
        | Returns v => prepend v (format_scan kwargs InText rest)
        | Raises e => Some (Raises e)
        end
      else if Ascii.eqb c "{" then
        Some (Raises (ValueError "unexpected '{' in field name"))
      else if is_unmodelled_field_char c then None
      else format_scan kwargs (InField (field_name +:+ String c "")) rest
  end.

Definition str_format (template : string) (kwargs : gmap string string)
  : option (Outcome string) :=
  format_scan kwargs InText template.

(** *** [PromptTemplate] *)

Record PromptTemplate : Type := {
  name : string;
  version : string;
  system : string;
  user_template : string;
  max_tokens : Z;
  input_token_limit : Z;
  tags : list string
}.

(** [PromptTemplate.render]: the dict [{"system": ..., "user": ...}]. *)
Definition render (self : PromptTemplate) (kwargs : gmap string string)
  : option (Outcome (gmap string string)) :=
  match str_format (user_template self) kwargs with
  | Some (Returns user) =>
      Some (Returns (<["system" := system self]> (<["user" := user]> ∅)))
  | Some (Raises e) => Some (Raises e)
  | None => None
  end.

(** [PromptTemplate.render_with_truncation].  [kwargs] is the dict the
    call built from its keyword arguments; the assignment updates that
    dict only. *)
Definition render_with_truncation (self : PromptTemplate)
           (content_key : string) (kwargs : gmap string string)
  : option (Outcome (gmap string string)) :=
  let kwargs :=
    match kwargs !! content_key with
    | Some v =>
        <[content_key := truncate_to_tokens v (input_token_limit self)]>
          kwargs
    | None => kwargs
    end in
  render self kwargs.

(** *** The two prompts of the application *)

Definition SUMMARIZE_BOOK : PromptTemplate := {|
  name := "summarize_book";
  version := "1.2.0";
  system :=
    "You are a skilled literary analyst working for a digital library system. "
    +:+ "Your role is to produce clear, informative book summaries suitable for a "
    +:+ "library catalog." +:+ nl +:+ nl
    +:+ "Guidelines:" +:+ nl
    +:+ "- Write 3-5 concise paragraphs." +:+ nl
    +:+ "- Cover main themes, structure, and key arguments or plot points." +:+ nl
    +:+ "- Do NOT include spoilers for fiction." +:+ nl
    +:+ "- Use a neutral, professional tone." +:+ nl
    +:+ "- Mention who would benefit most from reading this book." +:+ nl
    +:+ "- If the content appears to be partial or corrupted, note this clearly.";
  user_template :=
    "Please summarize the following book content." +:+ nl +:+ nl
    +:+ "--- BOOK CONTENT (START) ---" +:+ nl
    +:+ "{content}" +:+ nl
    +:+ "--- BOOK CONTENT (END) ---" +:+ nl +:+ nl
    +:+ "Provide a comprehensive summary in 3-5 paragraphs:";
  max_tokens := 1024;
  input_token_limit := 4000;
  tags := ["summarization"; "book"; "ingestion"]
|}.

(** The dash in the last guideline is U+2014 in the source; it is kept
    here as the bytes of its UTF-8 encoding.  The system message is only
    ever passed along, never measured. *)
Definition ANALYZE_REVIEWS : PromptTemplate := {|
  name := "analyze_reviews";
  version := "1.1.0";
  system :=
    "You are a sentiment analysis expert specializing in literary reviews. "
    +:+ "Your task is to synthesize multiple reader opinions into a balanced, "
    +:+ "nuanced consensus." +:+ nl +:+ nl
    +:+ "Guidelines:" +:+ nl
    +:+ "- Produce 2-3 paragraphs." +:+ nl
    +:+ "- Identify areas of agreement and disagreement among reviewers." +:+ nl
    +:+ "- Note the overall sentiment (positive, mixed, negative) with nuance." +:+ nl
    +:+ "- Highlight commonly praised strengths and commonly cited weaknesses." +:+ nl
    +:+ "- Conclude with who would likely enjoy this book." +:+ nl
    +:+ "- If a previous consensus exists, update it — don't start from scratch.";
  user_template :=
    "{previous_consensus_section}"
    +:+ "Below are reader reviews for this book:" +:+ nl +:+ nl
    +:+ "--- REVIEWS (START) ---" +:+ nl
    +:+ "{reviews_text}" +:+ nl
    +:+ "--- REVIEWS (END) ---" +:+ nl +:+ nl
    +:+ "Synthesize these into an updated consensus summary:";
  max_tokens := 512;
  input_token_limit := 3000;
  tags := ["sentiment"; "reviews"; "consensus"]
|}.

(** *** Rendering helpers *)

Definition render_book_summary_prompt (content : string)
  : option (Outcome (gmap string string)) :=
  render_with_truncation SUMMARIZE_BOOK "content"
    (<["content" := content]> ∅).

(** One entry of the [reviews] argument: a dict with the keys ['rating']
    (an int) and ['text'] (a str), as the docstring requires. *)
Record ReviewDict : Type := { rating : Z; text : string }.

(** [sep.join(items)] *)
Fixpoint join (sep : string) (items : list string) : string :=
  match items with
  | [] => ""
  | [x] => x
  | x :: rest => x +:+ sep +:+ join sep rest
  end.

(** The f-string [f"[Rating: {r['rating']}/5]
{r['text']}"]. *)
Definition format_review (r : ReviewDict) : string :=
  "[Rating: " +:+ str_of_int (rating r) +:+ "/5]" +:+ nl +:+ text r.

(** The truth value of a [str | None]: [None] and the empty string are
    false. *)
Definition truthy (s : option string) : bool :=
  match s with
  | Some v => negb (String.eqb v "")
  | None => false
  end.

Definition previous_section_of (current_consensus : option string)
  : string :=
  match current_consensus with
  | Some consensus =>
      if truthy current_consensus then
        "--- PREVIOUS CONSENSUS (START) ---" +:+ nl
        +:+ consensus +:+ nl
        +:+ "--- PREVIOUS CONSENSUS (END) ---" +:+ nl +:+ nl
        +:+ "Update the above consensus with the new reviews below."
        +:+ nl +:+ nl
      else ""
  | None => ""
  end.

Definition render_review_consensus_prompt (reviews : list ReviewDict)
           (current_consensus : option string)
  : option (Outcome (gmap string string)) :=
  let reviews_text := join (nl +:+ nl) (map format_review reviews) in
  let previous_section := previous_section_of current_consensus in
  render_with_truncation ANALYZE_REVIEWS "reviews_text"
    (<["reviews_text" := reviews_text]>
       (<["previous_consensus_section" := previous_section]> ∅)).

End Templates.

(** ** Stateful computations

    [Stateful S A] is a computation that reads and updates a state [S] and
    returns an [A] or raises; the state it leaves behind is kept in both
    cases.

    Logging and sleeping are the effects the adapters have besides their
    transport.  A [World] is the trace of what happened so far, oldest
    first. *)

Module Effects.

Definition Stateful (S A : Type) : Type := S -> Outcome A * S.

Definition ret {S A} (a : A) : Stateful S A := fun w => (Returns a, w).

Definition raise {S A} (e : Exc) : Stateful S A := fun w => (Raises e, w).

Definition io_bind {S A B} (c : Stateful S A) (k : A -> Stateful S B)
  : Stateful S B :=
  fun w =>
    match c w with
    | (Returns a, w') => k a w'
    | (Raises e, w') => (Raises e, w')
    end.

(** Lift a call that can only return or raise. *)
Definition lift {S A} (o : Outcome A) : Stateful S A := fun w => (o, w).

Inductive Event : Type :=
| Slept (delay : float)
| Logged (logger_name : string) (message : string).

Definition World : Type := list Event.

Definition IO (A : Type) : Type := Stateful World A.

Definition emit (ev : Event) : IO unit := fun w => (Returns tt, w ++ [ev]).

(** [await asyncio.sleep(delay)] *)
Definition sleep (delay : float) : IO unit := emit (Slept delay).

(** [logger.info(message)], the message already interpolated. *)
Definition logger_info (logger_name message : string) : IO unit :=
  emit (Logged logger_name message).

End Effects.

Import Effects.

Declare Scope io_scope.
Delimit Scope io_scope with io.
Notation "x <- c1 ;; c2" := (io_bind c1 (fun x => c2))
  (at level 100, c1 at next level, right associativity) : io_scope.
Notation "c1 ;;; c2" := (io_bind c1 (fun _ => c2))
  (at level 100, right associativity) : io_scope.

(** ** app/adapters/llm/mock.py *)

Module Mock.

Import Templates.

Definition logger_name : string := "app.adapters.llm.mock".

(** The doubles [0.5] and [0.3]. *)
Definition seconds_0_5 : float := {| neg := false; mant := 1; expo := -1 |}.
Definition seconds_0_3 : float :=
  {| neg := false; mant := 5404319552844595; expo := -54 |}.

Definition summary_tail : string :=
  "It explores compelling themes through well-structured prose, presenting "
  +:+ "arguments that build methodically from foundational concepts to complex "
  +:+ "conclusions." +:+ nl +:+ nl
  +:+ "The author demonstrates deep expertise in the subject matter, weaving "
  +:+ "together narrative elements with analytical insights. Key themes include "
  +:+ "the interplay between theory and practice, the evolution of ideas over "
  +:+ "time, and their practical implications for readers." +:+ nl +:+ nl
  +:+ "This work is recommended for both casual readers seeking an accessible "
  +:+ "introduction and scholars looking for a comprehensive reference. The "
  +:+ "writing style balances academic rigor with engaging readability.".

(** [MockLLMAdapter.summarize_book] *)
Definition summarize_book (text : string) : IO string :=
  (sleep seconds_0_5 ;;;
   let token_count := estimate_tokens text in
   logger_info logger_name
     ("MockLLM: summarize_book called (" +:+ str_of_int token_count
      +:+ " estimated tokens)") ;;;
   ret ("This book contains approximately " +:+ str_of_int (len_split text)
        +:+ " words across its content (estimated "
        +:+ str_of_int token_count +:+ " tokens). "
        +:+ summary_tail))%io.

Definition sentiment_of (avg : float) : string :=
  if float_ge avg (float_literal 4) then "overwhelmingly positive"
  else if float_ge avg (float_literal 3)
  then "generally positive with some reservations"
  else if float_ge avg (float_literal 2)
  then "mixed, with both praise and criticism"
  else "predominantly critical".

Definition consensus_tail : string :=
  "Reviewers commonly praise the depth of content and quality of writing. "
  +:+ "Some readers note that certain sections require careful attention, while "
  +:+ "others appreciate the thoroughness of the coverage. The book's structure "
  +:+ "receives generally positive feedback." +:+ nl +:+ nl
  +:+ "This book is recommended for readers with a genuine interest in the "
  +:+ "subject matter who appreciate detailed, well-researched content.".

(** [sum(r["rating"] for r in reviews) / count if count else 0.0] *)
Definition average_rating (reviews : list ReviewDict) : Outcome float :=
  let count := Z.of_nat (length reviews) in
  if count =? 0 then Returns (float_literal 0)
  else truediv (sum (map rating reviews)) count.

(** [MockLLMAdapter.analyze_reviews] *)
Definition analyze_reviews (reviews : list ReviewDict)
           (current_consensus : option string) : IO string :=
  (sleep seconds_0_3 ;;;
   let count := Z.of_nat (length reviews) in
   avg <- lift (average_rating reviews) ;;
   let sentiment := sentiment_of avg in
   logger_info logger_name
     ("MockLLM: analyze_reviews called (" +:+ str_of_int count
      +:+ " reviews, avg=" +:+ format_1f avg +:+ ")") ;;;
   ret ("Based on " +:+ str_of_int count
        +:+ " reader reviews with an average rating of "
        +:+ format_1f avg +:+ "/5, "
        +:+ "the overall sentiment is " +:+ sentiment +:+ "."
        +:+ nl +:+ nl +:+ consensus_tail))%io.

End Mock.

(** ** app/adapters/llm/ollama.py *)

Module Ollama.

Definition logger_name : string := "app.adapters.llm.ollama".

Record ChatMessage : Type := { role : string; content : string }.

(** The JSON payload of a chat request. *)
Record Payload : Type := {
  model : string;
  messages : list ChatMessage;
  stream : bool;
  num_predict : Z
}.

(** A decoded JSON value; [JScalar] stands for numbers, booleans and
    null. *)
Inductive Json : Type :=
| JString (s : string)
| JScalar
| JArray (items : list Json)
| JObject (fields : list (string * Json)).

(** An HTTP response: its status, and its body when that is JSON. *)
Record Response : Type := { status_code : Z; json_body : option Json }.

(** [Response.raise_for_status]: anything but a 2xx status raises. *)
Definition raise_for_status (resp : Response) : Outcome unit :=
  if (200 <=? status_code resp) && (status_code resp <=? 299)
  then Returns tt
  else Raises (HTTPStatusError (status_code resp)).

(** [Response.json] *)
Definition json (resp : Response) : Outcome Json :=
  match json_body resp with
  | Some j => Returns j
  | None => Raises JSONDecodeError
  end.

(** The value a decoded object holds for [key]: a later duplicate
    wins. *)
Fixpoint assoc (key : string) (fields : list (string * Json))
  : option Json :=
  match fields with
  | [] => None
  | (k, v) :: rest =>
      match assoc key rest with
      | Some v' => Some v'
      | None => if String.eqb k key then Some v else None
      end
  end.

(** [j[key]] for a string key. *)
Definition getitem (j : Json) (key : string) : Outcome Json :=
  match j with
  | JObject fields =>
      match assoc key fields with
      | Some v => Returns v
      | None => Raises (KeyError key)
      end
  | JString _ => Raises (TypeError "string indices must be integers")
  | JArray _ =>
      Raises (TypeError "list indices must be integers or slices, not str")
  | JScalar => Raises (TypeError "object is not subscriptable")
  end.

Fixpoint distinct_keys (fields : list (string * Json)) : list string :=
  match fields with
  | [] => []
  | (k, _) :: rest =>
      let ks := distinct_keys rest in
      if existsb (String.eqb k) ks then ks else k :: ks
  end.

(** [len(j)] *)
Definition json_len (j : Json) : Outcome Z :=
  match j with
  | JString s => Returns (len s)
  | JArray items => Returns (Z.of_nat (length items))
  | JObject fields => Returns (Z.of_nat (length (distinct_keys fields)))
  | JScalar => Raises (TypeError "object has no len()")
  end.

(** [s.rstrip("/")] *)
Fixpoint rstrip_slash (s : string) : string :=
  match s with
  | EmptyString => EmptyString
  | String c s' =>
      match rstrip_slash s' with
      | EmptyString => if Ascii.eqb c "/" then EmptyString else String c ""
      | kept => String c kept
      end
  end.

Record OllamaLLMAdapter : Type := { _base_url : string; _model : string }.

(** [OllamaLLMAdapter.__init__] *)
Definition init (base_url model : string) : OllamaLLMAdapter :=
  {| _base_url := rstrip_slash base_url; _model := model |}.

Section Transport.

(** [httpx.AsyncClient(timeout=180.0).post(url, json=payload)]: the
    transport is the adapter's environment. *)
Variable post : string -> Payload -> IO Response.

(** [OllamaLLMAdapter._generate] *)
Definition _generate (self : OllamaLLMAdapter) (system user : string)
           (max_tokens : Z) : IO Json :=
  (let payload := {|
     model := _model self;
     messages := [ {| role := "system"; content := system |};
                   {| role := "user"; content := user |} ];
     stream := false;
     num_predict := max_tokens |} in
   logger_info logger_name
     ("Ollama request: model=" +:+ _model self +:+ ", max_tokens="
      +:+ str_of_int max_tokens) ;;;
   resp <- post (_base_url self +:+ "/api/chat") payload ;;
   lift (raise_for_status resp) ;;;
   body <- lift (json resp) ;;
   message <- lift (getitem body "message") ;;
   result <- lift (getitem message "content") ;;
   n <- lift (json_len result) ;;
   logger_info logger_name
     ("Ollama response: " +:+ str_of_int n +:+ " chars") ;;;
   ret result)%io.

End Transport.

End Ollama.

(** ** app/adapters/llm/openai_adapter.py *)

Module OpenAI.

Definition logger_name : string := "app.adapters.llm.openai_adapter".

Record ChatMessage : Type := { role : string; content : string }.

(** The double [0.7]. *)
Definition temperature_0_7 : float :=
  {| neg := false; mant := 3152519739159347; expo := -52 |}.

(** The arguments of [chat.completions.create]. *)
Record Request : Type := {
  model : string;
  messages : list ChatMessage;
  max_tokens : Z;
  temperature : float
}.

(** [choice.message.content] is a [str] or [None]. *)
Record Choice : Type := { message_content : option string }.

Record ChatCompletion : Type := { choices : list Choice }.

Record OpenAILLMAdapter : Type := { _api_key : string; _model : string }.

Section Client.

(** [AsyncOpenAI(api_key=...).chat.completions.create]: the client
    library is the adapter's environment. *)
Variable create : string -> Request -> IO ChatCompletion.

(** [OpenAILLMAdapter._generate] *)
Definition _generate (self : OpenAILLMAdapter) (system user : string)
           (max_tokens : Z) : IO string :=
  (logger_info logger_name
     ("OpenAI request: model=" +:+ _model self +:+ ", max_tokens="
      +:+ str_of_int max_tokens) ;;;
   resp <- create (_api_key self) {|
             model := _model self;
             messages := [ {| role := "system"; content := system |};
                           {| role := "user"; content := user |} ];
             max_tokens := max_tokens;
             temperature := temperature_0_7 |} ;;
   first <- lift (match choices resp with
                  | c :: _ => Returns c
                  | [] => Raises (IndexError "list index out of range")
                  end) ;;
   let result :=
     match message_content first with
     | Some text => text
     | None => ""
     end in
   logger_info logger_name
     ("OpenAI response: " +:+ str_of_int (len result) +:+ " chars") ;;;
   ret result)%io.

End Client.

End OpenAI.

(** ** app/domain/models.py *)

Module Models.

Definition UUID : Type := N.
Definition datetime : Type := Z.

Module Book.
Record t : Type := {
  id : UUID;
  title : string;
  author : string;
  isbn : option string;
  genres : list string;
  file_path : string;
  file_type : string;
  summary : option string;
  review_consensus : option string;
  consensus_version : Z;
  created_at : datetime;
  updated_at : datetime
}.

(** The value [Column(Integer, default=0)] gives [consensus_version] when
    a row is inserted without one. *)
Definition consensus_version_default : Z := 0.
End Book.

Module Borrow.
Record t : Type := {
  id : UUID;
  user_id : UUID;
  book_id : UUID;
  borrowed_at : datetime;
  returned_at : option datetime
}.
End Borrow.

Module Review.
(** [id] and [created_at] are filled by their column defaults when the
    row is inserted; until then the attributes are [None]. *)
Record t : Type := {
  id : option UUID;
  user_id : UUID;
  book_id : UUID;
  rating : Z;
  text : string;
  created_at : option datetime
}.
End Review.

Module UserInteraction.
(** [interaction_type_enum] *)
Inductive interaction_type_enum : Type := borrow | review | return_.

Definition enum_label (k : interaction_type_enum) : string :=
  match k with
  | borrow => "borrow"
  | review => "review"
  | return_ => "return"
  end.

Record t : Type := {
  id : option UUID;
  user_id : UUID;
  book_id : UUID;
  interaction_type : interaction_type_enum;
  rating : option float;
  created_at : option datetime
}.
End UserInteraction.

End Models.

Import Models.

(** ** The database session

    An [AsyncSession] as the services see it: the rows of the tables, the
    objects added but not yet flushed, and the sources of the column
    defaults.  [uuid4 k] and [utcnow k] are the values the [k]-th call of
    [uuid.uuid4] and of [datetime.utcnow] returns; the session counts the
    calls made so far.  Queries read the tables; [flush] inserts the
    pending objects in the order they were added. *)

Module Session.

(** An object handed to [session.add]. *)
Inductive Obj : Type :=
| ObjReview (r : Review.t)
| ObjInteraction (i : UserInteraction.t).

Record t : Type := {
  books : gmap UUID Book.t;
  borrows : list Borrow.t;
  reviews : list Review.t;
  user_interactions : list UserInteraction.t;
  new : list Obj;
  uuid4 : nat -> UUID;
  uuid4_calls : nat;
  utcnow : nat -> datetime;
  utcnow_calls : nat
}.

Definition DB (A : Type) : Type := Stateful t A.

Definition with_books (bs : gmap UUID Book.t) (s : t) : t :=
  {| books := bs; borrows := borrows s; reviews := reviews s;
     user_interactions := user_interactions s; new := new s;
     uuid4 := uuid4 s; uuid4_calls := uuid4_calls s;
     utcnow := utcnow s; utcnow_calls := utcnow_calls s |}.

Definition with_new (objs : list Obj) (s : t) : t :=
  {| books := books s; borrows := borrows s; reviews := reviews s;
     user_interactions := user_interactions s; new := objs;
     uuid4 := uuid4 s; uuid4_calls := uuid4_calls s;
     utcnow := utcnow s; utcnow_calls := utcnow_calls s |}.

(** [session.add(obj)] *)
Definition add (obj : Obj) : DB unit :=
  fun s => (Returns tt, with_new (new s ++ [obj]) s).

(** The INSERT of one pending object: its column defaults are applied,
    one call of [uuid.uuid4] and one of [datetime.utcnow], and the row
    joins its table. *)
Definition insert (s : t) (obj : Obj) : t :=
  match obj with
  | ObjReview r =>
      {| books := books s; borrows := borrows s;
         reviews := reviews s ++
           [ {| Review.id := Some (uuid4 s (uuid4_calls s));
                Review.user_id := Review.user_id r;
                Review.book_id := Review.book_id r;
                Review.rating := Review.rating r;
                Review.text := Review.text r;
                Review.created_at := Some (utcnow s (utcnow_calls s)) |} ];
         user_interactions := user_interactions s; new := new s;
         uuid4 := uuid4 s; uuid4_calls := S (uuid4_calls s);
         utcnow := utcnow s; utcnow_calls := S (utcnow_calls s) |}
  | ObjInteraction i =>
      {| books := books s; borrows := borrows s; reviews := reviews s;
         user_interactions := user_interactions s ++
           [ {| UserInteraction.id := Some (uuid4 s (uuid4_calls s));
                UserInteraction.user_id := UserInteraction.user_id i;
                UserInteraction.book_id := UserInteraction.book_id i;
                UserInteraction.interaction_type :=
                  UserInteraction.interaction_type i;
                UserInteraction.rating := UserInteraction.rating i;
                UserInteraction.created_at :=
                  Some (utcnow s (utcnow_calls s)) |} ];
         new := new s;
         uuid4 := uuid4 s; uuid4_calls := S (uuid4_calls s);
         utcnow := utcnow s; utcnow_calls := S (utcnow_calls s) |}
  end.

(** [await session.flush()] *)
Definition flush : DB unit :=
  fun s => (Returns tt, fold_left insert (new s) (with_new [] s)).

(** [Result.scalar_one_or_none]: the only row, [None] for no row, and an
    exception for more than one. *)
Definition scalar_one_or_none {A} (rows : list A) : Outcome (option A) :=
  match rows with
  | [] => Returns None
  | [row] => Returns (Some row)
  | _ :: _ :: _ => Raises MultipleResultsFound
  end.

(** The rows of [select(Borrow).where(Borrow.book_id == book_id,
    Borrow.user_id == user_id)]. *)
Definition select_borrows (book_id user_id : UUID) (s : t)
  : list Borrow.t :=
  List.filter
    (fun b => (Borrow.book_id b =? book_id)%N
              && (Borrow.user_id b =? user_id)%N)
    (borrows s).

(** The rows of [select(Review).where(Review.book_id == book_id)]. *)
Definition select_reviews (book_id : UUID) (s : t) : list Review.t :=
  List.filter (fun r => (Review.book_id r =? book_id)%N) (reviews s).

End Session.

Import Session.

(** ** app/services/review.py *)

Module ReviewService.

(** Modelled from the spec: [ReviewCreateRequest] is declared in
    app/api/schemas.py, which is not among the sources; a review carries
    an integer rating and a text. *)
Record ReviewCreateRequest : Type := { rating : Z; text : string }.

(** [ReviewService.create_review].  The value returned is the [review]
    object; the flush has filled its defaults, and it is the row the
    flush inserted last into the reviews. *)
Definition create_review (book_id user_id : UUID)
           (data : ReviewCreateRequest) : DB Review.t :=
  (found <- (fun s =>
               (scalar_one_or_none (select_borrows book_id user_id s), s)) ;;
   match found with
   | None =>
       raise (HTTPException 403 "You must borrow a book before reviewing it")
   | Some _ =>
       let review := {|
         Review.id := None;
         Review.user_id := user_id;
         Review.book_id := book_id;
         Review.rating := rating data;
         Review.text := text data;
         Review.created_at := None |} in
       add (ObjReview review) ;;;
       as_float <- lift (float_of_int (rating data)) ;;
       let interaction := {|
         UserInteraction.id := None;
         UserInteraction.user_id := user_id;
         UserInteraction.book_id := book_id;
         UserInteraction.interaction_type := UserInteraction.review;
         UserInteraction.rating := Some as_float;
         UserInteraction.created_at := None |} in
       add (ObjInteraction interaction) ;;;
       flush ;;;
       (fun s => (Returns (List.last (reviews s) review), s))
   end)%io.

End ReviewService.

(** ** app/api/routes/intelligence.py *)

Module Intelligence.

(** Modelled from the spec: [AnalysisResponse] is declared in
    app/api/schemas.py, which is not among the sources; these are the
    fields [get_analysis] fills. *)
Record AnalysisResponse : Type := {
  book_id : UUID;
  summary : option string;
  review_consensus : option string;
  total_reviews : Z;
  average_rating : option float
}.

Section Database.

(** [func.avg(Review.rating)] as the database computes it over the
    selected ratings, read back with [float]; [None] is SQL NULL. *)
Variable sql_avg : list Z -> option float.

(** [get_analysis]: the book is looked up by primary key, so the query
    has at most one row. *)
Definition get_analysis (book_id : UUID) : DB AnalysisResponse :=
  fun s =>
    match books s !! book_id with
    | None => (Raises (HTTPException 404 "Book not found"), s)
    | Some book =>
        let ratings := map Review.rating (select_reviews book_id s) in
        (Returns {|
           book_id := Book.id book;
           summary := Book.summary book;
           review_consensus := Book.review_consensus book;
           total_reviews := Z.of_nat (length ratings);
           average_rating :=
             match sql_avg ratings with
             | Some avg =>
                 if float_is_zero avg then None
                 else Some (float_round_2 avg)
             | None => None
             end |}, s)
    end.

End Database.

End Intelligence.

(** ** The catalog and the consensus regeneration *)

Module Coordinator.

Definition set_summary (text : string) (b : Book.t) : Book.t :=
  {| Book.id := Book.id b; Book.title := Book.title b;
     Book.author := Book.author b; Book.isbn := Book.isbn b;
     Book.genres := Book.genres b; Book.file_path := Book.file_path b;
     Book.file_type := Book.file_type b; Book.summary := Some text;
     Book.review_consensus := Book.review_consensus b;
     Book.consensus_version := Book.consensus_version b;
     Book.created_at := Book.created_at b;
     Book.updated_at := Book.updated_at b |}.

Definition set_consensus (text : string) (version : Z) (b : Book.t)
  : Book.t :=
  {| Book.id := Book.id b; Book.title := Book.title b;
     Book.author := Book.author b; Book.isbn := Book.isbn b;
     Book.genres := Book.genres b; Book.file_path := Book.file_path b;
     Book.file_type := Book.file_type b; Book.summary := Book.summary b;
     Book.review_consensus := Some text;
     Book.consensus_version := version;
     Book.created_at := Book.created_at b;
     Book.updated_at := Book.updated_at b |}.

(** Modelled from the spec: the ingestion of a book is not among the
    sources.  A new row is inserted under the primary key [uuid.uuid4]
    yields, with no summary and no consensus, and [consensus_version]
    takes the column default of app/domain/models.py; [created_at] and
    [updated_at] each call [datetime.utcnow].  A key that is already
    taken is refused by the primary-key constraint. *)
Definition add_book (title author file_path file_type : string)
           (isbn : option string) (genres : list string) : DB UUID :=
  fun s =>
    let id := uuid4 s (uuid4_calls s) in
    match books s !! id with
    | Some _ => (Raises IntegrityError, s)
    | None =>
        let book := {|
          Book.id := id; Book.title := title; Book.author := author;
          Book.isbn := isbn; Book.genres := genres;
          Book.file_path := file_path; Book.file_type := file_type;
          Book.summary := None; Book.review_consensus := None;
          Book.consensus_version := Book.consensus_version_default;
          Book.created_at := utcnow s (utcnow_calls s);
          Book.updated_at := utcnow s (S (utcnow_calls s)) |} in
        (Returns id,
         {| books := <[id := book]> (books s); borrows := borrows s;
            reviews := reviews s;
            user_interactions := user_interactions s; new := new s;
            uuid4 := uuid4 s; uuid4_calls := S (uuid4_calls s);
            utcnow := utcnow s; utcnow_calls := S (S (utcnow_calls s)) |})
    end.

(** Modelled from the spec: [updateBookSummary(id, text)] of section 6,
    which is not among the sources, writes the summary of a book and
    nothing else. *)
Definition updateBookSummary (id : UUID) (text : string) : DB unit :=
  fun s =>
    match books s !! id with
    | Some b => (Returns tt, with_books (<[id := set_summary text b]> (books s)) s)
    | None => (Returns tt, s)
    end.

(** Modelled from the spec: [compareAndSwapConsensus(id, expectedVersion,
    newText)] of sections 4.3 and 6, which is not among the sources,
    writes the new consensus text and increments [consensus_version] only
    if the stored version still equals the expected one; otherwise the
    result of the regeneration is discarded.  It answers whether it
    wrote. *)
Definition compareAndSwapConsensus (id : UUID) (expectedVersion : Z)
           (newText : string) : DB bool :=
  fun s =>
    match books s !! id with
    | Some b =>
        if Book.consensus_version b =? expectedVersion
        then (Returns true,
              with_books
                (<[id := set_consensus newText (expectedVersion + 1) b]>
                   (books s)) s)
        else (Returns false, s)
    | None => (Returns false, s)
    end.

(** The operations of the program on the database: those of the sources
    ([get_analysis], [create_review]) and those modelled from the spec.
    A regeneration snapshots the version at some earlier point and ends
    with the commit [OpCommitConsensus]; one whose generation failed
    writes nothing and is no operation here. *)
Inductive Op : Type :=
| OpAddBook (title author file_path file_type : string)
    (isbn : option string) (genres : list string)
| OpUpdateBookSummary (id : UUID) (text : string)
| OpCommitConsensus (id : UUID) (expectedVersion : Z) (newText : string)
| OpGetAnalysis (id : UUID)
| OpCreateReview (book_id user_id : UUID)
    (data : ReviewService.ReviewCreateRequest).

Section Program.

Variable sql_avg : list Z -> option float.

Definition step (s : Session.t) (op : Op) : Session.t :=
  match op with
  | OpAddBook title author file_path file_type isbn genres =>
      snd (add_book title author file_path file_type isbn genres s)
  | OpUpdateBookSummary id text => snd (updateBookSummary id text s)
  | OpCommitConsensus id expected text =>
      snd (compareAndSwapConsensus id expected text s)
  | OpGetAnalysis id => snd (Intelligence.get_analysis sql_avg id s)
  | OpCreateReview book_id user_id data =>
      snd (ReviewService.create_review book_id user_id data s)
  end.

Definition run (ops : list Op) (s : Session.t) : Session.t :=
  fold_left step ops s.

(** Whether [op], applied in [s], is a commit on [id] that writes. *)
Definition commits (id : UUID) (s : Session.t) (op : Op) : bool :=
  match op with
  | OpCommitConsensus id' expected text =>
      (id' =? id)%N
      && match fst (compareAndSwapConsensus id' expected text s) with
         | Returns wrote => wrote
         | Raises _ => false
         end
  | _ => false
  end.

(** The number of commits on [id] that write along [ops] from [s]. *)
Fixpoint count_commits (id : UUID) (ops : list Op) (s : Session.t) : Z :=
  match ops with
  | [] => 0
  | op :: rest =>
      (if commits id s op then 1 else 0) + count_commits id rest (step s op)
  end.

End Program.

(** The stored version of a book, if the book exists. *)
Definition version_of (id : UUID) (s : Session.t) : option Z :=
  Book.consensus_version <$> (books s !! id).

(** The database before anything was stored. *)
Definition empty_session (uuids : nat -> UUID) (clock : nat -> datetime)
  : Session.t :=
  {| books := ∅; borrows := []; reviews := []; user_interactions := [];
     new := []; uuid4 := uuids; uuid4_calls := 0;
     utcnow := clock; utcnow_calls := 0 |}.

End Coordinator.

(** ** app/prompts/templates.py: the registry of the prompts *)

Module Registry.

Import Templates.

(** A [dict] whose order of keys is observed: its items in insertion
    order, each key once. *)
Definition Dict (V : Type) : Type := list (string * V).

(** [d[key] = value]: a key that is present keeps its place. *)
Fixpoint setitem {V} (key : string) (value : V) (d : Dict V) : Dict V :=
  match d with
  | [] => [(key, value)]
  | (k, v) :: rest =>
      if String.eqb k key then (k, value) :: rest
      else (k, v) :: setitem key value rest
  end.

(** [d.get(key)] *)
Fixpoint get {V} (key : string) (d : Dict V) : option V :=
  match d with
  | [] => None
  | (k, v) :: rest => if String.eqb k key then Some v else get key rest
  end.

(** [list(d.keys())] *)
Definition keys {V} (d : Dict V) : list string := map fst d.

(** [PROMPT_REGISTRY]: the dict display inserts its items from left to
    right. *)
Definition PROMPT_REGISTRY : Dict PromptTemplate :=
  setitem (name ANALYZE_REVIEWS) ANALYZE_REVIEWS
    (setitem (name SUMMARIZE_BOOK) SUMMARIZE_BOOK []).

(** Whether [repr] writes the string between single quotes as it is:
    printable ASCII without quote or backslash. *)
Fixpoint repr_is_plain (s : string) : bool :=
  match s with
  | EmptyString => true
  | String c s' =>
      let n := N_of_ascii c in
      ((32 <=? n) && (n <=? 126) && negb (n =? 39) && negb (n =? 92))%N
      && repr_is_plain s'
  end.

(** [repr(s)] for such a string. *)
Definition repr_str (s : string) : string := "'" +:+ s +:+ "'".

(** [str(xs)] for a list of such strings. *)
Definition str_of_list (xs : list string) : string :=
  "[" +:+ join ", " (map repr_str xs) +:+ "]".

(** [get_prompt] *)
Definition get_prompt (name : string) : Outcome PromptTemplate :=
  match get name PROMPT_REGISTRY with
  | None =>
      Raises (KeyError ("Prompt '" +:+ name +:+ "' not found. Available: "
                        +:+ str_of_list (keys PROMPT_REGISTRY)))
  | Some template => Returns template
  end.

End Registry.

(** ** The public methods of the Ollama and OpenAI adapters *)

(** [prompt[key]] on the dict a rendering returned. *)
Definition prompt_getitem (prompt : gmap string string) (key : string)
  : Outcome string :=
  match prompt !! key with
  | Some v => Returns v
  | None => Raises (KeyError key)
  end.

(** The methods render their prompt and hand it to [_generate].  A
    rendering outside the modelled fragment of [str.format] leaves the
    method outside the model as well ([None]). *)

Module OllamaMethods.

Import Templates Ollama.

Section Transport.

Variable post : string -> Payload -> IO Response.

(** [OllamaLLMAdapter.summarize_book] *)
Definition summarize_book (self : OllamaLLMAdapter) (text : string)
  : option (IO Json) :=
  match render_book_summary_prompt text with
  | None => None
  | Some rendered =>
      Some (prompt <- lift rendered ;;
            system <- lift (prompt_getitem prompt "system") ;;
            user <- lift (prompt_getitem prompt "user") ;;
            _generate post self system user
              (Templates.max_tokens SUMMARIZE_BOOK))%io
  end.

(** [OllamaLLMAdapter.analyze_reviews] *)
Definition analyze_reviews (self : OllamaLLMAdapter)
           (reviews : list ReviewDict) (current_consensus : option string)
  : option (IO Json) :=
  match render_review_consensus_prompt reviews current_consensus with
  | None => None
  | Some rendered =>
      Some (prompt <- lift rendered ;;
            system <- lift (prompt_getitem prompt "system") ;;
            user <- lift (prompt_getitem prompt "user") ;;
            _generate post self system user
              (Templates.max_tokens ANALYZE_REVIEWS))%io
  end.

End Transport.

End OllamaMethods.

Module OpenAIMethods.

Import Templates OpenAI.

Section Client.

Variable create : string -> Request -> IO ChatCompletion.

(** [OpenAILLMAdapter.summarize_book] *)
Definition summarize_book (self : OpenAILLMAdapter) (text : string)
  : option (IO string) :=
  match render_book_summary_prompt text with
  | None => None
  | Some rendered =>
      Some (prompt <- lift rendered ;;
            system <- lift (prompt_getitem prompt "system") ;;
            user <- lift (prompt_getitem prompt "user") ;;
            _generate create self system user
              (Templates.max_tokens SUMMARIZE_BOOK))%io
  end.

(** [OpenAILLMAdapter.analyze_reviews] *)
Definition analyze_reviews (self : OpenAILLMAdapter)
           (reviews : list ReviewDict) (current_consensus : option string)
  : option (IO string) :=
  match render_review_consensus_prompt reviews current_consensus with
  | None => None
  | Some rendered =>
      Some (prompt <- lift rendered ;;
            system <- lift (prompt_getitem prompt "system") ;;
            user <- lift (prompt_getitem prompt "user") ;;
            _generate create self system user
              (Templates.max_tokens ANALYZE_REVIEWS))%io
  end.

End Client.

End OpenAIMethods.

(** ** app/ports/recommender.py *)

Module Recommender.

Record RecommendationResult : Type := {
  book_id : UUID;
  score : float;
  reason : string
}.

End Recommender.

(** ** app/api/routes/intelligence.py: the recommendations *)

Module Recommendations.

(** Modelled from the spec: [RecommendationItem] and
    [RecommendationsResponse] are declared in app/api/schemas.py, which
    is not among the sources; these are the fields [get_recommendations]
    fills. *)
Record RecommendationItem : Type := {
  book_id : UUID;
  title : string;
  author : string;
  score : float;
  reason : string
}.

Record RecommendationsResponse : Type := {
  recommendations : list RecommendationItem
}.

(** The [RecommendationItem] the loop builds from a book and a result. *)
Definition item_of (book : Book.t) (rec : Recommender.RecommendationResult)
  : RecommendationItem :=
  {| book_id := Book.id book;
     title := Book.title book;
     author := Book.author book;
     score := Recommender.score rec;
     reason := Recommender.reason rec |}.

(** The loop [for rec in results]: each book is looked up by primary
    key, so its query has at most one row; a result whose book is not
    found adds nothing. *)
Fixpoint collect (results : list Recommender.RecommendationResult)
         (items : list RecommendationItem) : DB (list RecommendationItem) :=
  match results with
  | [] => ret items
  | rec :: rest =>
      (book <- (fun s =>
                  (Returns (books s !! Recommender.book_id rec), s)) ;;
       match book with
       | Some b => collect rest (items ++ [item_of b rec])
       | None => collect rest items
       end)%io
  end.

Section Engine.

(** [HybridRecommenderAdapter(...).recommend]: the adapter is not among
    the sources; the engine is the route's environment. *)
Variable recommend :
  UUID -> Z -> DB (list Recommender.RecommendationResult).

(** [get_recommendations], for the user [user_id] the request was
    authenticated as. *)
Definition get_recommendations (user_id : UUID)
  : DB RecommendationsResponse :=
  (results <- recommend user_id 10 ;;
   items <- collect results [] ;;
   ret {| recommendations := items |})%io.

End Engine.

End Recommendations.

(** ** app/domain/models.py: users and their preferences *)

Module Accounts.

Module User.
(** [id], [created_at] and [updated_at] are filled by their column
    defaults when the row is inserted. *)
Record t : Type := {
  id : option UUID;
  email : string;
  username : string;
  hashed_password : string;
  created_at : option datetime;
  updated_at : option datetime
}.
End User.

Module UserPreference.
Record t : Type := {
  id : option UUID;
  user_id : UUID;
  favorite_genres : list string;
  favorite_authors : list string
}.
End UserPreference.

End Accounts.

Import Accounts.

(** ** The session with the tables of the accounts

    The [AsyncSession] of the services that work on users and
    preferences: the session above, the rows of the two tables, the
    objects of these two classes that were added and not yet flushed, and
    the preference objects whose attributes were assigned since they were
    loaded.  Strings are compared as the database compares them under a
    deterministic collation, byte by byte.  The unique and foreign-key
    constraints of the schema are not enforced by the model. *)

Module Store.

Inductive Obj : Type :=
| ObjUser (u : User.t)
| ObjPreference (p : UserPreference.t).

Record t : Type := {
  session : Session.t;
  users : list User.t;
  user_preferences : list UserPreference.t;
  new : list Obj;
  dirty : list UserPreference.t
}.

Definition DB (A : Type) : Type := Stateful t A.

(** [session.add(obj)] *)
Definition add (obj : Obj) : DB unit :=
  fun st =>
    (Returns tt,
     {| session := session st; users := users st;
        user_preferences := user_preferences st;
        new := new st ++ [obj]; dirty := dirty st |}).

(** An assignment to the attributes of a loaded preference object: the
    object, with its new attributes, is written back by the next
    flush. *)
Definition assign (p : UserPreference.t) : DB unit :=
  fun st =>
    (Returns tt,
     {| session := session st; users := users st;
        user_preferences := user_preferences st;
        new := new st; dirty := dirty st ++ [p] |}).

(** The session after [calls] more calls of [uuid.uuid4]. *)
Definition after_uuid4 (calls : nat) (s : Session.t) : Session.t :=
  {| Session.books := Session.books s; Session.borrows := Session.borrows s;
     Session.reviews := Session.reviews s;
     Session.user_interactions := Session.user_interactions s;
     Session.new := Session.new s;
     Session.uuid4 := Session.uuid4 s;
     Session.uuid4_calls := (Session.uuid4_calls s + calls)%nat;
     Session.utcnow := Session.utcnow s;
     Session.utcnow_calls := Session.utcnow_calls s |}.

(** The session after [calls] more calls of [datetime.utcnow]. *)
Definition after_utcnow (calls : nat) (s : Session.t) : Session.t :=
  {| Session.books := Session.books s; Session.borrows := Session.borrows s;
     Session.reviews := Session.reviews s;
     Session.user_interactions := Session.user_interactions s;
     Session.new := Session.new s;
     Session.uuid4 := Session.uuid4 s;
     Session.uuid4_calls := Session.uuid4_calls s;
     Session.utcnow := Session.utcnow s;
     Session.utcnow_calls := (Session.utcnow_calls s + calls)%nat |}.

(** The INSERT of a pending user: [id] takes one call of [uuid.uuid4],
    [created_at] and [updated_at] one call of [datetime.utcnow] each. *)
Definition insert_user (st : t) (u : User.t) : t :=
  let s := session st in
  {| session := after_utcnow 2 (after_uuid4 1 s);
     users := users st ++
       [ {| User.id := Some (Session.uuid4 s (Session.uuid4_calls s));
            User.email := User.email u;
            User.username := User.username u;
            User.hashed_password := User.hashed_password u;
            User.created_at :=
              Some (Session.utcnow s (Session.utcnow_calls s));
            User.updated_at :=
              Some (Session.utcnow s (S (Session.utcnow_calls s))) |} ];
     user_preferences := user_preferences st;
     new := new st; dirty := dirty st |}.

(** The INSERT of a pending preference object. *)
Definition insert_preference (st : t) (p : UserPreference.t) : t :=
  let s := session st in
  {| session := after_uuid4 1 s;
     users := users st;
     user_preferences := user_preferences st ++
       [ {| UserPreference.id :=
              Some (Session.uuid4 s (Session.uuid4_calls s));
            UserPreference.user_id := UserPreference.user_id p;
            UserPreference.favorite_genres :=
              UserPreference.favorite_genres p;
            UserPreference.favorite_authors :=
              UserPreference.favorite_authors p |} ];
     new := new st; dirty := dirty st |}.

Definition same_id (a b : option UUID) : bool :=
  match a, b with
  | Some x, Some y => (x =? y)%N
  | _, _ => false
  end.

(** The UPDATE of an assigned preference object, by primary key. *)
Definition update_preference (st : t) (p : UserPreference.t) : t :=
  {| session := session st; users := users st;
     user_preferences :=
       map (fun row =>
              if same_id (UserPreference.id row) (UserPreference.id p)
              then p else row)
           (user_preferences st);
     new := new st; dirty := dirty st |}.

Definition pending_users (objs : list Obj) : list User.t :=
  omap (fun o => match o with ObjUser u => Some u | _ => None end) objs.

Definition pending_preferences (objs : list Obj) : list UserPreference.t :=
  omap (fun o => match o with ObjPreference p => Some p | _ => None end)
       objs.

(** [await session.flush()]: the unit of work writes table by table, a
    table after those it refers to: the pending users, then what is
    pending for the other tables of the session above, then the
    preferences, the assigned ones before the pending ones. *)
Definition flush : DB unit :=
  fun st =>
    let cleared :=
      {| session := session st; users := users st;
         user_preferences := user_preferences st;
         new := []; dirty := [] |} in
    let st1 := fold_left insert_user (pending_users (new st)) cleared in
    let st2 :=
      {| session := snd (Session.flush (session st1));
         users := users st1;
         user_preferences := user_preferences st1;
         new := []; dirty := [] |} in
    let st3 := fold_left update_preference (dirty st) st2 in
    let st4 :=
      fold_left insert_preference (pending_preferences (new st)) st3 in
    (Returns tt, st4).

(** The rows of [select(User).where(or_(User.email == email,
    User.username == username))]. *)
Definition select_users_by_email_or_username (email username : string)
           (st : t) : list User.t :=
  List.filter
    (fun u => String.eqb (User.email u) email
              || String.eqb (User.username u) username)
    (users st).

(** The rows of [select(User).where(User.email == email)]. *)
Definition select_users_by_email (email : string) (st : t) : list User.t :=
  List.filter (fun u => String.eqb (User.email u) email) (users st).

(** The rows of [select(UserPreference).where(UserPreference.user_id ==
    user_id)]. *)
Definition select_preferences (user_id : UUID) (st : t)
  : list UserPreference.t :=
  List.filter (fun p => (UserPreference.user_id p =? user_id)%N)
              (user_preferences st).

End Store.

(** ** app/services/auth.py *)

Module AuthService.

(** Modelled from the spec: [SignupRequest] is declared in
    app/api/schemas.py, which is not among the sources; [signup] reads
    these three attributes, which the tests send under these names. *)
Record SignupRequest : Type := {
  email : string;
  username : string;
  password : string
}.

Section Middleware.

(** [hash_password], [verify_password] and [create_access_token] of
    app/api/middleware/auth.py, which is not among the sources: they are
    the service's environment, each as it answers during the call under
    study. *)
Variable hash_password : string -> string.
Variable verify_password : string -> string -> bool.
Variable create_access_token : option UUID -> string.

(** [AuthService.signup].  The value returned is the [user] object; the
    flush has filled its defaults, and it is the row the flush inserted
    last into the users. *)
Definition signup (data : SignupRequest) : Store.DB User.t :=
  (existing <- (fun st =>
                  (scalar_one_or_none
                     (Store.select_users_by_email_or_username
                        (email data) (username data) st), st)) ;;
   match existing with
   | Some _ =>
       raise (HTTPException 409 "Email or username already registered")
   | None =>
       let user := {|
         User.id := None;
         User.email := email data;
         User.username := username data;
         User.hashed_password := hash_password (password data);
         User.created_at := None;
         User.updated_at := None |} in
       Store.add (Store.ObjUser user) ;;;
       Store.flush ;;;
       (fun st => (Returns (List.last (Store.users st) user), st))
   end)%io.

(** [AuthService.login] *)
Definition login (email password : string) : Store.DB string :=
  (user <- (fun st =>
              (scalar_one_or_none (Store.select_users_by_email email st),
               st)) ;;
   match user with
   | Some u =>
       if verify_password password (User.hashed_password u)
       then ret (create_access_token (User.id u))
       else raise (HTTPException 401 "Invalid credentials")
   | None => raise (HTTPException 401 "Invalid credentials")
   end)%io.

End Middleware.

End AuthService.

(** ** app/api/routes/intelligence.py: the preferences *)

Module Preferences.

(** Modelled from the spec: [PreferencesRequest] is declared in
    app/api/schemas.py, which is not among the sources; it carries the
    two lists of section 3 of the specification, under the names the
    tests send. *)
Module PreferencesRequest.
Record t : Type := {
  favorite_genres : list string;
  favorite_authors : list string
}.
End PreferencesRequest.

(** Modelled from the spec: [PreferencesResponse] is declared in
    app/api/schemas.py as well; it carries the two lists under the names
    the tests read. *)
Module PreferencesResponse.
Record t : Type := {
  favorite_genres : list string;
  favorite_authors : list string
}.
End PreferencesResponse.

(** [PreferencesResponse.model_validate(prefs)] *)
Definition model_validate (prefs : UserPreference.t)
  : PreferencesResponse.t :=
  {| PreferencesResponse.favorite_genres :=
       UserPreference.favorite_genres prefs;
     PreferencesResponse.favorite_authors :=
       UserPreference.favorite_authors prefs |}.

(** [update_preferences], for the user [user_id] the request was
    authenticated as. *)
Definition update_preferences (data : PreferencesRequest.t)
           (user_id : UUID) : Store.DB PreferencesResponse.t :=
  (found <- (fun st =>
               (scalar_one_or_none (Store.select_preferences user_id st),
                st)) ;;
   prefs <- match found with
            | Some prefs =>
                let prefs := {|
                  UserPreference.id := UserPreference.id prefs;
                  UserPreference.user_id := UserPreference.user_id prefs;
                  UserPreference.favorite_genres :=
                    PreferencesRequest.favorite_genres data;
                  UserPreference.favorite_authors :=
                    PreferencesRequest.favorite_authors data
                |} in
                Store.assign prefs ;;; ret prefs
            | None =>
                let prefs := {|
                  UserPreference.id := None;
                  UserPreference.user_id := user_id;
                  UserPreference.favorite_genres :=
                    PreferencesRequest.favorite_genres data;
                  UserPreference.favorite_authors :=
                    PreferencesRequest.favorite_authors data
                |} in
                Store.add (Store.ObjPreference prefs) ;;; ret prefs
            end ;;
   Store.flush ;;;
   ret (model_validate prefs))%io.

End Preferences.

(** ** Vocabulary of the properties *)

Module Vocabulary.

Import Templates.

(** The last character of a string. *)
Fixpoint last_char (s : string) : option ascii :=
  match s with
  | EmptyString => None
  | String c EmptyString => Some c
  | String _ s' => last_char s'
  end.

(** Whether [body] ends with a full stop. *)
Definition ends_with_period (body : string) : Prop :=
  exists p, body = p +:+ ".".

(** The window of twenty characters of the text below has its full stop
    at index 16, the first of its last four characters. *)
Definition boundary_text : string := "aaaaaaaaaaaaaaaa.bcde".

(** The only sentence end of this text is an exclamation mark, at index
    17. *)
Definition exclamation_text : string := "aaaaaaaaaaaaaaaaa!bcde".

(** The full stop of this text is at index 17, beyond four fifths of a
    window of twenty characters. *)
Definition late_period_text : string := "aaaaaaaaaaaaaaaaa.cde".

(** The names of the replacement fields of a format string, from left to
    right, as [string.Formatter().parse] yields them; [None] when the
    format string is malformed or leaves the modelled fragment.  The
    scan is the one of [format_scan], without the lookups. *)
Fixpoint scan_fields (st : scan_state) (s : string) : option (list string) :=
  match st, s with
  | InText, EmptyString => Some []
  | InText, String c rest =>
      if Ascii.eqb c "{" then
        match rest with
        | EmptyString => None
        | String c2 rest2 =>
            if Ascii.eqb c2 "{" then scan_fields InText rest2
            else scan_fields (InField "") rest
        end
      else if Ascii.eqb c "}" then
        match rest with
        | String c2 rest2 =>
            if Ascii.eqb c2 "}" then scan_fields InText rest2 else None
        | EmptyString => None
        end
      else scan_fields InText rest
  | InField _, EmptyString => None
  | InField field_name, String c rest =>
      if Ascii.eqb c "}" then
        option_map (cons field_name) (scan_fields InText rest)
      else if Ascii.eqb c "{" then None
      else if is_unmodelled_field_char c then None
      else scan_fields (InField (field_name +:+ String c "")) rest
  end.

Definition placeholders (template : string) : option (list string) :=
  scan_fields InText template.

(** A template whose user message has a positional field before its
    keyword field; the other attributes take the defaults of the
    dataclass. *)
Definition positional_template : PromptTemplate :=
  {| name := "positional"; version := "0.0.1"; system := "";
     user_template := "{0} {content}";
     max_tokens := 1024; input_token_limit := 4000; tags := [] |}.

(** A field name that is looked up among the keyword arguments: neither
    empty nor a number. *)
Definition is_keyword_name (field_name : string) : bool :=
  negb (String.eqb field_name "") && negb (all_decimal field_name).

(** Text without braces, and field names without braces or the characters
    that start a conversion, a format specification or an access. *)
Fixpoint brace_free (s : string) : bool :=
  match s with
  | EmptyString => true
  | String c s' =>
      negb (Ascii.eqb c "{") && negb (Ascii.eqb c "}") && brace_free s'
  end.

Fixpoint plain_name (s : string) : bool :=
  match s with
  | EmptyString => true
  | String c s' =>
      negb (Ascii.eqb c "{") && negb (Ascii.eqb c "}")
      && negb (is_unmodelled_field_char c) && plain_name s'
  end.

(** The fixed text of the consensus prompt around its two fields. *)
Definition REVIEWS_HEAD : string :=
  "Below are reader reviews for this book:" +:+ nl +:+ nl
  +:+ "--- REVIEWS (START) ---" +:+ nl.

Definition REVIEWS_TAIL : string :=
  nl +:+ "--- REVIEWS (END) ---" +:+ nl +:+ nl
  +:+ "Synthesize these into an updated consensus summary:".

(** The previous-consensus section around a consensus text: its frame and
    the instruction to update. *)
Definition framed_consensus (consensus : string) : string :=
  "--- PREVIOUS CONSENSUS (START) ---" +:+ nl
  +:+ consensus +:+ nl
  +:+ "--- PREVIOUS CONSENSUS (END) ---" +:+ nl +:+ nl
  +:+ "Update the above consensus with the new reviews below."
  +:+ nl +:+ nl.

(** A previous consensus is present: there is a text, and it is not
    empty. *)
Definition consensus_present (current_consensus : option string) : Prop :=
  exists consensus, current_consensus = Some consensus /\ consensus <> "".

(** [gt_times_0_8] and the machine comparison agree at the window [n]
    for the [count] indices from [lo] on. *)
Definition comparison_agrees (n lo : Z) (count : nat) : bool :=
  forallb
    (fun k =>
       let i := lo + Z.of_nat k in
       Bool.eqb (binary64_gt_times_0_8 i n) (gt_times_0_8 i n))
    (seq 0 count).

(** They agree at every index of every window of the caps 1 to [caps]. *)
Definition comparison_agrees_up_to (caps : nat) : bool :=
  forallb
    (fun cap =>
       let n := Z.of_nat cap * 4 in
       comparison_agrees n 0 (S (Z.to_nat n)))
    (seq 1 caps).

(** [truediv] and the machine division agree on every quotient
    [total / count] with [0 <= total <= 5 * count], for the counts 1 to
    [counts]. *)
Definition truediv_agrees_up_to (counts : nat) : bool :=
  forallb
    (fun c =>
       let count := Z.of_nat c in
       forallb
         (fun t =>
            let total := Z.of_nat t in
            match truediv total count with
            | Returns x =>
                is_binary64 x (PrimFloat.div (binary64_of_int total)
                                             (binary64_of_int count))
            | Raises _ => false
            end)
         (seq 0 (S (5 * c))))
    (seq 1 counts).

(** The concatenation of the strings of a list. *)
Fixpoint concat_strings (items : list string) : string :=
  match items with
  | [] => ""
  | x :: rest => x +:+ concat_strings rest
  end.

(** Transports for the examples: a server that answers every request
    with a given status and no JSON body, a connection that fails, and a
    client call that raises. *)
Definition post_status (code : Z)
  : string -> Ollama.Payload -> IO Ollama.Response :=
  fun _ _ => ret {| Ollama.status_code := code; Ollama.json_body := None |}.

Definition post_raising (kind : HttpxRequestError)
  : string -> Ollama.Payload -> IO Ollama.Response :=
  fun _ _ => raise (RequestError kind).

Definition create_raising (e : Exc)
  : string -> OpenAI.Request -> IO OpenAI.ChatCompletion :=
  fun _ _ => raise e.

(** The request [OllamaLLMAdapter._generate] sends. *)
Definition ollama_url (self : Ollama.OllamaLLMAdapter) : string :=
  Ollama._base_url self +:+ "/api/chat".

Definition ollama_payload (self : Ollama.OllamaLLMAdapter)
           (system user : string) (max_tokens : Z) : Ollama.Payload :=
  {| Ollama.model := Ollama._model self;
     Ollama.messages :=
       [ {| Ollama.role := "system"; Ollama.content := system |};
         {| Ollama.role := "user"; Ollama.content := user |} ];
     Ollama.stream := false;
     Ollama.num_predict := max_tokens |}.

(** The request [OpenAILLMAdapter._generate] sends. *)
Definition openai_request (self : OpenAI.OpenAILLMAdapter)
           (system user : string) (max_tokens : Z) : OpenAI.Request :=
  {| OpenAI.model := OpenAI._model self;
     OpenAI.messages :=
       [ {| OpenAI.role := "system"; OpenAI.content := system |};
         {| OpenAI.role := "user"; OpenAI.content := user |} ];
     OpenAI.max_tokens := max_tokens;
     OpenAI.temperature := OpenAI.temperature_0_7 |}.

(** The world after an adapter has logged its request. *)
Definition after_request_log (logger_name provider model : string)
           (max_tokens : Z) (w : World) : World :=
  w ++ [Logged logger_name
          (provider +:+ " request: model=" +:+ model +:+ ", max_tokens="
           +:+ str_of_int max_tokens)].

(** The session after a flush of what was pending. *)
Definition flushed (s : Session.t) : Session.t := snd (flush s).

(** The review and the interaction [create_review] builds, as the flush
    stores them after the objects that were pending in [s]. *)
Definition stored_review (s : Session.t) (book_id user_id : UUID)
           (data : ReviewService.ReviewCreateRequest) : Review.t :=
  {| Review.id := Some (uuid4 s (uuid4_calls (flushed s)));
     Review.user_id := user_id;
     Review.book_id := book_id;
     Review.rating := ReviewService.rating data;
     Review.text := ReviewService.text data;
     Review.created_at := Some (utcnow s (utcnow_calls (flushed s))) |}.

Definition stored_interaction (s : Session.t) (book_id user_id : UUID)
           (as_float : float) : UserInteraction.t :=
  {| UserInteraction.id := Some (uuid4 s (S (uuid4_calls (flushed s))));
     UserInteraction.user_id := user_id;
     UserInteraction.book_id := book_id;
     UserInteraction.interaction_type := UserInteraction.review;
     UserInteraction.rating := Some as_float;
     UserInteraction.created_at :=
       Some (utcnow s (S (utcnow_calls (flushed s)))) |}.

(** The user has a borrow record for the book, returned or not. *)
Definition has_borrowed (s : Session.t) (book_id user_id : UUID) : Prop :=
  exists b, In b (borrows s)
            /\ Borrow.book_id b = book_id /\ Borrow.user_id b = user_id.

(** A session in which user 7 has borrowed book 3 once and not returned
    it; nothing is pending. *)
Definition once_borrowed : Session.t :=
  {| books := ∅;
     borrows :=
       [ {| Borrow.id := 100%N; Borrow.user_id := 7%N;
            Borrow.book_id := 3%N;
            Borrow.borrowed_at := 1000; Borrow.returned_at := None |} ];
     reviews := []; user_interactions := []; new := [];
     uuid4 := fun k => (200 + N.of_nat k)%N; uuid4_calls := 0;
     utcnow := fun k => 5000 + Z.of_nat k; utcnow_calls := 0 |}.

(** A server that answers every chat request with the message [text]. *)
Definition post_answering (text : string)
  : string -> Ollama.Payload -> IO Ollama.Response :=
  fun _ _ =>
    ret {| Ollama.status_code := 200;
           Ollama.json_body :=
             Some (Ollama.JObject
                     [("message",
                       Ollama.JObject [("role", Ollama.JString "assistant");
                                       ("content", Ollama.JString text)])]) |}.

(** A session in which user 7 borrowed book 3 twice: the first borrow was
    returned, the second is active. *)
Definition twice_borrowed : Session.t :=
  {| books := ∅;
     borrows :=
       [ {| Borrow.id := 100%N; Borrow.user_id := 7%N;
            Borrow.book_id := 3%N;
            Borrow.borrowed_at := 1000; Borrow.returned_at := Some 2000 |};
         {| Borrow.id := 101%N; Borrow.user_id := 7%N;
            Borrow.book_id := 3%N;
            Borrow.borrowed_at := 3000; Borrow.returned_at := None |} ];
     reviews := []; user_interactions := []; new := [];
     uuid4 := fun k => (102 + N.of_nat k)%N; uuid4_calls := 0;
     utcnow := fun k => 4000 + Z.of_nat k; utcnow_calls := 0 |}.

(** Whether the character [c] occurs in [s]. *)
Fixpoint occurs (c : ascii) (s : string) : bool :=
  match s with
  | EmptyString => false
  | String a s' => Ascii.eqb a c || occurs c s'
  end.

(** The fixed text of the summary prompt around its field. *)
Definition SUMMARY_HEAD : string :=
  "Please summarize the following book content." +:+ nl +:+ nl
  +:+ "--- BOOK CONTENT (START) ---" +:+ nl.

Definition SUMMARY_TAIL : string :=
  nl +:+ "--- BOOK CONTENT (END) ---" +:+ nl +:+ nl
  +:+ "Provide a comprehensive summary in 3-5 paragraphs:".

(** A run of [k] slashes. *)
Fixpoint slashes (k : nat) : string :=
  match k with
  | O => ""
  | S k' => String "/" (slashes k')
  end.

(** The session [once_borrowed] with book 3 in the catalog. *)
Definition book_3 : Book.t :=
  {| Book.id := 3%N; Book.title := "Middlemarch";
     Book.author := "George Eliot"; Book.isbn := None;
     Book.genres := ["fiction"]; Book.file_path := "books/3.txt";
     Book.file_type := "txt";
     Book.summary := Some "A study of provincial life.";
     Book.review_consensus := None; Book.consensus_version := 0;
     Book.created_at := 900; Book.updated_at := 900 |}.

Definition library_session : Session.t :=
  with_books (<[3%N := book_3]> ∅) once_borrowed.

(** An engine that recommends book 3 and a book 4 that is not in the
    catalog. *)
Definition recommend_two
  : UUID -> Z -> DB (list Recommender.RecommendationResult) :=
  fun _ _ =>
    ret [ {| Recommender.book_id := 4%N;
             Recommender.score := float_literal 1;
             Recommender.reason := "popular" |};
          {| Recommender.book_id := 3%N;
             Recommender.score := float_literal 0;
             Recommender.reason := "matches your genres" |} ].

(** Nothing is waiting for the next flush: no added object and no
    assigned attribute.  This is the session of a request when a service
    starts. *)
Definition nothing_pending (st : Store.t) : Prop :=
  Store.new st = [] /\ Store.dirty st = []
  /\ Session.new (Store.session st) = [].

(** The primary key of the preferences: every row has an [id], and no
    two rows share one. *)
Definition preference_keys (st : Store.t) : Prop :=
  Forall (fun p => is_Some (UserPreference.id p)) (Store.user_preferences st)
  /\ NoDup (map UserPreference.id (Store.user_preferences st)).

(** The unique constraints of the users: no two rows share an email or a
    username. *)
Definition accounts_unique (st : Store.t) : Prop :=
  NoDup (map User.email (Store.users st))
  /\ NoDup (map User.username (Store.users st)).

(** The row the flush stores for the user [signup] builds, when nothing
    else is pending. *)
Definition stored_user (hash_password : string -> string) (st : Store.t)
           (data : AuthService.SignupRequest) : User.t :=
  let s := Store.session st in
  {| User.id := Some (Session.uuid4 s (Session.uuid4_calls s));
     User.email := AuthService.email data;
     User.username := AuthService.username data;
     User.hashed_password := hash_password (AuthService.password data);
     User.created_at := Some (Session.utcnow s (Session.utcnow_calls s));
     User.updated_at :=
       Some (Session.utcnow s (S (Session.utcnow_calls s))) |}.

(** A middleware for the examples: the hash of a password is the
    password behind a fixed prefix, and the token of a user is fixed. *)
Definition example_hash_password (password : string) : string :=
  "hash:" +:+ password.

Definition example_verify_password (password hashed : string) : bool :=
  String.eqb hashed ("hash:" +:+ password).

Definition example_create_access_token (id : option UUID) : string :=
  match id with
  | Some n => "token-" +:+ pretty n
  | None => "token"
  end.

(** A store with the user ada, who has stated her preferences, and
    nothing pending. *)
Definition ada : User.t :=
  {| User.id := Some 7%N; User.email := "ada@example.org";
     User.username := "ada"; User.hashed_password := "hash:engine";
     User.created_at := Some 100; User.updated_at := Some 100 |}.

Definition ada_preferences : UserPreference.t :=
  {| UserPreference.id := Some 50%N; UserPreference.user_id := 7%N;
     UserPreference.favorite_genres := ["mathematics"];
     UserPreference.favorite_authors := [] |}.

Definition ada_store : Store.t :=
  {| Store.session := once_borrowed;
     Store.users := [ada];
     Store.user_preferences := [ada_preferences];
     Store.new := []; Store.dirty := [] |}.

(** The request of bob, who is not yet a user, and new preferences. *)
Definition bob_signup : AuthService.SignupRequest :=
  {| AuthService.email := "bob@example.org";
     AuthService.username := "bob";
     AuthService.password := "s3cret" |}.

Definition new_preferences : Preferences.PreferencesRequest.t :=
  {| Preferences.PreferencesRequest.favorite_genres := ["poetry"; "history"];
     Preferences.PreferencesRequest.favorite_authors := ["Sappho"] |}.

(** The keyword arguments of a summary rendering, and the same with an
    argument the template has no field for. *)
Definition summary_kwargs : gmap string string :=
  <["content" := "A short book."]> ∅.

Definition summary_kwargs_extra : gmap string string :=
  <["language" := "en"]> (<["content" := "A short book."]> ∅).

End Vocabulary.

Import Vocabulary.

(** * Properties *)

(** ** The definitions at work *)

Section Examples.

Import Templates.

Example estimate_tokens_9_chars : estimate_tokens "abcdefghi" = 2.
Proof. reflexivity. Qed.

Example truncate_short_text : truncate_to_tokens "Short. Text." 5 = "Short. Text.".
Proof. reflexivity. Qed.

Example truncate_at_late_period :
  truncate_to_tokens late_period_text 5
  = "aaaaaaaaaaaaaaaaa." +:+ TRUNCATION_MARKER.
Proof. reflexivity. Qed.

Example truncate_without_period :
  truncate_to_tokens "abcdefghij" 2 = "abcdefgh" +:+ TRUNCATION_MARKER.
Proof. reflexivity. Qed.

Example truncate_early_period :
  truncate_to_tokens "ab.defghij" 2 = "ab.defgh" +:+ TRUNCATION_MARKER.
Proof. reflexivity. Qed.

Example format_fields_and_escapes :
  str_format "{a} and {{b}} and {c}" (<["a" := "x{y}"]> (<["c" := "z"]> ∅))
  = Some (Returns "x{y} and {b} and z").
Proof. vm_compute. reflexivity. Qed.

Example format_missing_field_first :
  str_format "{a} and {c} }" (<["a" := "x"]> ∅)
  = Some (Raises (KeyError "c")).
Proof. vm_compute. reflexivity. Qed.

Example format_stray_brace :
  str_format "} {c}" ∅
  = Some (Raises (ValueError "Single '}' encountered in format string")).
Proof. vm_compute. reflexivity. Qed.

Example format_positional_field :
  str_format "{0}" (<["a" := "x"]> ∅)
  = Some (Raises (IndexError
            "Replacement index 0 out of range for positional args tuple")).
Proof. vm_compute. reflexivity. Qed.

Example format_attribute_access_not_modelled :
  str_format "{a.real}" (<["a" := "x"]> ∅) = None.
Proof. vm_compute. reflexivity. Qed.

Example render_summary_prompt_user :
  match render_book_summary_prompt "Call me Ishmael." with
  | Some (Returns messages) => messages !! "user"
  | _ => None
  end
  = Some ("Please summarize the following book content." +:+ nl +:+ nl
          +:+ "--- BOOK CONTENT (START) ---" +:+ nl
          +:+ "Call me Ishmael." +:+ nl
          +:+ "--- BOOK CONTENT (END) ---" +:+ nl +:+ nl
          +:+ "Provide a comprehensive summary in 3-5 paragraphs:").
Proof. vm_compute. reflexivity. Qed.

Example render_consensus_prompt_user :
  match render_review_consensus_prompt
          [ {| rating := 5; text := "great" |};
            {| rating := 2; text := "too long" |} ] (Some "Liked.") with
  | Some (Returns messages) => messages !! "user"
  | _ => None
  end
  = Some ("--- PREVIOUS CONSENSUS (START) ---" +:+ nl
          +:+ "Liked." +:+ nl
          +:+ "--- PREVIOUS CONSENSUS (END) ---" +:+ nl +:+ nl
          +:+ "Update the above consensus with the new reviews below."
          +:+ nl +:+ nl
          +:+ "Below are reader reviews for this book:" +:+ nl +:+ nl
          +:+ "--- REVIEWS (START) ---" +:+ nl
          +:+ "[Rating: 5/5]" +:+ nl +:+ "great" +:+ nl +:+ nl
          +:+ "[Rating: 2/5]" +:+ nl +:+ "too long" +:+ nl
          +:+ "--- REVIEWS (END) ---" +:+ nl +:+ nl
          +:+ "Synthesize these into an updated consensus summary:").
Proof. vm_compute. reflexivity. Qed.

(** 23/20 is the double just below 1.15, 27/20 the double just above
    1.35, and 5/4 is exactly 1.25, a tie that goes to the even digit. *)
Example format_1f_of_averages :
  map (fun '(total, count) =>
         match truediv total count with
         | Returns avg => format_1f avg
         | Raises _ => "raised"
         end)
      [(23, 20); (27, 20); (5, 4); (7, 2); (0, 3); (-1, 25); (10, 1)]
  = ["1.1"; "1.4"; "1.2"; "3.5"; "0.0"; "-0.0"; "10.0"].
Proof. vm_compute. reflexivity. Qed.

Example words_of_a_text :
  len_split ("  two" +:+ nl +:+ "words ") = 2 /\ len_split "" = 0.
Proof. split; reflexivity. Qed.

Example mock_consensus_of_two_reviews :
  fst (Mock.analyze_reviews
         [ {| rating := 5; text := "great" |};
           {| rating := 2; text := "too long" |} ] None [])
  = Returns ("Based on 2 reader reviews with an average rating of 3.5/5, "
             +:+ "the overall sentiment is generally positive with some "
             +:+ "reservations." +:+ nl +:+ nl +:+ Mock.consensus_tail).
Proof. vm_compute. reflexivity. Qed.

Example ollama_answer :
  Ollama._generate (post_answering "Fine.")
    (Ollama.init "http://localhost:11434/" "llama3") "system" "user" 512 []
  = (Returns (Ollama.JString "Fine."),
     [Logged Ollama.logger_name "Ollama request: model=llama3, max_tokens=512";
      Logged Ollama.logger_name "Ollama response: 5 chars"]).
Proof. vm_compute. reflexivity. Qed.

Example create_review_after_borrow :
  let data := {| ReviewService.rating := 5;
                 ReviewService.text := "Absolutely fantastic read" |} in
  let '(outcome, s') := ReviewService.create_review 3%N 7%N data once_borrowed in
  outcome
  = Returns {| Review.id := Some 200%N; Review.user_id := 7%N;
               Review.book_id := 3%N; Review.rating := 5;
               Review.text := "Absolutely fantastic read";
               Review.created_at := Some 5000 |}
  /\ length (reviews s') = 1%nat
  /\ user_interactions s'
     = [ {| UserInteraction.id := Some 201%N;
            UserInteraction.user_id := 7%N;
            UserInteraction.book_id := 3%N;
            UserInteraction.interaction_type := UserInteraction.review;
            UserInteraction.rating :=
              Some {| neg := false; mant := 5629499534213120; expo := -50 |};
            UserInteraction.created_at := Some 5001 |} ].
Proof. vm_compute. repeat split; reflexivity. Qed.

Example create_review_without_borrow :
  fst (ReviewService.create_review 4%N 7%N
         {| ReviewService.rating := 4; ReviewService.text := "Great book" |}
         once_borrowed)
  = Raises (HTTPException 403 "You must borrow a book before reviewing it").
Proof. reflexivity. Qed.

End Examples.

(** ** Strings *)

Section StringFacts.

Lemma append_nil_l (s : string) : "" +:+ s = s.
Proof. reflexivity. Qed.

Lemma append_cons (c : ascii) (s1 s2 : string) :
  String c s1 +:+ s2 = String c (s1 +:+ s2).
Proof. reflexivity. Qed.

Lemma length_append (s1 s2 : string) :
  String.length (s1 +:+ s2) = (String.length s1 + String.length s2)%nat.
Proof.
  induction s1 as [|c s1 IH]; [reflexivity|].
  rewrite append_cons. cbn [String.length]. now rewrite IH.
Qed.

Lemma len_append (s1 s2 : string) : len (s1 +:+ s2) = len s1 + len s2.
Proof. unfold len. rewrite length_append. lia. Qed.

Lemma len_nonneg (s : string) : 0 <= len s.
Proof. unfold len. lia. Qed.

Lemma append_assoc (s1 s2 s3 : string) :
  (s1 +:+ s2) +:+ s3 = s1 +:+ (s2 +:+ s3).
Proof.
  induction s1 as [|c s1 IH]; [reflexivity|].
  rewrite !append_cons. now rewrite IH.
Qed.

Lemma append_empty_r (s : string) : s +:+ "" = s.
Proof.
  induction s as [|c s IH]; [reflexivity|].
  rewrite append_cons. now rewrite IH.
Qed.

Lemma append_inv_tail (s1 s2 m : string) :
  s1 +:+ m = s2 +:+ m -> s1 = s2.
Proof.
  revert s2. induction s1 as [|c s1 IH]; intros [|c2 s2] H.
  - reflexivity.
  - apply (f_equal String.length) in H.
    rewrite append_nil_l, append_cons in H. cbn [String.length] in H.
    rewrite length_append in H. lia.
  - apply (f_equal String.length) in H.
    rewrite append_nil_l, append_cons in H. cbn [String.length] in H.
    rewrite length_append in H. lia.
  - rewrite !append_cons in H. injection H as -> H. f_equal. now apply IH.
Qed.

Lemma length_take (n : nat) (s : string) :
  String.length (take n s) = Nat.min n (String.length s).
Proof.
  revert s. induction n as [|n IH]; intros [|c s]; cbn; try reflexivity.
  now rewrite IH.
Qed.

Lemma take_all (n : nat) (s : string) :
  (String.length s <= n)%nat -> take n s = s.
Proof.
  revert s. induction n as [|n IH]; intros [|c s] H; cbn in *;
    try reflexivity; try lia.
  f_equal. apply IH. lia.
Qed.

Lemma take_take (n m : nat) (s : string) :
  take n (take m s) = take (Nat.min n m) s.
Proof.
  revert m s. induction n as [|n IH]; intros [|m] [|c s]; cbn;
    try reflexivity.
  now rewrite IH.
Qed.

Lemma get_take (n k : nat) (s : string) :
  (k < n)%nat -> String.get k (take n s) = String.get k s.
Proof.
  revert k s. induction n as [|n IH]; intros k [|c s] H; cbn;
    try reflexivity; try lia.
  destruct k as [|k]; [reflexivity|]. apply IH. lia.
Qed.

Lemma take_succ_get (k : nat) (s : string) (c : ascii) :
  String.get k s = Some c -> take (S k) s = take k s +:+ String c "".
Proof.
  revert s. induction k as [|k IH]; intros [|a s] H; cbn in H; try discriminate.
  - injection H as ->. reflexivity.
  - change (take (S (S k)) (String a s)) with (String a (take (S k) s)).
    rewrite (IH _ H). reflexivity.
Qed.

Lemma get_some_lt (k : nat) (s : string) (c : ascii) :
  String.get k s = Some c -> (k < String.length s)%nat.
Proof.
  revert s. induction k as [|k IH]; intros [|a s] H; cbn in *;
    try discriminate; try lia.
  specialize (IH _ H). lia.
Qed.

Lemma last_char_append (p : string) (c : ascii) :
  last_char (p +:+ String c "") = Some c.
Proof.
  induction p as [|a p IH]; [reflexivity|].
  rewrite append_cons. cbn [last_char].
  destruct (p +:+ String c "") eqn:E; [|exact IH].
  destruct p; discriminate.
Qed.

(** What [rfind_from] finds: either nothing, and then the character does
    not occur, or the highest index that holds it. *)
Lemma rfind_from_spec (c : ascii) (s : string) (i : Z) :
  0 <= i ->
  let r := rfind_from c s i in
  (r = -1 /\ forall k, String.get k s <> Some c)
  \/ (i <= r < i + len s
      /\ String.get (Z.to_nat (r - i)) s = Some c
      /\ forall k, String.get k s = Some c -> i + Z.of_nat k <= r).
Proof.
  revert i. induction s as [|a s IH]; intros i Hi; cbn zeta.
  - left. split; [reflexivity|]. intros k. destruct k; discriminate.
  - cbn [rfind_from].
    destruct (IH (i + 1) ltac:(lia)) as [[Hr Hno] | (Hr & Hget & Hmax)].
    + rewrite Hr. cbn [Z.leb Z.compare].
      destruct (Ascii.eqb_spec a c) as [->|Hne].
      * right. unfold len; cbn [String.length]. split; [lia|].
        rewrite Z.sub_diag. split; [reflexivity|].
        intros [|k] Hk; [lia|]. cbn in Hk. exfalso. exact (Hno k Hk).
      * left. split; [reflexivity|].
        intros [|k]; cbn; [congruence | apply Hno].
    + assert ((0 <=? rfind_from c s (i + 1)) = true) as ->
        by (apply Z.leb_le; lia).
      right. unfold len in *; cbn [String.length]. split; [lia|]. split.
      * replace (Z.to_nat (rfind_from c s (i + 1) - i))
          with (S (Z.to_nat (rfind_from c s (i + 1) - (i + 1)))) by lia.
        exact Hget.
      * intros [|k] Hk; [lia|]. cbn in Hk. specialize (Hmax k Hk). lia.
Qed.

Lemma rfind_spec (s : string) (c : ascii) :
  (rfind s c = -1 /\ forall k, String.get k s <> Some c)
  \/ (0 <= rfind s c < len s
      /\ String.get (Z.to_nat (rfind s c)) s = Some c
      /\ forall k, String.get k s = Some c -> Z.of_nat k <= rfind s c).
Proof.
  unfold rfind.
  destruct (rfind_from_spec c s 0 ltac:(lia)) as [H | (H1 & H2 & H3)];
    [left; exact H | right].
  rewrite Z.sub_0_r in H2. split; [lia|]. split; [exact H2|].
  intros k Hk. specialize (H3 k Hk). lia.
Qed.

End StringFacts.

(** ** Floats *)

Section Floats.

(** The exact comparison that stands for [last_period > max_chars * 0.8]
    is the one the machine computes: at every index of every window of
    the caps 1 to 50, around four fifths of the windows of the two
    prompts (12000 and 16000 characters), and around four fifths of a
    window of [2^40] characters. *)
Lemma gt_times_0_8_is_binary64 :
  comparison_agrees_up_to 50 = true
  /\ comparison_agrees 12000 9500 200 = true
  /\ comparison_agrees 16000 12700 200 = true
  /\ comparison_agrees (2 ^ 40) (4 * 2 ^ 40 / 5 - 50) 100 = true.
Proof. repeat split; vm_compute; reflexivity. Qed.

(** The rounded quotient of [truediv] is the one the machine computes,
    for every average of up to 40 ratings between 0 and 5. *)
Lemma truediv_is_binary64 : truediv_agrees_up_to 40 = true.
Proof. vm_compute. reflexivity. Qed.

End Floats.

(** ** Token estimation and truncation *)

Section Truncation.

Import Templates.

(** C8.  [estimate_tokens] is the integer floor of the character count
    divided by four: it is the unique integer [t] with
    [4 * t <= len(text) < 4 * t + 4], and the quotient of the natural
    number division of the length by four; no tokenizer is involved. *)
Theorem estimate_tokens_floor (text : string) :
  4 * estimate_tokens text <= len text < 4 * estimate_tokens text + 4
  /\ estimate_tokens text = Z.of_nat (String.length text / 4)
  /\ forall t, 4 * t <= len text < 4 * t + 4 -> t = estimate_tokens text.
Proof.
  unfold estimate_tokens, CHARS_PER_TOKEN, len.
  set (n := Z.of_nat (String.length text)).
  pose proof (Z.div_mod n 4 ltac:(lia)) as Hdm.
  pose proof (Z.mod_pos_bound n 4 ltac:(lia)) as Hmod.
  split; [lia|]. split.
  - subst n. now rewrite Nat2Z.inj_div.
  - intros t Ht. nia.
Qed.

(** The window [text[:n]] of a text longer than [n]. *)
Lemma slice_to_window (text : string) (n : Z) :
  0 <= n -> n < len text ->
  slice_to text n = take (Z.to_nat n) text
  /\ len (slice_to text n) = n.
Proof.
  intros Hn Hlt. unfold slice_to.
  assert ((0 <=? n) = true) as -> by (apply Z.leb_le; lia).
  split; [reflexivity|].
  unfold len in *. rewrite length_take. lia.
Qed.

(** The shape of [truncate_to_tokens] on a text that is too long: the
    marker follows a prefix of the window, which is cut after the last
    full stop of the window when that full stop lies strictly beyond
    four fifths of the window, and is the whole window otherwise. *)
Lemma truncate_to_tokens_long (text : string) (max_tokens : Z) :
  0 <= max_tokens -> max_tokens * 4 < len text ->
  let window := slice_to text (max_tokens * 4) in
  let last_period := rfind window "." in
  truncate_to_tokens text max_tokens =
    (if gt_times_0_8 last_period (max_tokens * 4)
     then slice_to text (last_period + 1)
     else window) +:+ TRUNCATION_MARKER.
Proof.
  intros Hcap Hlong window last_period.
  unfold truncate_to_tokens, CHARS_PER_TOKEN.
  assert ((len text <=? max_tokens * 4) = false) as ->
    by (apply Z.leb_gt; lia).
  cbn zeta. fold window. fold last_period.
  destruct (gt_times_0_8 last_period (max_tokens * 4)) eqn:Hgt;
    [|reflexivity].
  f_equal.
  destruct (slice_to_window text (max_tokens * 4) ltac:(lia) Hlong)
    as [Hw Hlen].
  fold window in Hw, Hlen.
  destruct (rfind_spec window ".") as [[Hr _] | (Hr & _ & _)];
    fold last_period in Hr.
  - unfold gt_times_0_8 in Hgt. apply Z.ltb_lt in Hgt. lia.
  - unfold slice_to.
    assert ((0 <=? last_period + 1) = true) as -> by (apply Z.leb_le; lia).
    rewrite Hw, take_take. f_equal. lia.
Qed.

(** C1, as the code has it.  For a positive cap and a text longer than
    [cap * 4] characters, the result is a prefix of the text of at most
    [cap * 4] characters followed by the truncation marker, so its length
    is at most [cap * 4] plus the length of the marker; and whenever a full
    stop occurs in the window at an index strictly greater than four
    fifths of [cap * 4], the prefix ends with a full stop, namely the last
    one of the window. *)
Theorem truncate_to_tokens_spec (text : string) (cap : Z) :
  0 < cap -> cap * 4 < len text ->
  exists body k,
    truncate_to_tokens text cap = body +:+ TRUNCATION_MARKER
    /\ body = slice_to text k /\ 0 <= k <= cap * 4
    /\ len (truncate_to_tokens text cap) <= cap * 4 + len TRUNCATION_MARKER
    /\ ((exists i, 4 * (cap * 4) < 5 * i /\ i < cap * 4
                   /\ char_at text i = Some "."%char)
        -> ends_with_period body
           /\ char_at text (k - 1) = Some "."%char
           /\ forall j, k <= j < cap * 4 -> char_at text j <> Some "."%char).
Proof.
  intros Hcap Hlong.
  pose proof (truncate_to_tokens_long text cap ltac:(lia) Hlong) as Hshape.
  cbn zeta in Hshape.
  destruct (slice_to_window text (cap * 4) ltac:(lia) Hlong) as [Hw Hlen].
  set (window := slice_to text (cap * 4)) in *.
  set (last_period := rfind window ".") in *.
  assert (Hperiod :
    (exists i, 4 * (cap * 4) < 5 * i /\ i < cap * 4
               /\ char_at text i = Some "."%char) ->
    gt_times_0_8 last_period (cap * 4) = true
    /\ 0 <= last_period < cap * 4
    /\ String.get (Z.to_nat last_period) text = Some "."%char
    /\ forall j, last_period < j < cap * 4 ->
                 char_at text j <> Some "."%char).
  { intros (i & Hi1 & Hi2 & Hi3).
    unfold char_at in Hi3.
    assert ((0 <=? i) = true) as Hi0 by (apply Z.leb_le; lia).
    rewrite Hi0 in Hi3.
    assert (String.get (Z.to_nat i) window = Some "."%char) as Hiw.
    { rewrite Hw, get_take by lia. exact Hi3. }
    destruct (rfind_spec window ".") as [[_ Hno] | (Hr & Hget & Hmax)];
      try fold last_period in Hr, Hget, Hmax; try fold last_period.
    - exfalso. exact (Hno _ Hiw).
    - specialize (Hmax _ Hiw) as Hle. rewrite Hlen in Hr.
      split; [unfold gt_times_0_8; apply Z.ltb_lt; lia|].
      split; [lia|]. split.
      + rewrite Hw, get_take in Hget by lia. exact Hget.
      + intros j Hj Hjc. unfold char_at in Hjc.
        assert ((0 <=? j) = true) as Hj0 by (apply Z.leb_le; lia).
        rewrite Hj0 in Hjc.
        assert (String.get (Z.to_nat j) window = Some "."%char) as Hjw.
        { rewrite Hw, get_take by lia. exact Hjc. }
        specialize (Hmax _ Hjw). lia. }
  destruct (gt_times_0_8 last_period (cap * 4)) eqn:Hgt.
  - (* cut after the last full stop of the window *)
    assert (0 <= last_period < cap * 4) as Hr.
    { destruct (rfind_spec window ".") as [[Hr _] | (Hr & _ & _)];
        fold last_period in Hr.
      - unfold gt_times_0_8 in Hgt. apply Z.ltb_lt in Hgt. lia.
      - lia. }
    exists (slice_to text (last_period + 1)), (last_period + 1).
    split; [exact Hshape|]. split; [reflexivity|]. split; [lia|].
    split.
    + rewrite Hshape, len_append.
      destruct (slice_to_window text (last_period + 1) ltac:(lia) ltac:(lia))
        as [_ Hl]. lia.
    + intros Hex. destruct (Hperiod Hex) as (_ & _ & Hget & Hlater).
      split; [|split].
      * exists (take (Z.to_nat last_period) text).
        destruct (slice_to_window text (last_period + 1) ltac:(lia) ltac:(lia))
          as [-> _].
        replace (Z.to_nat (last_period + 1)) with (S (Z.to_nat last_period))
          by lia.
        now apply take_succ_get.
      * unfold char_at.
        assert ((0 <=? last_period + 1 - 1) = true) as ->
          by (apply Z.leb_le; lia).
        now replace (last_period + 1 - 1) with last_period by lia.
      * intros j Hj. apply Hlater. lia.
  - (* the whole window *)
    exists window, (cap * 4).
    split; [exact Hshape|]. split; [reflexivity|]. split; [lia|].
    split.
    + rewrite Hshape, len_append. lia.
    + intros Hex. destruct (Hperiod Hex) as (Habs & _). discriminate.
Qed.

(** The truncation theorem at the cap 5 and [late_period_text]. *)
Lemma truncate_to_tokens_spec_witness :
  0 < 5 /\ 5 * 4 < len late_period_text
  /\ exists body k,
       truncate_to_tokens late_period_text 5 = body +:+ TRUNCATION_MARKER
       /\ body = slice_to late_period_text k /\ 0 <= k <= 5 * 4
       /\ len (truncate_to_tokens late_period_text 5)
          <= 5 * 4 + len TRUNCATION_MARKER
       /\ ((exists i, 4 * (5 * 4) < 5 * i /\ i < 5 * 4
                      /\ char_at late_period_text i = Some "."%char)
           -> ends_with_period body
              /\ char_at late_period_text (k - 1) = Some "."%char
              /\ forall j, k <= j < 5 * 4 ->
                           char_at late_period_text j <> Some "."%char).
Proof.
  split; [lia|]. split; [vm_compute; reflexivity|].
  apply (truncate_to_tokens_spec late_period_text 5).
  - lia.
  - vm_compute. reflexivity.
Defined.

(** C1 as stated fails on the boundary: with the cap 5 the window has 20
    characters, the full stop of [boundary_text] is the 17th of them, and
    so lies within the last 20% of the window, yet the text is cut after
    the 20th character, in the middle of the sentence.  The full stop is
    also the only sentence end that moves the cut: [exclamation_text]
    ends its sentence at index 17 and is cut after the 20th character
    all the same. *)
Lemma truncate_to_tokens_boundary_counterexample :
  0 < 5 /\ 5 * 4 < len boundary_text
  /\ (exists i, 4 * (5 * 4) <= 5 * i /\ i < 5 * 4
                /\ char_at boundary_text i = Some "."%char)
  /\ truncate_to_tokens boundary_text 5
     = "aaaaaaaaaaaaaaaa.bcd" +:+ TRUNCATION_MARKER
  /\ ~ (exists body,
          truncate_to_tokens boundary_text 5 = body +:+ TRUNCATION_MARKER
          /\ ends_with_period body)
  /\ char_at exclamation_text 17 = Some "!"%char
  /\ truncate_to_tokens exclamation_text 5
     = "aaaaaaaaaaaaaaaaa!bc" +:+ TRUNCATION_MARKER.
Proof.
  split; [lia|]. split; [vm_compute; reflexivity|].
  split; [exists 16; repeat split; try lia; reflexivity|].
  split; [vm_compute; reflexivity|].
  split; [|split; vm_compute; reflexivity].
  intros (body & Hbody & p & Hp).
  assert (truncate_to_tokens boundary_text 5
          = "aaaaaaaaaaaaaaaa.bcd" +:+ TRUNCATION_MARKER) as Hrun
    by (vm_compute; reflexivity).
  rewrite Hrun in Hbody. apply append_inv_tail in Hbody.
  subst body.
  apply (f_equal last_char) in Hp.
  rewrite last_char_append in Hp. vm_compute in Hp. discriminate.
Qed.

End Truncation.

(** ** Rendering *)

Section Rendering.

Import Templates.

Implicit Types (kwargs : gmap string string) (st : scan_state).

Lemma prepend_empty (r : option (Outcome string)) : prepend "" r = r.
Proof. destruct r as [[s|e]|]; reflexivity. Qed.

Lemma prepend_prepend (p q : string) (r : option (Outcome string)) :
  prepend p (prepend q r) = prepend (p +:+ q) r.
Proof.
  destruct r as [[s|e]|]; cbn; try reflexivity.
  now rewrite append_assoc.
Qed.

Lemma prepend_raises (p : string) (e : Exc) :
  prepend p (Some (Raises e)) = Some (Raises e).
Proof. reflexivity. Qed.

(** Literal text without braces is copied. *)
Lemma format_scan_literal kwargs (lit rest : string) :
  brace_free lit = true ->
  format_scan kwargs InText (lit +:+ rest)
  = prepend lit (format_scan kwargs InText rest).
Proof.
  induction lit as [|c lit IH]; intros Hfree.
  - rewrite append_nil_l. now rewrite prepend_empty.
  - cbn [brace_free] in Hfree.
    apply andb_prop in Hfree as [Hc Hfree].
    apply andb_prop in Hc as [Hopen Hclose].
    rewrite append_cons. cbn [format_scan].
    apply negb_true_iff in Hopen, Hclose. rewrite Hopen, Hclose.
    rewrite (IH Hfree), prepend_prepend. reflexivity.
Qed.

(** Inside a field, the characters of a plain name are collected up to
    the closing brace, and the completed name is looked up. *)
Lemma format_scan_in_field kwargs (acc name rest : string) :
  plain_name name = true ->
  format_scan kwargs (InField acc) (name +:+ String "}" rest)
  = match get_field kwargs (acc +:+ name) with
    | Returns v => prepend v (format_scan kwargs InText rest)
    | Raises e => Some (Raises e)
    end.
Proof.
  revert acc. induction name as [|c name IH]; intros acc Hplain.
  - rewrite append_nil_l, append_empty_r. reflexivity.
  - cbn [plain_name] in Hplain.
    apply andb_prop in Hplain as [Hc Hplain].
    apply andb_prop in Hc as [Hc Hspecial].
    apply andb_prop in Hc as [Hopen Hclose].
    apply negb_true_iff in Hopen, Hclose, Hspecial.
    rewrite append_cons. cbn [format_scan].
    rewrite Hopen, Hclose, Hspecial.
    rewrite (IH _ Hplain), append_assoc. reflexivity.
Qed.

(** A field [{name}] in running text. *)
Lemma format_scan_field kwargs (name rest : string) :
  plain_name name = true ->
  format_scan kwargs InText (String "{" (name +:+ String "}" rest))
  = match get_field kwargs name with
    | Returns v => prepend v (format_scan kwargs InText rest)
    | Raises e => Some (Raises e)
    end.
Proof.
  intros Hplain.
  pose proof (format_scan_in_field kwargs "" name rest Hplain) as H.
  rewrite append_nil_l in H. rewrite <- H. clear H.
  destruct name as [|c name].
  - reflexivity.
  - cbn [plain_name] in Hplain.
    apply andb_prop in Hplain as [Hc _].
    apply andb_prop in Hc as [Hc _].
    apply andb_prop in Hc as [Hopen _].
    apply negb_true_iff in Hopen.
    rewrite append_cons.
    change (format_scan kwargs InText
              (String "{" (String c (name +:+ String "}" rest))))
      with (if Ascii.eqb c "{"
            then prepend "{" (format_scan kwargs InText
                                (name +:+ String "}" rest))
            else format_scan kwargs (InField "")
                   (String c (name +:+ String "}" rest))).
    now rewrite Hopen.
Qed.

(** A keyword name is looked up among the keyword arguments. *)
Lemma get_field_keyword kwargs (name : string) :
  is_keyword_name name = true ->
  get_field kwargs name
  = match kwargs !! name with
    | Some v => Returns v
    | None => Raises (KeyError name)
    end.
Proof.
  unfold is_keyword_name, get_field. intros H.
  apply andb_prop in H as [H1 H2]. apply negb_true_iff in H1, H2.
  now rewrite H1, H2.
Qed.

(** The user message of the consensus prompt, for any keyword arguments
    that supply its two fields. *)
Lemma str_format_ANALYZE_REVIEWS kwargs (section reviews_text : string) :
  kwargs !! "previous_consensus_section" = Some section ->
  kwargs !! "reviews_text" = Some reviews_text ->
  str_format (user_template ANALYZE_REVIEWS) kwargs
  = Some (Returns (section +:+ REVIEWS_HEAD +:+ reviews_text
                   +:+ REVIEWS_TAIL)).
Proof.
  intros Hsection Hreviews. unfold str_format.
  replace (user_template ANALYZE_REVIEWS)
    with (String "{" ("previous_consensus_section" +:+ String "}"
            (REVIEWS_HEAD +:+ String "{" ("reviews_text" +:+ String "}"
               (REVIEWS_TAIL +:+ "")))))
    by (vm_compute; reflexivity).
  rewrite format_scan_field by reflexivity.
  rewrite get_field_keyword by reflexivity. rewrite Hsection.
  rewrite format_scan_literal by reflexivity.
  rewrite format_scan_field by reflexivity.
  rewrite get_field_keyword by reflexivity. rewrite Hreviews.
  rewrite format_scan_literal by reflexivity.
  cbn [format_scan prepend]. now rewrite append_empty_r.
Qed.

(** The user message of the summary prompt. *)
Lemma str_format_SUMMARIZE_BOOK kwargs (content : string) :
  kwargs !! "content" = Some content ->
  exists head tail,
    brace_free head = true /\ brace_free tail = true
    /\ user_template SUMMARIZE_BOOK
       = head +:+ "{content}" +:+ tail
    /\ str_format (user_template SUMMARIZE_BOOK) kwargs
       = Some (Returns (head +:+ content +:+ tail)).
Proof.
  intros Hcontent.
  exists ("Please summarize the following book content." +:+ nl +:+ nl
          +:+ "--- BOOK CONTENT (START) ---" +:+ nl),
         (nl +:+ "--- BOOK CONTENT (END) ---" +:+ nl +:+ nl
          +:+ "Provide a comprehensive summary in 3-5 paragraphs:").
  split; [reflexivity|]. split; [reflexivity|].
  split; [vm_compute; reflexivity|].
  unfold str_format.
  set (head := "Please summarize the following book content." +:+ nl +:+ nl
               +:+ "--- BOOK CONTENT (START) ---" +:+ nl).
  set (tail := nl +:+ "--- BOOK CONTENT (END) ---" +:+ nl +:+ nl
               +:+ "Provide a comprehensive summary in 3-5 paragraphs:").
  replace (user_template SUMMARIZE_BOOK)
    with (head +:+ String "{" ("content" +:+ String "}" (tail +:+ "")))
    by (vm_compute; reflexivity).
  rewrite format_scan_literal by reflexivity.
  rewrite format_scan_field by reflexivity.
  rewrite get_field_keyword by reflexivity. rewrite Hcontent.
  rewrite format_scan_literal by reflexivity.
  cbn [format_scan prepend]. now rewrite append_empty_r.
Qed.

(** A scan that meets a keyword field missing from the keyword arguments
    raises [KeyError] for the leftmost such field. *)
Lemma format_scan_missing kwargs (n : nat) :
  forall (s : string) st (ns : list string),
    (String.length s <= n)%nat ->
    scan_fields st s = Some ns ->
    forallb is_keyword_name ns = true ->
    (exists x, In x ns /\ kwargs !! x = None) ->
    exists pre x post,
      ns = pre ++ x :: post
      /\ Forall (fun y => is_Some (kwargs !! y)) pre
      /\ kwargs !! x = None
      /\ format_scan kwargs st s = Some (Raises (KeyError x)).
Proof.
  induction n as [|n IH]; intros s st ns Hlen Hscan Hkw Hmiss.
  - destruct s; [|cbn in Hlen; lia].
    destruct st; cbn in Hscan; [|discriminate].
    injection Hscan as <-. destruct Hmiss as (x & [] & _).
  - destruct s as [|c rest].
    { destruct st; cbn in Hscan; [|discriminate].
      injection Hscan as <-. destruct Hmiss as (x & [] & _). }
    cbn [String.length] in Hlen.
    destruct st as [|field_name]; cbn [scan_fields format_scan] in *.
    + destruct (Ascii.eqb c "{").
      * destruct rest as [|c2 rest2]; [discriminate|].
        cbn [String.length] in Hlen.
        destruct (Ascii.eqb c2 "{").
        -- destruct (IH rest2 InText ns ltac:(lia) Hscan Hkw Hmiss)
             as (pre & x & post & -> & Hpre & Hx & ->).
           exists pre, x, post. repeat split; assumption.
        -- destruct (IH (String c2 rest2) (InField "") ns
                       ltac:(cbn [String.length]; lia) Hscan Hkw Hmiss)
             as (pre & x & post & -> & Hpre & Hx & ->).
           exists pre, x, post. repeat split; assumption.
      * destruct (Ascii.eqb c "}").
        -- destruct rest as [|c2 rest2]; [discriminate|].
           cbn [String.length] in Hlen.
           destruct (Ascii.eqb c2 "}"); [|discriminate].
           destruct (IH rest2 InText ns ltac:(lia) Hscan Hkw Hmiss)
             as (pre & x & post & -> & Hpre & Hx & ->).
           exists pre, x, post. repeat split; assumption.
        -- destruct (IH rest InText ns ltac:(lia) Hscan Hkw Hmiss)
             as (pre & x & post & -> & Hpre & Hx & ->).
           exists pre, x, post. repeat split; assumption.
    + destruct (Ascii.eqb c "}").
      * destruct (scan_fields InText rest) as [ns'|] eqn:Hrest;
          [|discriminate].
        cbn in Hscan. injection Hscan as <-.
        cbn [forallb] in Hkw. apply andb_prop in Hkw as [Hname Hkw].
        rewrite (get_field_keyword _ _ Hname).
        destruct (kwargs !! field_name) as [v|] eqn:Hlook.
        -- assert (exists x, In x ns' /\ kwargs !! x = None) as Hmiss'.
           { destruct Hmiss as (x & [<-|Hin] & Hx); [congruence|].
             now exists x. }
           destruct (IH rest InText ns' ltac:(lia) Hrest Hkw Hmiss')
             as (pre & x & post & -> & Hpre & Hx & ->).
           exists (field_name :: pre), x, post.
           split; [reflexivity|]. split; [|split; [assumption|reflexivity]].
           constructor; [now rewrite Hlook | assumption].
        -- exists [], field_name, ns'.
           split; [reflexivity|]. split; [constructor|].
           split; [assumption | reflexivity].
      * destruct (Ascii.eqb c "{"); [discriminate|].
        destruct (is_unmodelled_field_char c); [discriminate|].
        destruct (IH rest (InField (field_name +:+ String c "")) ns
                    ltac:(lia) Hscan Hkw Hmiss)
          as (pre & x & post & -> & Hpre & Hx & ->).
        exists pre, x, post. repeat split; assumption.
Qed.

(** Conversely, a scan whose keyword fields are all supplied returns. *)
Lemma format_scan_supplied kwargs (n : nat) :
  forall (s : string) st (ns : list string),
    (String.length s <= n)%nat ->
    scan_fields st s = Some ns ->
    forallb is_keyword_name ns = true ->
    Forall (fun y => is_Some (kwargs !! y)) ns ->
    exists out, format_scan kwargs st s = Some (Returns out).
Proof.
  induction n as [|n IH]; intros s st ns Hlen Hscan Hkw Hall.
  - destruct s; [|cbn in Hlen; lia].
    destruct st; cbn in Hscan; [|discriminate]. now eexists.
  - destruct s as [|c rest].
    { destruct st; cbn in Hscan; [|discriminate]. now eexists. }
    cbn [String.length] in Hlen.
    destruct st as [|field_name]; cbn [scan_fields format_scan] in *.
    + destruct (Ascii.eqb c "{").
      * destruct rest as [|c2 rest2]; [discriminate|].
        cbn [String.length] in Hlen.
        destruct (Ascii.eqb c2 "{").
        -- destruct (IH rest2 InText ns ltac:(lia) Hscan Hkw Hall)
             as (out & ->). now eexists.
        -- exact (IH (String c2 rest2) (InField "") ns
                     ltac:(cbn [String.length]; lia) Hscan Hkw Hall).
      * destruct (Ascii.eqb c "}").
        -- destruct rest as [|c2 rest2]; [discriminate|].
           cbn [String.length] in Hlen.
           destruct (Ascii.eqb c2 "}"); [|discriminate].
           destruct (IH rest2 InText ns ltac:(lia) Hscan Hkw Hall)
             as (out & ->). now eexists.
        -- destruct (IH rest InText ns ltac:(lia) Hscan Hkw Hall)
             as (out & ->). now eexists.
    + destruct (Ascii.eqb c "}").
      * destruct (scan_fields InText rest) as [ns'|] eqn:Hrest;
          [|discriminate].
        cbn in Hscan. injection Hscan as <-.
        cbn [forallb] in Hkw. apply andb_prop in Hkw as [Hname Hkw].
        rewrite (get_field_keyword _ _ Hname).
        inversion Hall as [|? ? [v Hv] Hall']; subst. rewrite Hv.
        destruct (IH rest InText ns' ltac:(lia) Hrest Hkw Hall')
          as (out & ->). now eexists.
      * destruct (Ascii.eqb c "{"); [discriminate|].
        destruct (is_unmodelled_field_char c); [discriminate|].
        exact (IH rest (InField (field_name +:+ String c "")) ns
                  ltac:(lia) Hscan Hkw Hall).
Qed.

(** So the placeholders of a template are what [render] requires: it
    returns the two messages when they are all supplied. *)
Lemma render_returns_when_supplied
      (self : PromptTemplate) kwargs (ns : list string) :
  placeholders (user_template self) = Some ns ->
  forallb is_keyword_name ns = true ->
  Forall (fun y => is_Some (kwargs !! y)) ns ->
  exists user,
    render self kwargs
    = Some (Returns (<["system" := system self]> (<["user" := user]> ∅))).
Proof.
  intros Hscan Hkw Hall.
  destruct (format_scan_supplied kwargs (String.length (user_template self))
              (user_template self) InText ns (Nat.le_refl _) Hscan Hkw Hall)
    as (out & Hrun).
  exists out. unfold render, str_format. now rewrite Hrun.
Qed.

(** No exception of the embedded code is of the class the specification
    calls [MissingPlaceholder], nor of the class it calls
    [GenerationFailed]. *)
Lemma class_name_not_spec_condition (e : Exc) :
  class_name e <> "MissingPlaceholder"
  /\ class_name e <> "GenerationFailed".
Proof.
  destruct e as [ | | | | | | | | | |kind| | | |status_code]; cbn;
    try (split; discriminate).
  - destruct kind; split; discriminate.
  - unfold openai_status_class_name.
    repeat (match goal with
            | |- context [if ?b then _ else _] => destruct b
            end); split; discriminate.
Qed.

(** C4, as the code has it.  When the user template is a well-formed
    format string whose fields are plain keyword names, and the keyword
    arguments omit at least one of them, [render] raises the built-in
    [KeyError] carrying the name of the leftmost omitted field; the
    exception reaches the caller of [render] as it is, and its class is
    not [MissingPlaceholder]. *)
Theorem render_missing_placeholder_raises_KeyError
        (self : PromptTemplate) kwargs (ns : list string) :
  placeholders (user_template self) = Some ns ->
  forallb is_keyword_name ns = true ->
  (exists x, In x ns /\ kwargs !! x = None) ->
  exists pre x post,
    ns = pre ++ x :: post
    /\ Forall (fun y => is_Some (kwargs !! y)) pre
    /\ kwargs !! x = None
    /\ render self kwargs = Some (Raises (KeyError x))
    /\ class_name (KeyError x) = "KeyError".
Proof.
  intros Hscan Hkw Hmiss.
  destruct (format_scan_missing kwargs (String.length (user_template self))
              (user_template self) InText ns (Nat.le_refl _) Hscan Hkw Hmiss)
    as (pre & x & post & Hns & Hpre & Hx & Hrun).
  exists pre, x, post. repeat split; try assumption.
  unfold render, str_format. now rewrite Hrun.
Qed.

(** The theorem above at the summary prompt rendered without keyword
    arguments. *)
Lemma render_missing_placeholder_witness :
  placeholders (user_template SUMMARIZE_BOOK) = Some ["content"]
  /\ forallb is_keyword_name ["content"] = true
  /\ (exists x, In x ["content"] /\ (∅ : gmap string string) !! x = None)
  /\ exists pre x post,
       ["content"] = pre ++ x :: post
       /\ Forall (fun y => is_Some ((∅ : gmap string string) !! y)) pre
       /\ (∅ : gmap string string) !! x = None
       /\ render SUMMARIZE_BOOK ∅ = Some (Raises (KeyError x))
       /\ class_name (KeyError x) = "KeyError".
Proof.
  assert (placeholders (user_template SUMMARIZE_BOOK) = Some ["content"])
    as Hscan by (vm_compute; reflexivity).
  assert (exists x, In x ["content"]
                    /\ (∅ : gmap string string) !! x = None) as Hmiss
    by (exists "content"; split; [left; reflexivity | reflexivity]).
  split; [exact Hscan|]. split; [reflexivity|]. split; [exact Hmiss|].
  exact (render_missing_placeholder_raises_KeyError
           SUMMARIZE_BOOK ∅ ["content"] Hscan eq_refl Hmiss).
Defined.

(** C4 as stated fails: rendering the summary prompt without its
    [content] raises [KeyError], and no exception it could raise is a
    [MissingPlaceholder].  Nor is the exception the same for every
    template: when a positional field comes first, rendering without
    [content] raises [IndexError]. *)
Lemma render_missing_placeholder_counterexample :
  placeholders (user_template SUMMARIZE_BOOK) = Some ["content"]
  /\ (∅ : gmap string string) !! "content" = None
  /\ render SUMMARIZE_BOOK ∅ = Some (Raises (KeyError "content"))
  /\ ~ (exists e, render SUMMARIZE_BOOK ∅ = Some (Raises e)
                  /\ class_name e = "MissingPlaceholder")
  /\ placeholders (user_template positional_template)
     = Some ["0"; "content"]
  /\ render positional_template ∅
     = Some (Raises (IndexError
               "Replacement index 0 out of range for positional args tuple")).
Proof.
  split; [vm_compute; reflexivity|]. split; [reflexivity|].
  split; [vm_compute; reflexivity|].
  split; [|split; vm_compute; reflexivity].
  intros (e & _ & He).
  exact (proj1 (class_name_not_spec_condition e) He).
Qed.

(** The entries of a joined list after its first. *)
Lemma join_cons (sep x : string) (after : list string) :
  join sep (x :: after)
  = x +:+ concat_strings (map (fun y => sep +:+ y) after).
Proof.
  revert x. induction after as [|a after IH]; intros x.
  - cbn [join map concat_strings]. now rewrite append_empty_r.
  - change (join sep (x :: a :: after))
      with (x +:+ sep +:+ join sep (a :: after)).
    rewrite (IH a). cbn [map concat_strings].
    now rewrite !append_assoc.
Qed.

(** The in-order shape of a joined list: the entries before, each
    followed by the separator, the entry itself, and the entries after,
    each preceded by the separator. *)
Lemma join_app (sep : string) (before after : list string) (x : string) :
  join sep (before ++ x :: after)
  = concat_strings (map (fun y => y +:+ sep) before)
    +:+ x +:+ concat_strings (map (fun y => sep +:+ y) after).
Proof.
  induction before as [|b before IH].
  - cbn [app map concat_strings]. rewrite append_nil_l. apply join_cons.
  - cbn [app map concat_strings]. rewrite !append_assoc, <- IH.
    destruct before; reflexivity.
Qed.

(** C5.  For every review list and every optional previous consensus the
    consensus prompt renders, and its user message is, in this order: the
    previous-consensus section, the fixed introduction, the reviews text
    truncated by [truncate_to_tokens] to the input token limit of the
    consensus template (3000 tokens, 12000 characters), and the fixed
    ending.  The section is the framed previous consensus with the
    instruction to update when a previous consensus is present (a text
    that is not empty), and the empty string otherwise.  The reviews text
    is the entries [[Rating: r/5]], newline, text of the reviews in
    their order, separated by blank lines; it appears unchanged when it
    has at most 12000 characters, and otherwise as its first 12000
    characters, cut back to their last full stop when that lies beyond
    four fifths of them, followed by the truncation marker. *)
Theorem render_review_consensus_prompt_spec
        (reviews : list ReviewDict) (current_consensus : option string) :
  let reviews_text := join (nl +:+ nl) (map format_review reviews) in
  let section := previous_section_of current_consensus in
  let user :=
    section +:+ REVIEWS_HEAD
    +:+ truncate_to_tokens reviews_text (input_token_limit ANALYZE_REVIEWS)
    +:+ REVIEWS_TAIL in
  render_review_consensus_prompt reviews current_consensus
  = Some (Returns (<["system" := system ANALYZE_REVIEWS]>
                     (<["user" := user]> ∅)))
  /\ (section <> "" <-> consensus_present current_consensus)
  /\ (forall consensus,
        current_consensus = Some consensus -> consensus <> "" ->
        section = framed_consensus consensus)
  /\ (forall before r after,
        reviews = before ++ r :: after ->
        reviews_text
        = concat_strings
            (map (fun y => y +:+ (nl +:+ nl)) (map format_review before))
          +:+ ("[Rating: " +:+ str_of_int (rating r) +:+ "/5]" +:+ nl
               +:+ text r)
          +:+ concat_strings
                (map (fun y => (nl +:+ nl) +:+ y) (map format_review after)))
  /\ input_token_limit ANALYZE_REVIEWS * CHARS_PER_TOKEN = 12000
  /\ (len reviews_text <= 12000 ->
      truncate_to_tokens reviews_text (input_token_limit ANALYZE_REVIEWS)
      = reviews_text)
  /\ (12000 < len reviews_text ->
      let window := slice_to reviews_text 12000 in
      let last_period := rfind window "." in
      truncate_to_tokens reviews_text (input_token_limit ANALYZE_REVIEWS)
      = (if gt_times_0_8 last_period 12000
         then slice_to reviews_text (last_period + 1)
         else window) +:+ TRUNCATION_MARKER).
Proof.
  intros reviews_text section user.
  split; [|split; [|split; [|split; [|split; [|split]]]]].
  - unfold render_review_consensus_prompt, render_with_truncation.
    fold reviews_text. fold section.
    rewrite lookup_insert_eq.
    rewrite insert_insert_eq.
    unfold render.
    rewrite (str_format_ANALYZE_REVIEWS _ section
               (truncate_to_tokens reviews_text
                  (input_token_limit ANALYZE_REVIEWS))).
    + reflexivity.
    + rewrite lookup_insert_ne by discriminate.
      now rewrite lookup_insert_eq.
    + now rewrite lookup_insert_eq.
  - subst section. unfold consensus_present, previous_section_of, truthy.
    destruct current_consensus as [c|].
    + destruct (String.eqb_spec c "") as [->|Hne]; cbn [negb].
      * split; [congruence|]. intros (c' & Hc' & Hne).
        injection Hc' as <-. congruence.
      * split; [intros _; now exists c | intros _; discriminate].
    + split; [congruence|]. intros (c' & Hc' & _). discriminate.
  - intros consensus -> Hne. subst section.
    unfold previous_section_of, truthy.
    destruct (String.eqb_spec consensus "") as [->|_]; [congruence|].
    reflexivity.
  - intros before r after ->. subst reviews_text.
    rewrite map_app. cbn [map]. rewrite join_app. reflexivity.
  - reflexivity.
  - intros Hshort. unfold truncate_to_tokens.
    change (input_token_limit ANALYZE_REVIEWS * CHARS_PER_TOKEN) with 12000.
    now apply Z.leb_le in Hshort as ->.
  - intros Hlong.
    exact (truncate_to_tokens_long reviews_text 3000 ltac:(lia) Hlong).
Qed.

(** C6.  Rendering is a function of the template and of the keyword
    arguments alone: two calls whose keyword arguments agree on every
    name, whatever worlds they run in, give the same outcome (the same
    messages, or the same exception), and a call leaves the world as it
    found it: nothing is logged, sent or awaited. *)
Theorem render_pure_and_deterministic
        (self : PromptTemplate) (content_key : string)
        (kwargs1 kwargs2 : gmap string string) (w1 w2 : World) :
  (forall k, kwargs1 !! k = kwargs2 !! k) ->
  let call1 : IO _ := ret (render self kwargs1) in
  let call2 : IO _ := ret (render self kwargs2) in
  let trunc1 : IO _ :=
    ret (render_with_truncation self content_key kwargs1) in
  let trunc2 : IO _ :=
    ret (render_with_truncation self content_key kwargs2) in
  fst (call1 w1) = fst (call2 w2)
  /\ fst (trunc1 w1) = fst (trunc2 w2)
  /\ snd (call1 w1) = w1 /\ snd (call2 w2) = w2
  /\ snd (trunc1 w1) = w1 /\ snd (trunc2 w2) = w2.
Proof.
  intros Hsame. apply map_eq in Hsame as ->.
  repeat split; reflexivity.
Qed.

(** The theorem above at the consensus prompt, with the same two keyword
    arguments given in the two possible orders, in an empty world and in
    one that has already logged. *)
Lemma render_pure_and_deterministic_witness :
  let kwargs1 : gmap string string :=
    <["reviews_text" := "fine."]>
      (<["previous_consensus_section" := ""]> ∅) in
  let kwargs2 : gmap string string :=
    <["previous_consensus_section" := ""]>
      (<["reviews_text" := "fine."]> ∅) in
  let w1 : World := [] in
  let w2 : World := [Logged "app" "started"] in
  (forall k, kwargs1 !! k = kwargs2 !! k)
  /\ fst (ret (render ANALYZE_REVIEWS kwargs1) w1)
     = fst (ret (render ANALYZE_REVIEWS kwargs2) w2)
  /\ fst (ret (render_with_truncation ANALYZE_REVIEWS "reviews_text"
                 kwargs1) w1)
     = fst (ret (render_with_truncation ANALYZE_REVIEWS "reviews_text"
                   kwargs2) w2)
  /\ snd (ret (render ANALYZE_REVIEWS kwargs1) w1) = w1
  /\ snd (ret (render ANALYZE_REVIEWS kwargs2) w2) = w2
  /\ snd (ret (render_with_truncation ANALYZE_REVIEWS "reviews_text"
                 kwargs1) w1) = w1
  /\ snd (ret (render_with_truncation ANALYZE_REVIEWS "reviews_text"
                 kwargs2) w2) = w2.
Proof.
  intros kwargs1 kwargs2 w1 w2.
  assert (forall k, kwargs1 !! k = kwargs2 !! k) as Hsame.
  { intros k. subst kwargs1 kwargs2.
    now rewrite insert_insert_ne by discriminate. }
  split; [exact Hsame|].
  exact (render_pure_and_deterministic ANALYZE_REVIEWS "reviews_text"
           kwargs1 kwargs2 w1 w2 Hsame).
Defined.

End Rendering.

(** ** The mock provider *)

Section MockProvider.

Import Templates Mock.

Lemma sum_from (xs : list Z) (a : Z) :
  fold_left Z.add xs a = a + sum xs.
Proof.
  unfold sum. revert a. induction xs as [|x xs IH]; intros a;
    cbn [fold_left].
  - lia.
  - rewrite (IH (a + x)), (IH (0 + x)). lia.
Qed.

Lemma sum_abs_bound (xs : list Z) (bound : Z) :
  Forall (fun x => Z.abs x <= bound) xs ->
  Z.abs (sum xs) <= Z.of_nat (length xs) * bound.
Proof.
  induction 1 as [|x xs Hx _ IH].
  - cbn. lia.
  - unfold sum in *. cbn [fold_left length].
    rewrite sum_from. unfold sum. lia.
Qed.

(** A quotient of at most [2^1000] is within the range of the doubles. *)
Lemma round_ratio_in_range (n d : Z) :
  0 <= n -> 0 < d -> n <= d * 2 ^ 1000 ->
  exists m e, round_ratio n d = Some (m, e).
Proof.
  intros Hn Hd Hbound. unfold round_ratio.
  destruct (n =? 0) eqn:Hzero; [now eauto|].
  apply Z.eqb_neq in Hzero.
  assert (Z.log2 n <= 1000 + Z.log2 d) as Hlog.
  { rewrite <- (Z.log2_mul_pow2 d 1000) by lia. now apply Z.log2_le_mono. }
  cbv zeta.
  set (e1 := Z.log2 n - Z.log2 d - 53) in *.
  match goal with
  | |- context [Z.max (if ?b then _ else _) _] => set (carry := b)
  end.
  set (e := Z.max (if carry then e1 + 1 else e1) (-1074)).
  assert (e <= 948) as He by (subst e; destruct carry; lia).
  match goal with
  | |- context [if ?c =? 2 ^ 53 then _ else _] =>
      destruct (c =? 2 ^ 53)
  end.
  - assert ((971 <? e + 1) = false) as -> by (apply Z.ltb_ge; lia).
    eauto.
  - assert ((971 <? e) = false) as -> by (apply Z.ltb_ge; lia).
    eauto.
Qed.

(** The average of ratings of magnitude at most [2^1000] is a double. *)
Lemma average_rating_returns (reviews : list ReviewDict) :
  Forall (fun r => Z.abs (rating r) <= 2 ^ 1000) reviews ->
  exists avg, average_rating reviews = Returns avg.
Proof.
  intros Hrange. unfold average_rating.
  destruct (Z.of_nat (length reviews) =? 0) eqn:Hcount; [now eauto|].
  apply Z.eqb_neq in Hcount. unfold truediv.
  apply Z.eqb_neq in Hcount as Hcount'. rewrite Hcount'.
  assert (Z.abs (sum (map rating reviews))
          <= Z.of_nat (length reviews) * 2 ^ 1000) as Hsum.
  { rewrite <- (length_map rating).
    apply sum_abs_bound. now apply Forall_map. }
  destruct (round_ratio_in_range (Z.abs (sum (map rating reviews)))
              (Z.abs (Z.of_nat (length reviews))))
    as (m & e & ->); [lia | lia | lia |].
  eauto.
Qed.

(** C7.  The mock provider is deterministic and its text is built from
    statistics of its input.  [summarize_book] returns, in any world, the
    same string for the same text: the fixed summary with the number of
    words of the text and a quarter of its length, rounded down, written
    in.  [analyze_reviews] on a non-empty list has the same outcome in
    any world and for any previous consensus: when the average is a
    double it is the fixed consensus with the number of reviews and the
    average rating, to one decimal, written in; and the average is a
    double whenever the ratings are of magnitude at most [2^1000]. *)
Theorem mock_provider_deterministic_statistics :
  (forall (text : string) (w1 w2 : World),
      fst (summarize_book text w1) = fst (summarize_book text w2)
      /\ fst (summarize_book text w1)
         = Returns ("This book contains approximately "
                    +:+ str_of_int (len_split text)
                    +:+ " words across its content (estimated "
                    +:+ str_of_int (len text / 4) +:+ " tokens). "
                    +:+ summary_tail))
  /\ (forall (reviews : list ReviewDict) (consensus1 consensus2 : option string)
             (w1 w2 : World),
         reviews <> [] ->
         let count := Z.of_nat (length reviews) in
         fst (analyze_reviews reviews consensus1 w1)
         = fst (analyze_reviews reviews consensus2 w2)
         /\ fst (analyze_reviews reviews consensus1 w1)
            = match truediv (sum (map rating reviews)) count with
              | Returns avg =>
                  Returns ("Based on " +:+ str_of_int count
                           +:+ " reader reviews with an average rating of "
                           +:+ format_1f avg +:+ "/5, "
                           +:+ "the overall sentiment is "
                           +:+ sentiment_of avg +:+ "."
                           +:+ nl +:+ nl +:+ consensus_tail)
              | Raises e => Raises e
              end
         /\ (Forall (fun r => Z.abs (rating r) <= 2 ^ 1000) reviews ->
             exists avg,
               truediv (sum (map rating reviews)) count = Returns avg))
.
Proof.
  split.
  - intros text w1 w2. split; reflexivity.
  - intros reviews c1 c2 w1 w2 Hne count.
    assert ((count =? 0) = false) as Hcount.
    { apply Z.eqb_neq. subst count. destruct reviews; [congruence|].
      cbn [length]. lia. }
    assert (average_rating reviews
            = truediv (sum (map rating reviews)) count) as Havg.
    { unfold average_rating. fold count. now rewrite Hcount. }
    assert (forall c w,
               fst (analyze_reviews reviews c w)
               = match truediv (sum (map rating reviews)) count with
                 | Returns avg =>
                     Returns ("Based on " +:+ str_of_int count
                              +:+ " reader reviews with an average rating of "
                              +:+ format_1f avg +:+ "/5, "
                              +:+ "the overall sentiment is "
                              +:+ sentiment_of avg +:+ "."
                              +:+ nl +:+ nl +:+ consensus_tail)
                 | Raises e => Raises e
                 end) as Hrun.
    { intros c w. unfold analyze_reviews, io_bind, sleep, logger_info,
        emit, lift, ret.
      fold count. rewrite Havg.
      destruct (truediv (sum (map rating reviews)) count); reflexivity. }
    split; [now rewrite !Hrun|]. split; [apply Hrun|].
    intros Hrange. rewrite <- Havg. now apply average_rating_returns.
Qed.

(** C9.  On the empty review list [analyze_reviews] divides nothing: the
    average is the literal [0.0], the sentiment is "predominantly
    critical", and the call returns the consensus text for zero reviews,
    which is not empty, after its sleep and its log record. *)
Theorem mock_analyze_reviews_empty
        (current_consensus : option string) (w : World) :
  average_rating [] = Returns (float_literal 0)
  /\ sentiment_of (float_literal 0) = "predominantly critical"
  /\ analyze_reviews [] current_consensus w
     = (Returns ("Based on 0 reader reviews with an average rating of 0.0/5, "
                 +:+ "the overall sentiment is predominantly critical."
                 +:+ nl +:+ nl +:+ consensus_tail),
        w ++ [Slept seconds_0_3;
              Logged logger_name
                "MockLLM: analyze_reviews called (0 reviews, avg=0.0)"])
  /\ (forall text, fst (analyze_reviews [] current_consensus w) = Returns text
                   -> 0 < len text).
Proof.
  split; [reflexivity|]. split; [reflexivity|].
  assert (analyze_reviews [] current_consensus w
     = (Returns ("Based on 0 reader reviews with an average rating of 0.0/5, "
                 +:+ "the overall sentiment is predominantly critical."
                 +:+ nl +:+ nl +:+ consensus_tail),
        w ++ [Slept seconds_0_3;
              Logged logger_name
                "MockLLM: analyze_reviews called (0 reviews, avg=0.0)"]))
    as Hrun.
  { unfold analyze_reviews, io_bind, sleep, logger_info, emit, lift, ret.
    change (average_rating []) with (Returns (float_literal 0)).
    cbv beta iota. f_equal.
    rewrite <- List.app_assoc. reflexivity. }
  split; [exact Hrun|].
  intros text. rewrite Hrun. cbn [fst]. intros H. injection H as <-.
  vm_compute. reflexivity.
Qed.

End MockProvider.

(** ** The generation adapters *)

Section Adapters.

(** C3, as the code has it.  Neither adapter catches or translates
    anything.  When the transport of the Ollama adapter raises, [_generate]
    raises that very exception; when it answers with a status outside
    2xx, and so for every 4xx and 5xx, [_generate] raises
    [httpx.HTTPStatusError] with that status; when the OpenAI client
    raises, [_generate] raises that very exception.  In each case the
    world is the one the transport left.  No exception of the program is
    a [GenerationFailed], and none carries a retryable flag. *)
Theorem adapters_propagate_transport_errors :
  (forall post self system user max_tokens w e w',
      post (ollama_url self) (ollama_payload self system user max_tokens)
           (after_request_log Ollama.logger_name "Ollama"
              (Ollama._model self) max_tokens w)
      = (Raises e, w') ->
      Ollama._generate post self system user max_tokens w = (Raises e, w'))
  /\ (forall post self system user max_tokens w resp w',
         post (ollama_url self) (ollama_payload self system user max_tokens)
              (after_request_log Ollama.logger_name "Ollama"
                 (Ollama._model self) max_tokens w)
         = (Returns resp, w') ->
         (Ollama.status_code resp < 200 \/ 299 < Ollama.status_code resp) ->
         Ollama._generate post self system user max_tokens w
         = (Raises (HTTPStatusError (Ollama.status_code resp)), w'))
  /\ (forall create self system user max_tokens w e w',
         create (OpenAI._api_key self)
                (openai_request self system user max_tokens)
                (after_request_log OpenAI.logger_name "OpenAI"
                   (OpenAI._model self) max_tokens w)
         = (Raises e, w') ->
         OpenAI._generate create self system user max_tokens w
         = (Raises e, w'))
  /\ (forall e : Exc, class_name e <> "GenerationFailed").
Proof.
  split; [|split; [|split]].
  - intros post self system user max_tokens w e w' Hpost.
    unfold Ollama._generate, io_bind, logger_info, emit. cbv zeta beta.
    match goal with
    | |- context [post ?u ?p ?w0] =>
        replace (post u p w0) with (@Raises Ollama.Response e, w')
          by (symmetry; exact Hpost)
    end.
    reflexivity.
  - intros post self system user max_tokens w resp w' Hpost Hstatus.
    unfold Ollama._generate, io_bind, logger_info, emit. cbv zeta beta.
    match goal with
    | |- context [post ?u ?p ?w0] =>
        replace (post u p w0) with (Returns resp, w')
          by (symmetry; exact Hpost)
    end.
    unfold lift, Ollama.raise_for_status.
    assert (((200 <=? Ollama.status_code resp)
             && (Ollama.status_code resp <=? 299)) = false) as ->.
    { apply andb_false_iff.
      destruct Hstatus; [left; apply Z.leb_gt | right; apply Z.leb_gt]; lia. }
    reflexivity.
  - intros create self system user max_tokens w e w' Hcreate.
    unfold OpenAI._generate, io_bind, logger_info, emit. cbv zeta beta.
    match goal with
    | |- context [create ?k ?r ?w0] =>
        replace (create k r w0) with (@Raises OpenAI.ChatCompletion e, w')
          by (symmetry; exact Hcreate)
    end.
    reflexivity.
  - intros e. exact (proj2 (class_name_not_spec_condition e)).
Qed.

(** C3 as stated fails.  A server error, a refused connection and a
    rejected API key make the adapters raise [HTTPStatusError],
    [ConnectError] and [AuthenticationError]: three different classes,
    none of them [GenerationFailed]. *)
Lemma adapters_generation_failed_counterexample :
  let ollama := Ollama.init "http://localhost:11434/" "llama3" in
  let openai := {| OpenAI._api_key := "sk-test";
                   OpenAI._model := "gpt-4o-mini" |} in
  fst (Ollama._generate (post_status 500) ollama "system" "user" 512 [])
  = Raises (HTTPStatusError 500)
  /\ fst (Ollama._generate (post_raising ConnectError) ollama
            "system" "user" 512 [])
     = Raises (RequestError ConnectError)
  /\ fst (OpenAI._generate (create_raising (APIStatusError 401)) openai
            "system" "user" 512 [])
     = Raises (APIStatusError 401)
  /\ class_name (HTTPStatusError 500) = "HTTPStatusError"
  /\ class_name (RequestError ConnectError) = "ConnectError"
  /\ class_name (APIStatusError 401) = "AuthenticationError"
  /\ ~ (exists e,
          fst (Ollama._generate (post_status 500) ollama
                 "system" "user" 512 []) = Raises e
          /\ class_name e = "GenerationFailed").
Proof.
  cbv zeta. repeat (split; [vm_compute; reflexivity|]).
  intros (e & _ & He).
  exact (proj2 (class_name_not_spec_condition e) He).
Qed.

End Adapters.

(** ** The review service *)

Section Reviews.

Import ReviewService.

Lemma with_new_idem (objs objs' : list Obj) (s : Session.t) :
  with_new objs (with_new objs' s) = with_new objs s.
Proof. reflexivity. Qed.

Lemma with_new_same (s : Session.t) : with_new (new s) s = s.
Proof. destruct s; reflexivity. Qed.

(** Inserting rows touches neither the books, nor the borrows, nor the
    list of pending objects, nor what the sources of the defaults will
    yield. *)
Lemma insert_all_frame (objs : list Obj) (s : Session.t) :
  books (fold_left insert objs s) = books s
  /\ borrows (fold_left insert objs s) = borrows s
  /\ new (fold_left insert objs s) = new s
  /\ uuid4 (fold_left insert objs s) = uuid4 s
  /\ utcnow (fold_left insert objs s) = utcnow s.
Proof.
  revert s. induction objs as [|o objs IH]; intros s; [now cbn|].
  cbn [fold_left]. destruct (IH (insert s o)) as (-> & -> & -> & -> & ->).
  destruct o; now cbn.
Qed.

Lemma flushed_nothing_pending (s : Session.t) :
  new s = [] -> flushed s = s.
Proof.
  intros H. unfold flushed, flush. cbn [snd]. rewrite H. cbn [fold_left].
  rewrite <- H. apply with_new_same.
Qed.

(** The three ways [create_review] can go, by the number of borrow rows
    of the user for the book. *)
Lemma create_review_cases (s : Session.t) (book_id user_id : UUID)
      (data : ReviewCreateRequest) :
  match select_borrows book_id user_id s with
  | [] =>
      create_review book_id user_id data s
      = (Raises (HTTPException 403
                   "You must borrow a book before reviewing it"), s)
  | [_] =>
      match float_of_int (rating data) with
      | Returns as_float =>
          exists s',
            create_review book_id user_id data s
            = (Returns (stored_review s book_id user_id data), s')
            /\ reviews s'
               = reviews (flushed s)
                 ++ [stored_review s book_id user_id data]
            /\ user_interactions s'
               = user_interactions (flushed s)
                 ++ [stored_interaction s book_id user_id as_float]
            /\ new s' = [] /\ books s' = books s /\ borrows s' = borrows s
      | Raises e =>
          exists s', create_review book_id user_id data s = (Raises e, s')
                     /\ books s' = books s
      end
  | _ :: _ :: _ =>
      create_review book_id user_id data s = (Raises MultipleResultsFound, s)
  end.
Proof.
  unfold create_review, io_bind.
  destruct (select_borrows book_id user_id s) as [|b [|b' rows]];
    cbn [scalar_one_or_none]; try reflexivity.
  unfold add, lift. cbn beta iota.
  destruct (insert_all_frame (new s) (with_new [] s))
    as (Hbooks & Hborrows & Hnew & Huuid & Hnow).
  change (fold_left insert (new s) (with_new [] s)) with (flushed s)
    in Hbooks, Hborrows, Hnew, Huuid, Hnow.
  cbn [with_new books borrows new uuid4 utcnow]
    in Hbooks, Hborrows, Hnew, Huuid, Hnow.
  destruct (float_of_int (rating data)) as [as_float|e].
  - unfold flush. cbn [new with_new]. rewrite !with_new_idem.
    rewrite !fold_left_app.
    change (fold_left insert (new s) (with_new [] s)) with (flushed s).
    cbn [fold_left].
    eexists. split; [|split; [|split; [|split; [|split]]]].
    + cbn [insert reviews]. rewrite last_last.
      unfold stored_review. rewrite Hnow, Huuid. reflexivity.
    + cbn [insert reviews]. unfold stored_review.
      rewrite ?Hnow, ?Huuid. reflexivity.
    + cbn [insert user_interactions uuid4 uuid4_calls utcnow utcnow_calls].
      unfold stored_interaction. rewrite ?Hnow, ?Huuid. reflexivity.
    + cbn [insert new]. exact Hnew.
    + cbn [insert books]. exact Hbooks.
    + cbn [insert borrows]. exact Hborrows.
  - eexists. split; reflexivity.
Qed.

Lemma select_borrows_nil (s : Session.t) (book_id user_id : UUID) :
  select_borrows book_id user_id s = [] <-> ~ has_borrowed s book_id user_id.
Proof.
  unfold select_borrows, has_borrowed. split.
  - intros Hnil (b & Hin & Hbook & Huser).
    assert (In b (List.filter
                    (fun b => (Borrow.book_id b =? book_id)%N
                              && (Borrow.user_id b =? user_id)%N)
                    (borrows s))) as Hfound.
    { apply filter_In. split; [assumption|].
      apply andb_true_iff. split; now apply N.eqb_eq. }
    rewrite Hnil in Hfound. destruct Hfound.
  - intros Hnone.
    destruct (List.filter _ (borrows s)) as [|b rows] eqn:Hrows;
      [reflexivity|].
    exfalso. apply Hnone.
    assert (In b (b :: rows)) as Hin by now left.
    rewrite <- Hrows in Hin. apply filter_In in Hin as [Hin Htest].
    apply andb_true_iff in Htest as [Hbook Huser].
    apply N.eqb_eq in Hbook, Huser. now exists b.
Qed.

Lemma select_borrows_cons (s : Session.t) (book_id user_id : UUID)
      (b : Borrow.t) (rows : list Borrow.t) :
  select_borrows book_id user_id s = b :: rows ->
  has_borrowed s book_id user_id.
Proof.
  intros Hrows.
  destruct (select_borrows book_id user_id s) eqn:Hsel; [discriminate|].
  assert (select_borrows book_id user_id s <> []) as Hne by congruence.
  unfold select_borrows in Hsel.
  assert (In b (b :: rows)) as Hin by now left.
  rewrite <- Hrows, <- Hsel in Hin. apply filter_In in Hin as [Hin Htest].
  apply andb_true_iff in Htest as [Hbook Huser].
  apply N.eqb_eq in Hbook, Huser. now exists b.
Qed.

(** [float] of an int raises nothing but [OverflowError]. *)
Lemma float_of_int_raises (n : Z) (e : Exc) :
  float_of_int n = Raises e ->
  e = OverflowError "int too large to convert to float".
Proof.
  unfold float_of_int.
  destruct (round_ratio (Z.abs n) 1) as [[m ex]|]; [discriminate|].
  now intros [= <-].
Qed.

(** C10.  [create_review] raises an HTTP 403 error exactly when the user
    has no borrow record for the book, returned or not, and then leaves
    the session as it was: no review and no interaction is added.  When
    it returns, the tables hold, after the rows of the objects that were
    already pending, exactly one more review, the one returned, and
    exactly one more interaction, of type "review", whose rating is
    [float] of the rating of the review; in a session without pending
    objects these are the only rows added. *)
Theorem create_review_spec (s : Session.t) (book_id user_id : UUID)
        (data : ReviewCreateRequest) :
  let result := create_review book_id user_id data s in
  ((exists detail, fst result = Raises (HTTPException 403 detail))
   <-> ~ has_borrowed s book_id user_id)
  /\ (~ has_borrowed s book_id user_id ->
      result = (Raises (HTTPException 403
                          "You must borrow a book before reviewing it"), s))
  /\ (forall review,
        fst result = Returns review ->
        exists as_float interaction,
          float_of_int (rating data) = Returns as_float
          /\ review = stored_review s book_id user_id data
          /\ interaction = stored_interaction s book_id user_id as_float
          /\ Review.rating review = rating data
          /\ UserInteraction.enum_label
               (UserInteraction.interaction_type interaction) = "review"
          /\ UserInteraction.rating interaction = Some as_float
          /\ reviews (snd result) = reviews (flushed s) ++ [review]
          /\ user_interactions (snd result)
             = user_interactions (flushed s) ++ [interaction]
          /\ new (snd result) = []
          /\ (new s = [] ->
              reviews (snd result) = reviews s ++ [review]
              /\ user_interactions (snd result)
                 = user_interactions s ++ [interaction])).
Proof.
  intros result. subst result.
  pose proof (create_review_cases s book_id user_id data) as Hcases.
  pose proof (select_borrows_nil s book_id user_id) as Hnil.
  pose proof (select_borrows_cons s book_id user_id) as Hcons.
  destruct (select_borrows book_id user_id s) as [|b [|b' rows]].
  - rewrite Hcases. cbn [fst snd]. split; [|split].
    + split; [intros _; now apply Hnil | intros _; eauto].
    + reflexivity.
    + intros review H. discriminate.
  - assert (has_borrowed s book_id user_id) as Hhas
      by exact (Hcons _ _ eq_refl).
    destruct (float_of_int (rating data)) as [as_float|e] eqn:Hfloat.
    + destruct Hcases as (s' & -> & Hrev & Hint & Hnew & _ & _).
      cbn [fst snd]. split; [|split].
      * split; [intros (detail & H); discriminate | intros H; contradiction].
      * intros H. contradiction.
      * intros review H. injection H as <-.
        exists as_float, (stored_interaction s book_id user_id as_float).
        do 9 (split; [first [reflexivity | assumption]|]).
        intros Hfresh. rewrite Hrev, Hint.
        rewrite (flushed_nothing_pending s Hfresh). now split.
    + destruct Hcases as (s' & -> & _). cbn [fst snd]. split; [|split].
      * split; [intros (detail & H) | intros H; contradiction].
        injection H as ->. apply float_of_int_raises in Hfloat.
        discriminate.
      * intros H. contradiction.
      * intros review H. discriminate.
  - assert (has_borrowed s book_id user_id) as Hhas
      by exact (Hcons _ _ eq_refl).
    rewrite Hcases. cbn [fst snd]. split; [|split].
    + split; [intros (detail & H); discriminate | intros H; contradiction].
    + intros H. contradiction.
    + intros review H. discriminate.
Qed.

(** A user who borrowed the book twice has borrow records, so the call
    is not refused with 403; it does not succeed either: the query has two
    rows and [scalar_one_or_none] raises. *)
Remark create_review_twice_borrowed (data : ReviewCreateRequest) :
  has_borrowed twice_borrowed 3%N 7%N
  /\ create_review 3%N 7%N data twice_borrowed
     = (Raises MultipleResultsFound, twice_borrowed).
Proof.
  split; [|reflexivity].
  eexists. split; [left; reflexivity|]. split; reflexivity.
Qed.

End Reviews.

(** ** The consensus version *)

Section ConsensusVersion.

Import Coordinator.

Variable sql_avg : list Z -> option float.

Lemma create_review_books (s : Session.t) (book_id user_id : UUID)
      (data : ReviewService.ReviewCreateRequest) :
  books (snd (ReviewService.create_review book_id user_id data s))
  = books s.
Proof.
  pose proof (create_review_cases s book_id user_id data) as Hcases.
  destruct (select_borrows book_id user_id s) as [|b [|b' rows]].
  - now rewrite Hcases.
  - destruct (float_of_int (ReviewService.rating data)).
    + now destruct Hcases as (s' & -> & _ & _ & _ & Hbooks & _).
    + now destruct Hcases as (s' & -> & Hbooks).
  - now rewrite Hcases.
Qed.

Lemma get_analysis_state (s : Session.t) (id : UUID) :
  snd (Intelligence.get_analysis sql_avg id s) = s.
Proof.
  unfold Intelligence.get_analysis. now destruct (books s !! id).
Qed.

(** One operation: the version of an existing book grows by one when the
    operation is a commit on the book that writes, and stays otherwise. *)
Lemma step_version (s : Session.t) (op : Op) (id : UUID) (v : Z) :
  version_of id s = Some v ->
  version_of id (step sql_avg s op)
  = Some (v + (if commits id s op then 1 else 0)).
Proof.
  unfold version_of. intros Hv.
  destruct (books s !! id) as [b|] eqn:Hb; [|discriminate].
  cbn in Hv. injection Hv as Hv.
  destruct op as [title author file_path file_type isbn genres
                 | id' text | id' expected text | id' | book_id user_id data];
    cbn [step commits]; rewrite ?Z.add_0_r.
  - unfold add_book.
    destruct (books s !! uuid4 s (uuid4_calls s)) eqn:Hnext; cbn [snd books].
    + now rewrite Hb, <- Hv.
    + rewrite lookup_insert_ne by congruence. now rewrite Hb, <- Hv.
  - unfold updateBookSummary.
    destruct (books s !! id') as [b'|] eqn:Hb'; cbn [snd with_books books].
    + destruct (decide (id' = id)) as [->|Hne].
      * rewrite lookup_insert_eq. cbn. congruence.
      * rewrite lookup_insert_ne by assumption. now rewrite Hb, <- Hv.
    + now rewrite Hb, <- Hv.
  - unfold compareAndSwapConsensus.
    destruct (N.eqb_spec id' id) as [->|Hne]; cbn [andb].
    + rewrite Hb.
      destruct (Z.eqb_spec (Book.consensus_version b) expected) as [He|He];
        cbn [fst snd with_books books].
      * rewrite lookup_insert_eq. cbn. f_equal. lia.
      * rewrite Hb. cbn. f_equal. lia.
    + rewrite Z.add_0_r.
      destruct (books s !! id') as [b'|] eqn:Hb'.
      * destruct (Book.consensus_version b' =? expected);
          cbn [snd with_books books].
        -- rewrite lookup_insert_ne by assumption. now rewrite Hb, <- Hv.
        -- now rewrite Hb, <- Hv.
      * cbn [snd]. now rewrite Hb, <- Hv.
  - rewrite get_analysis_state. now rewrite Hb, <- Hv.
  - rewrite create_review_books. now rewrite Hb, <- Hv.
Qed.

Lemma count_commits_nonneg (id : UUID) (ops : list Op) (s : Session.t) :
  0 <= count_commits sql_avg id ops s.
Proof.
  revert s. induction ops as [|op ops IH]; intros s; cbn [count_commits].
  - lia.
  - specialize (IH (step sql_avg s op)). destruct (commits id s op); lia.
Qed.

(** C2.  A new book row has [consensus_version] 0.  A commit of a
    regeneration, the compare-and-swap of the specification, writes only
    when the version it expects is the stored one, and then the stored
    version becomes exactly one more; otherwise it writes nothing.  Under
    every operation of the program the version of an existing book grows
    by one if the operation is such a writing commit on that book and is
    unchanged otherwise, so it never decreases; and along any sequence of
    operations it grows by exactly the number of writing commits. *)
Theorem consensus_version_counts_commits :
  (forall title author file_path file_type isbn genres s id s',
      add_book title author file_path file_type isbn genres s
      = (Returns id, s') ->
      version_of id s = None /\ version_of id s' = Some 0)
  /\ (forall id expected text s v,
         version_of id s = Some v ->
         (expected = v ->
          fst (compareAndSwapConsensus id expected text s) = Returns true
          /\ version_of id (snd (compareAndSwapConsensus id expected text s))
             = Some (v + 1))
         /\ (expected <> v ->
             compareAndSwapConsensus id expected text s = (Returns false, s)))
  /\ (forall op s id v,
         version_of id s = Some v ->
         exists v',
           version_of id (step sql_avg s op) = Some v'
           /\ v <= v'
           /\ v' = v + (if commits id s op then 1 else 0))
  /\ (forall ops s id v,
         version_of id s = Some v ->
         version_of id (run sql_avg ops s)
         = Some (v + count_commits sql_avg id ops s)
         /\ v <= v + count_commits sql_avg id ops s).
Proof.
  split; [|split; [|split]].
  - intros title author file_path file_type isbn genres s id s' Hadd.
    unfold add_book in Hadd.
    destruct (books s !! uuid4 s (uuid4_calls s)) eqn:Hnext; [discriminate|].
    injection Hadd as <- <-. unfold version_of. rewrite Hnext.
    cbn [books]. rewrite lookup_insert_eq. now cbn.
  - intros id expected text s v Hv. unfold version_of in Hv.
    unfold compareAndSwapConsensus, version_of.
    destruct (books s !! id) as [b|] eqn:Hb; [|discriminate].
    cbn in Hv. injection Hv as Hv. split.
    + intros ->. rewrite <- Hv, Z.eqb_refl. cbn [fst snd with_books books].
      rewrite lookup_insert_eq. split; reflexivity.
    + intros Hne.
      destruct (Z.eqb_spec (Book.consensus_version b) expected);
        [congruence | reflexivity].
  - intros op s id v Hv.
    exists (v + (if commits id s op then 1 else 0)).
    split; [exact (step_version s op id v Hv)|].
    split; [destruct (commits id s op); lia | reflexivity].
  - intros ops. induction ops as [|op ops IH]; intros s id v Hv.
    + cbn [run fold_left count_commits]. rewrite Z.add_0_r. split; [exact Hv|lia].
    + cbn [run fold_left count_commits].
      pose proof (step_version s op id v Hv) as Hstep.
      destruct (IH _ _ _ Hstep) as [Hrun _]. unfold run in Hrun.
      rewrite Hrun. split; [f_equal; lia|].
      pose proof (count_commits_nonneg id ops (step sql_avg s op)).
      destruct (commits id s op); lia.
Qed.

End ConsensusVersion.

(** ** More on strings *)

Section MoreStrings.

Lemma take_append_short (n : nat) (a b : string) :
  (n <= String.length a)%nat -> take n (a +:+ b) = take n a.
Proof.
  revert a. induction n as [|n IH]; intros [|c a] H; cbn in H; try lia.
  - destruct b; reflexivity.
  - reflexivity.
  - rewrite append_cons. cbn [take]. f_equal. apply IH. lia.
Qed.

Lemma take_append_long (n : nat) (a b : string) :
  (String.length a <= n)%nat ->
  take n (a +:+ b) = a +:+ take (n - String.length a) b.
Proof.
  revert n. induction a as [|c a IH]; intros n H.
  - rewrite !append_nil_l. cbn [String.length]. now rewrite Nat.sub_0_r.
  - cbn [String.length] in *. destruct n as [|n]; [lia|].
    rewrite !append_cons. cbn [take]. f_equal.
    rewrite IH by lia. reflexivity.
Qed.

Lemma occurs_take (c : ascii) (k : nat) (s : string) :
  occurs c s = false -> occurs c (take k s) = false.
Proof.
  revert s. induction k as [|k IH]; intros [|a s] H; try reflexivity.
  cbn [occurs take] in *. apply orb_false_iff in H as [Ha Hs].
  rewrite Ha. cbn. now apply IH.
Qed.

(** Text in which [c] does not occur, put behind [a], does not move the
    last occurrence of [c]. *)
Lemma rfind_from_append_absent (c : ascii) (a b : string) (i : Z) :
  occurs c b = false ->
  rfind_from c (a +:+ b) i = rfind_from c a i.
Proof.
  intros Hb. revert i. induction a as [|x a IH]; intros i.
  - rewrite append_nil_l. cbn [rfind_from]. clear -Hb. revert i.
    induction b as [|y b IH]; intros i; [reflexivity|].
    cbn [occurs] in Hb. apply orb_false_iff in Hb as [Hy Hb].
    cbn [rfind_from]. rewrite (IH Hb), Hy. reflexivity.
  - rewrite append_cons. cbn [rfind_from]. now rewrite IH.
Qed.

Lemma rfind_from_last (c : ascii) (p : string) (i : Z) :
  0 <= i -> rfind_from c (p +:+ String c "") i = i + len p.
Proof.
  revert i. induction p as [|a p IH]; intros i Hi.
  - rewrite append_nil_l. cbn [rfind_from]. cbn [Z.leb Z.compare].
    rewrite Ascii.eqb_refl. unfold len. cbn. lia.
  - rewrite append_cons. cbn [rfind_from]. rewrite IH by lia.
    assert ((0 <=? i + 1 + len p) = true) as ->
      by (apply Z.leb_le; pose proof (len_nonneg p); lia).
    unfold len. cbn [String.length]. lia.
Qed.

Lemma slashes_add (j k : nat) :
  slashes j +:+ slashes k = slashes (j + k).
Proof.
  induction j as [|j IH]; [reflexivity|].
  cbn [slashes Nat.add]. rewrite append_cons. now rewrite IH.
Qed.

Lemma rstrip_slash_slashes (k : nat) : Ollama.rstrip_slash (slashes k) = "".
Proof.
  induction k as [|k IH]; [reflexivity|].
  cbn [slashes Ollama.rstrip_slash]. now rewrite IH.
Qed.

(** What [rstrip] removes is a run of slashes, and what it keeps does
    not end with one. *)
Lemma rstrip_slash_split (s : string) :
  exists k, s = Ollama.rstrip_slash s +:+ slashes k
            /\ last_char (Ollama.rstrip_slash s) <> Some "/"%char.
Proof.
  induction s as [|c s (k & Hs & Hlast)].
  - exists 0%nat. split; [reflexivity | discriminate].
  - cbn [Ollama.rstrip_slash].
    destruct (Ollama.rstrip_slash s) as [|a kept] eqn:Hkept.
    + rewrite append_nil_l in Hs.
      destruct (Ascii.eqb_spec c "/") as [->|Hne].
      * exists (S k). split; [now rewrite Hs | discriminate].
      * exists k. split; [now rewrite Hs|]. cbn. congruence.
    + exists k. split.
      * rewrite append_cons. now rewrite <- Hs.
      * exact Hlast.
Qed.

(** It keeps exactly the text in front of the last run of slashes. *)
Lemma rstrip_slash_unique (r : string) (k : nat) :
  last_char r <> Some "/"%char ->
  Ollama.rstrip_slash (r +:+ slashes k) = r.
Proof.
  induction r as [|c r IH]; intros Hlast.
  - rewrite append_nil_l. apply rstrip_slash_slashes.
  - rewrite append_cons. cbn [Ollama.rstrip_slash].
    destruct r as [|a r].
    + rewrite append_nil_l, rstrip_slash_slashes.
      destruct (Ascii.eqb_spec c "/") as [->|Hne]; [|reflexivity].
      now contradiction Hlast.
    + rewrite IH by exact Hlast. reflexivity.
Qed.

End MoreStrings.

(** ** More on truncation *)

Section MoreTruncation.

Import Templates.

Lemma truncate_to_tokens_short (text : string) (max_tokens : Z) :
  len text <= max_tokens * 4 -> truncate_to_tokens text max_tokens = text.
Proof.
  intros H. unfold truncate_to_tokens, CHARS_PER_TOKEN.
  now assert ((len text <=? max_tokens * 4) = true) as ->
    by (apply Z.leb_le; lia).
Qed.

Lemma marker_has_no_period : occurs "." TRUNCATION_MARKER = false.
Proof. reflexivity. Qed.

Lemma len_marker : len TRUNCATION_MARKER = 36.
Proof. reflexivity. Qed.

(** The cut of a text that is too long: the prefix [body] that is kept,
    and what decided its length. *)
Lemma truncate_to_tokens_body (text : string) (cap : Z) :
  0 <= cap -> cap * 4 < len text ->
  exists body,
    truncate_to_tokens text cap = body +:+ TRUNCATION_MARKER
    /\ len body <= cap * 4
    /\ body = take (Z.to_nat (len body)) text
    /\ let last_period := rfind (slice_to text (cap * 4)) "." in
       if gt_times_0_8 last_period (cap * 4)
       then 4 * (cap * 4) < 5 * last_period
            /\ len body = last_period + 1
            /\ exists p, body = p +:+ "."
       else len body = cap * 4 /\ rfind body "." = last_period.
Proof.
  intros Hcap Hlong.
  pose proof (truncate_to_tokens_long text cap Hcap Hlong) as Hshape.
  cbn zeta in Hshape |- *.
  destruct (slice_to_window text (cap * 4) ltac:(lia) Hlong) as [Hw Hlen].
  set (window := slice_to text (cap * 4)) in *.
  set (last_period := rfind window ".") in *.
  destruct (gt_times_0_8 last_period (cap * 4)) eqn:Hgt.
  - pose proof Hgt as Hgt'. unfold gt_times_0_8 in Hgt'.
    apply Z.ltb_lt in Hgt'.
    destruct (rfind_spec window ".") as [[Hr _] | (Hr & Hget & _)];
      fold last_period in Hr; [lia|]. fold last_period in Hget.
    rewrite Hlen in Hr.
    destruct (slice_to_window text (last_period + 1) ltac:(lia) ltac:(lia))
      as [Hb Hbl].
    exists (slice_to text (last_period + 1)).
    split; [exact Hshape|]. split; [lia|]. split.
    + rewrite Hbl. exact Hb.
    + split; [lia|]. split; [exact Hbl|].
      exists (take (Z.to_nat last_period) text). rewrite Hb.
      replace (Z.to_nat (last_period + 1)) with (S (Z.to_nat last_period))
        by lia.
      apply take_succ_get. rewrite Hw, get_take in Hget by lia. exact Hget.
  - exists window. split; [exact Hshape|]. split; [lia|]. split.
    + rewrite Hlen. exact Hw.
    + split; [exact Hlen | reflexivity].
Qed.

(** X1.  Truncating a second time with the same cap changes nothing: no second
    marker is added, and the cut does not move.  The marker holds no full
    stop, so the full stop the first cut ended on is still the last one
    of the window. *)
Theorem truncate_to_tokens_idempotent (text : string) (cap : Z) :
  0 <= cap ->
  truncate_to_tokens (truncate_to_tokens text cap) cap
  = truncate_to_tokens text cap.
Proof.
  intros Hcap.
  destruct (Z.le_gt_cases (len text) (cap * 4)) as [Hshort | Hlong].
  { now rewrite !(truncate_to_tokens_short text cap Hshort). }
  destruct (truncate_to_tokens_body text cap Hcap ltac:(lia))
    as (body & Hrun & Hlen & Hbody & Hcut).
  cbn zeta in Hcut. rewrite Hrun.
  set (last_period := rfind (slice_to text (cap * 4)) ".") in *.
  destruct (Z.le_gt_cases (len (body +:+ TRUNCATION_MARKER)) (cap * 4))
    as [Hfits | Hover].
  { now apply truncate_to_tokens_short. }
  pose proof (len_nonneg body) as Hb0.
  assert (cap * 4 < len (body +:+ TRUNCATION_MARKER)) as Hover' by lia.
  rewrite (truncate_to_tokens_long _ cap Hcap Hover').
  destruct (slice_to_window _ (cap * 4) ltac:(lia) Hover') as [Hw _].
  rewrite Hw. clear Hw.
  assert (String.length body <= Z.to_nat (cap * 4))%nat as Hfit
    by (unfold len in Hlen; lia).
  rewrite (take_append_long _ _ _ Hfit).
  unfold rfind at 1 2.
  rewrite rfind_from_append_absent
    by (apply occurs_take, marker_has_no_period).
  fold (rfind body ".").
  destruct (gt_times_0_8 last_period (cap * 4)) eqn:Hgt.
  - destruct Hcut as (Hlate & Hcutlen & p & Hp).
    assert (rfind body "." = last_period) as ->.
    { unfold rfind. rewrite Hp at 1. rewrite rfind_from_last by lia.
      apply (f_equal len) in Hp. rewrite len_append in Hp.
      change (len ".") with 1 in Hp. lia. }
    rewrite Hgt. f_equal.
    unfold slice_to.
    assert ((0 <=? last_period + 1) = true) as -> by (apply Z.leb_le; lia).
    rewrite take_append_short by (unfold len in Hcutlen; lia).
    apply take_all. unfold len in Hcutlen. lia.
  - destruct Hcut as [Hfull Hsame]. rewrite Hsame, Hgt.
    replace (Z.to_nat (cap * 4) - String.length body)%nat with 0%nat
      by (unfold len in Hfull; lia).
    cbn [take]. now rewrite append_empty_r.
Qed.

(** The theorem at the cap 5 and [late_period_text]. *)
Lemma truncate_to_tokens_idempotent_witness :
  0 <= 5
  /\ truncate_to_tokens (truncate_to_tokens late_period_text 5) 5
     = truncate_to_tokens late_period_text 5.
Proof.
  split; [lia|].
  apply (truncate_to_tokens_idempotent late_period_text 5). lia.
Defined.

(** X2.  A text that is too long keeps more than four fifths of its window,
    and at most the window.  With the marker, the result is estimated at
    up to nine tokens above the cap, and at exactly nine above it when
    the cut is not moved to a full stop. *)
Theorem truncate_to_tokens_keeps_four_fifths (text : string) (cap : Z) :
  0 < cap -> cap * 4 < len text ->
  exists body,
    truncate_to_tokens text cap = body +:+ TRUNCATION_MARKER
    /\ body = slice_to text (len body)
    /\ 4 * (cap * 4) < 5 * len body /\ len body <= cap * 4
    /\ estimate_tokens (truncate_to_tokens text cap) <= cap + 9
    /\ (gt_times_0_8 (rfind (slice_to text (cap * 4)) ".") (cap * 4) = false
        -> estimate_tokens (truncate_to_tokens text cap) = cap + 9).
Proof.
  intros Hcap Hlong.
  destruct (truncate_to_tokens_body text cap ltac:(lia) Hlong)
    as (body & Hrun & Hlen & Hbody & Hcut).
  cbn zeta in Hcut.
  exists body. split; [exact Hrun|].
  pose proof (len_nonneg body) as Hb0.
  split.
  { unfold slice_to.
    assert ((0 <=? len body) = true) as -> by (apply Z.leb_le; lia).
    exact Hbody. }
  assert (4 * (cap * 4) < 5 * len body) as Hkeep.
  { destruct (gt_times_0_8 _ _); [|lia].
    destruct Hcut as (Hlate & Hcutlen & _). lia. }
  split; [exact Hkeep|]. split; [exact Hlen|].
  unfold estimate_tokens, CHARS_PER_TOKEN.
  rewrite Hrun, len_append, len_marker.
  pose proof (Z.div_mod (len body + 36) 4 ltac:(lia)) as Hdm.
  pose proof (Z.mod_pos_bound (len body + 36) 4 ltac:(lia)) as Hmod.
  split; [lia|].
  intros Hno. rewrite Hno in Hcut. destruct Hcut as [Hfull _].
  rewrite Hfull. replace (cap * 4 + 36) with ((cap + 9) * 4) by lia.
  apply Z.div_mul. lia.
Qed.

(** The theorem at the cap 5 and [boundary_text], whose cut stays at the
    end of the window. *)
Lemma truncate_to_tokens_keeps_four_fifths_witness :
  0 < 5 /\ 5 * 4 < len boundary_text
  /\ exists body,
       truncate_to_tokens boundary_text 5 = body +:+ TRUNCATION_MARKER
       /\ body = slice_to boundary_text (len body)
       /\ 4 * (5 * 4) < 5 * len body /\ len body <= 5 * 4
       /\ estimate_tokens (truncate_to_tokens boundary_text 5) <= 5 + 9
       /\ (gt_times_0_8 (rfind (slice_to boundary_text (5 * 4)) ".") (5 * 4)
           = false
           -> estimate_tokens (truncate_to_tokens boundary_text 5) = 5 + 9).
Proof.
  split; [lia|]. split; [vm_compute; reflexivity|].
  apply (truncate_to_tokens_keeps_four_fifths boundary_text 5).
  - lia.
  - vm_compute. reflexivity.
Defined.


(** X3.  The caps that are not positive.  With the cap 0 every text but the
    empty one becomes the marker alone.  With a negative cap the text is
    never returned as it is, not even the empty one: the window is the
    text without its last [-4 * cap] characters, the comparison with
    four fifths of the negative bound always holds, and so the result is
    the window cut after its last full stop, nothing at all when it has
    none, followed by the marker. *)
Theorem truncate_to_tokens_nonpositive_cap (text : string) :
  truncate_to_tokens "" 0 = ""
  /\ (text <> "" -> truncate_to_tokens text 0 = TRUNCATION_MARKER)
  /\ forall cap,
       cap < 0 ->
       let window := slice_to text (cap * 4) in
       exists body,
         truncate_to_tokens text cap = body +:+ TRUNCATION_MARKER
         /\ len window = Z.max 0 (len text + cap * 4)
         /\ body = slice_to text (len body)
         /\ len body <= len window
         /\ (rfind window "." = -1 -> body = "")
         /\ (0 <= rfind window "." ->
             ends_with_period body /\ len body = rfind window "." + 1).
Proof.
  split; [reflexivity|]. split.
  - intros Hne. unfold truncate_to_tokens, CHARS_PER_TOKEN.
    destruct text as [|c text]; [congruence|].
    reflexivity.
  - intros cap Hcap window.
    unfold truncate_to_tokens, CHARS_PER_TOKEN.
    pose proof (len_nonneg text) as Hlen.
    assert ((len text <=? cap * 4) = false) as -> by (apply Z.leb_gt; lia).
    cbn zeta. fold window.
    assert (window = take (Z.to_nat (len text + cap * 4)) text) as Hw.
    { subst window. unfold slice_to.
      now assert ((0 <=? cap * 4) = false) as -> by (apply Z.leb_gt; lia). }
    assert (len window = Z.max 0 (len text + cap * 4)) as Hwl.
    { rewrite Hw. unfold len in *. rewrite length_take. lia. }
    destruct (rfind_spec window ".") as [[Hr _] | (Hr & Hget & _)].
    + rewrite Hr. cbn [Z.add].
      assert (gt_times_0_8 (-1) (cap * 4) = true) as ->
        by (unfold gt_times_0_8; apply Z.ltb_lt; lia).
      exists "". split; [reflexivity|]. split; [exact Hwl|].
      split; [reflexivity|].
      split; [rewrite Hwl; change (len "") with 0; lia|].
      split; [reflexivity|]. lia.
    + set (last_period := rfind window ".") in *.
      assert (gt_times_0_8 last_period (cap * 4) = true) as ->
        by (unfold gt_times_0_8; apply Z.ltb_lt; lia).
      assert (slice_to window (last_period + 1)
              = take (Z.to_nat (last_period + 1)) text) as Hbody.
      { unfold slice_to.
        assert ((0 <=? last_period + 1) = true) as ->
          by (apply Z.leb_le; lia).
        rewrite Hw, take_take. f_equal. lia. }
      assert (len (slice_to window (last_period + 1)) = last_period + 1)
        as Hbl.
      { rewrite Hbody. unfold len in *. rewrite length_take. lia. }
      exists (slice_to window (last_period + 1)).
      split; [reflexivity|]. split; [exact Hwl|]. split.
      { rewrite Hbl. rewrite Hbody at 1. unfold slice_to.
        now assert ((0 <=? last_period + 1) = true) as ->
          by (apply Z.leb_le; lia). }
      split; [lia|]. split; [lia|]. intros _. split; [|exact Hbl].
      exists (take (Z.to_nat last_period) text). rewrite Hbody.
      replace (Z.to_nat (last_period + 1)) with (S (Z.to_nat last_period))
        by lia.
      apply take_succ_get. rewrite Hw, get_take in Hget by lia. exact Hget.
Qed.

End MoreTruncation.

(** ** The registry and the summary prompt *)

Section RegistryAndSummary.

Import Templates Registry.

(** X4.  [get_prompt] finds the two prompts under their names, answers only
    with a template that carries the name asked for, and for every other
    name raises [KeyError] with a message that quotes the name and lists
    the registered names in their order. *)
Theorem get_prompt_spec :
  get_prompt "summarize_book" = Returns SUMMARIZE_BOOK
  /\ get_prompt "analyze_reviews" = Returns ANALYZE_REVIEWS
  /\ (forall name template,
        get_prompt name = Returns template ->
        Templates.name template = name
        /\ (template = SUMMARIZE_BOOK \/ template = ANALYZE_REVIEWS))
  /\ (forall name,
        name <> "summarize_book" -> name <> "analyze_reviews" ->
        get_prompt name
        = Raises (KeyError
                    ("Prompt '" +:+ name +:+ "' not found. Available: "
                     +:+ "['summarize_book', 'analyze_reviews']")))
  /\ forallb repr_is_plain (keys PROMPT_REGISTRY) = true.
Proof.
  split; [reflexivity|]. split; [reflexivity|]. split; [|split].
  - intros name template. unfold get_prompt.
    change PROMPT_REGISTRY
      with [("summarize_book", SUMMARIZE_BOOK);
            ("analyze_reviews", ANALYZE_REVIEWS)].
    cbn [get].
    destruct (String.eqb_spec "summarize_book" name) as [<-|_].
    { intros [= <-]. split; [reflexivity | now left]. }
    destruct (String.eqb_spec "analyze_reviews" name) as [<-|_].
    { intros [= <-]. split; [reflexivity | now right]. }
    discriminate.
  - intros name H1 H2. unfold get_prompt.
    change PROMPT_REGISTRY
      with [("summarize_book", SUMMARIZE_BOOK);
            ("analyze_reviews", ANALYZE_REVIEWS)].
    cbn [get].
    destruct (String.eqb_spec "summarize_book" name) as [<-|_];
      [congruence|].
    destruct (String.eqb_spec "analyze_reviews" name) as [<-|_];
      [congruence|].
    reflexivity.
  - reflexivity.
Qed.

(** The user message of the summary prompt, with its fixed text spelled
    out. *)
Lemma str_format_summary kwargs (content : string) :
  kwargs !! "content" = Some content ->
  str_format (user_template SUMMARIZE_BOOK) kwargs
  = Some (Returns (SUMMARY_HEAD +:+ content +:+ SUMMARY_TAIL)).
Proof.
  intros Hcontent. unfold str_format.
  replace (user_template SUMMARIZE_BOOK)
    with (SUMMARY_HEAD
          +:+ String "{" ("content" +:+ String "}" (SUMMARY_TAIL +:+ "")))
    by (vm_compute; reflexivity).
  rewrite format_scan_literal by reflexivity.
  rewrite format_scan_field by reflexivity.
  rewrite get_field_keyword by reflexivity. rewrite Hcontent.
  rewrite format_scan_literal by reflexivity.
  cbn [format_scan prepend]. now rewrite append_empty_r.
Qed.

Lemma render_book_summary_prompt_returns (content : string) :
  render_book_summary_prompt content
  = Some (Returns
            (<["system" := system SUMMARIZE_BOOK]>
               (<["user" := SUMMARY_HEAD
                            +:+ truncate_to_tokens content 4000
                            +:+ SUMMARY_TAIL]> ∅))).
Proof.
  unfold render_book_summary_prompt, render_with_truncation.
  rewrite lookup_insert_eq, insert_insert_eq. unfold render.
  rewrite (str_format_summary _ (truncate_to_tokens content 4000));
    [reflexivity|].
  now rewrite lookup_insert_eq.
Qed.

Lemma render_review_consensus_prompt_returns
      (reviews : list ReviewDict) (current_consensus : option string) :
  render_review_consensus_prompt reviews current_consensus
  = Some (Returns
            (<["system" := system ANALYZE_REVIEWS]>
               (<["user" :=
                    previous_section_of current_consensus +:+ REVIEWS_HEAD
                    +:+ truncate_to_tokens
                          (join (nl +:+ nl) (map format_review reviews)) 3000
                    +:+ REVIEWS_TAIL]> ∅))).
Proof.
  unfold render_review_consensus_prompt, render_with_truncation.
  cbn zeta.
  rewrite lookup_insert_eq, insert_insert_eq. unfold render.
  rewrite (str_format_ANALYZE_REVIEWS _
             (previous_section_of current_consensus)
             (truncate_to_tokens
                (join (nl +:+ nl) (map format_review reviews)) 3000)).
  - reflexivity.
  - rewrite lookup_insert_ne by discriminate. now rewrite lookup_insert_eq.
  - now rewrite lookup_insert_eq.
Qed.

Lemma len_truncate_to_tokens (text : string) (cap : Z) :
  0 <= cap -> len (truncate_to_tokens text cap) <= cap * 4 + 36.
Proof.
  intros Hcap.
  destruct (Z.le_gt_cases (len text) (cap * 4)) as [Hshort | Hlong].
  - rewrite (truncate_to_tokens_short text cap Hshort). lia.
  - destruct (truncate_to_tokens_body text cap Hcap ltac:(lia))
      as (body & -> & Hlen & _).
    rewrite len_append, len_marker. lia.
Qed.

(** X5.  [render_book_summary_prompt] returns for every content, also one that
    holds braces or whole replacement fields: the content is truncated to
    4000 tokens and put between the fixed head and tail as it is, so the
    user message has at most 16190 characters, and content of up to
    16000 characters arrives unchanged. *)
Theorem render_book_summary_prompt_spec (content : string) :
  let user :=
    SUMMARY_HEAD +:+ truncate_to_tokens content 4000 +:+ SUMMARY_TAIL in
  render_book_summary_prompt content
  = Some (Returns (<["system" := system SUMMARIZE_BOOK]>
                     (<["user" := user]> ∅)))
  /\ user_template SUMMARIZE_BOOK
     = SUMMARY_HEAD +:+ "{content}" +:+ SUMMARY_TAIL
  /\ input_token_limit SUMMARIZE_BOOK = 4000
  /\ len user <= 16190
  /\ estimate_tokens user <= 4047
  /\ (len content <= 16000 ->
      user = SUMMARY_HEAD +:+ content +:+ SUMMARY_TAIL)
  /\ (16000 < len content ->
      exists body,
        user = SUMMARY_HEAD +:+ body +:+ TRUNCATION_MARKER +:+ SUMMARY_TAIL
        /\ body = slice_to content (len body)
        /\ 12800 < len body <= 16000).
Proof.
  intros user.
  assert (len user <= 16190) as Hlen.
  { subst user. rewrite !len_append.
    pose proof (len_truncate_to_tokens content 4000 ltac:(lia)).
    change (len SUMMARY_HEAD) with 75. change (len SUMMARY_TAIL) with 79.
    lia. }
  split; [apply render_book_summary_prompt_returns|].
  split; [vm_compute; reflexivity|]. split; [reflexivity|].
  split; [exact Hlen|]. split.
  { unfold estimate_tokens, CHARS_PER_TOKEN.
    enough (len user / 4 < 4048) by lia.
    apply Z.div_lt_upper_bound; lia. }
  split.
  - intros Hshort. subst user.
    now rewrite (truncate_to_tokens_short content 4000) by lia.
  - intros Hlong.
    destruct (truncate_to_tokens_body content 4000 ltac:(lia) ltac:(lia))
      as (body & Hrun & Hbl & Hbody & Hcut).
    cbn zeta in Hcut.
    pose proof (len_nonneg body) as Hb0.
    exists body. subst user. rewrite Hrun, append_assoc.
    split; [reflexivity|]. split.
    + unfold slice_to.
      assert ((0 <=? len body) = true) as -> by (apply Z.leb_le; lia).
      exact Hbody.
    + destruct (gt_times_0_8 _ _); [|lia].
      destruct Hcut as (Hlate & Hcutlen & _). lia.
Qed.

End RegistryAndSummary.

(** ** The adapters at work *)

Section AdapterMethods.

Import Templates.

(** X8.  The base URL an Ollama adapter keeps is the configured one without
    its trailing slashes: what is cut off is a run of slashes, what is
    kept does not end with a slash, so the request URL never holds a
    double slash before [api/chat]; trailing slashes in the configuration
    make no difference, and a URL without one is kept as it is. *)
Theorem ollama_init_strips_trailing_slashes (base_url model : string) :
  let self := Ollama.init base_url model in
  (exists k, base_url = Ollama._base_url self +:+ slashes k)
  /\ last_char (Ollama._base_url self) <> Some "/"%char
  /\ (forall k, Ollama.init (base_url +:+ slashes k) model = self)
  /\ (last_char base_url <> Some "/"%char ->
      Ollama._base_url self = base_url)
  /\ Ollama._base_url (Ollama.init (Ollama._base_url self) model)
     = Ollama._base_url self
  /\ ollama_url self = Ollama.rstrip_slash base_url +:+ "/api/chat"
  /\ Ollama._model self = model.
Proof.
  cbn zeta. unfold Ollama.init, ollama_url.
  cbn [Ollama._base_url Ollama._model].
  destruct (rstrip_slash_split base_url) as (k & Hsplit & Hlast).
  split; [now exists k|]. split; [exact Hlast|]. split; [|split; [|split]].
  - intros j. f_equal. rewrite Hsplit at 1.
    rewrite append_assoc, slashes_add. now apply rstrip_slash_unique.
  - intros Hplain.
    pose proof (rstrip_slash_unique base_url 0 Hplain) as H.
    cbn [slashes] in H. now rewrite append_empty_r in H.
  - pose proof (rstrip_slash_unique _ 0 Hlast) as H.
    cbn [slashes] in H. now rewrite append_empty_r in H.
  - split; reflexivity.
Qed.

(** X9.  [_generate] of the Ollama adapter returns exactly when the server
    answers the one request with a 2xx status and a JSON body whose
    ["message"]["content"] exists and has a length; it returns that
    value, and the last thing it logs is that length.  A body that is
    not JSON, lacks one of the keys, or holds a number, a boolean or null
    there makes the call raise instead. *)
Theorem ollama_generate_returns
        (post : string -> Ollama.Payload -> IO Ollama.Response)
        (self : Ollama.OllamaLLMAdapter) (system user : string)
        (max_tokens : Z) (w w'' : World) (result : Ollama.Json) :
  Ollama._generate post self system user max_tokens w = (Returns result, w'')
  <-> exists resp w' body message n,
        post (ollama_url self) (ollama_payload self system user max_tokens)
             (after_request_log Ollama.logger_name "Ollama"
                (Ollama._model self) max_tokens w)
        = (Returns resp, w')
        /\ 200 <= Ollama.status_code resp <= 299
        /\ Ollama.json_body resp = Some body
        /\ Ollama.getitem body "message" = Returns message
        /\ Ollama.getitem message "content" = Returns result
        /\ Ollama.json_len result = Returns n
        /\ result <> Ollama.JScalar
        /\ w'' = w' ++ [Logged Ollama.logger_name
                          ("Ollama response: " +:+ str_of_int n
                           +:+ " chars")].
Proof.
  unfold Ollama._generate, io_bind, logger_info, emit. cbv zeta beta.
  match goal with
  | |- context [post ?u ?p ?w0] =>
      change (post u p w0)
        with (post (ollama_url self)
                (ollama_payload self system user max_tokens)
                (after_request_log Ollama.logger_name "Ollama"
                   (Ollama._model self) max_tokens w))
  end.
  destruct (post _ _ _) as [[resp|e] w'].
  2:{ split; [discriminate|]. intros (? & ? & ? & ? & ? & H & _).
      discriminate. }
  unfold lift, Ollama.raise_for_status, Ollama.json, ret.
  destruct ((200 <=? Ollama.status_code resp)
            && (Ollama.status_code resp <=? 299)) eqn:Hstatus.
  2:{ split; [discriminate|].
      intros (resp' & w1 & ? & ? & ? & [= <- <-] & Hs & _).
      apply andb_false_iff in Hstatus as [H|H]; apply Z.leb_gt in H; lia. }
  apply andb_prop in Hstatus as [H1 H2].
  apply Z.leb_le in H1, H2.
  destruct (Ollama.json_body resp) as [body|] eqn:Hbody.
  2:{ split; [discriminate|].
      intros (resp' & w1 & ? & ? & ? & [= <- <-] & _ & Hb & _).
      congruence. }
  destruct (Ollama.getitem body "message") as [message|e] eqn:Hmessage.
  2:{ split; [discriminate|].
      intros (resp' & w1 & ? & ? & ? & [= <- <-] & _ & Hb & Hm & _).
      congruence. }
  destruct (Ollama.getitem message "content") as [r|e] eqn:Hcontent.
  2:{ split; [discriminate|].
      intros (resp' & w1 & ? & ? & ? & [= <- <-] & _ & Hb & Hm & Hc & _).
      congruence. }
  destruct (Ollama.json_len r) as [n|e] eqn:Hlen.
  2:{ split; [discriminate|].
      intros (resp' & w1 & ? & ? & ? & [= <- <-] & _ & Hb & Hm & Hc & Hl & _).
      congruence. }
  split.
  - intros [= <- <-]. exists resp, w', body, message, n.
    repeat (split; [first [reflexivity | assumption | lia]|]).
    split; [|reflexivity]. intros ->. discriminate.
  - intros (resp' & w1 & body' & message' & n' & [= <- <-] & _
            & Hb & Hm & Hc & Hl & _ & ->).
    congruence.
Qed.

(** X10.  [_generate] of the OpenAI adapter returns exactly when the client
    answers with at least one choice; it returns the content of the first
    choice, the empty string when that content is [None], whatever the
    other choices hold, and logs the length of what it returns.  An
    answer without choices raises [IndexError], and nothing more is
    logged. *)
Theorem openai_generate_returns
        (create : string -> OpenAI.Request -> IO OpenAI.ChatCompletion)
        (self : OpenAI.OpenAILLMAdapter) (system user : string)
        (max_tokens : Z) (w : World) :
  (forall result w'',
      OpenAI._generate create self system user max_tokens w
      = (Returns result, w'')
      <-> exists resp w' first others,
            create (OpenAI._api_key self)
                   (openai_request self system user max_tokens)
                   (after_request_log OpenAI.logger_name "OpenAI"
                      (OpenAI._model self) max_tokens w)
            = (Returns resp, w')
            /\ OpenAI.choices resp = first :: others
            /\ result = match OpenAI.message_content first with
                        | Some text => text
                        | None => ""
                        end
            /\ w'' = w' ++ [Logged OpenAI.logger_name
                              ("OpenAI response: " +:+ str_of_int (len result)
                               +:+ " chars")])
  /\ (forall resp w',
        create (OpenAI._api_key self)
               (openai_request self system user max_tokens)
               (after_request_log OpenAI.logger_name "OpenAI"
                  (OpenAI._model self) max_tokens w)
        = (Returns resp, w') ->
        OpenAI.choices resp = [] ->
        OpenAI._generate create self system user max_tokens w
        = (Raises (IndexError "list index out of range"), w')).
Proof.
  unfold OpenAI._generate, io_bind, logger_info, emit. cbv zeta beta.
  match goal with
  | |- context [create ?k ?r ?w0] =>
      change (create k r w0)
        with (create (OpenAI._api_key self)
                (openai_request self system user max_tokens)
                (after_request_log OpenAI.logger_name "OpenAI"
                   (OpenAI._model self) max_tokens w))
  end.
  destruct (create _ _ _) as [[resp|e] w1].
  2:{ split; [|discriminate]. intros result w''.
      split; [discriminate|]. intros (? & ? & ? & ? & H & _). discriminate. }
  unfold lift, ret.
  destruct (OpenAI.choices resp) as [|first others] eqn:Hchoices.
  - split.
    + intros result w''. split; [discriminate|].
      intros (resp' & w' & ? & ? & [= <- <-] & Hc & _). congruence.
    + intros resp' w' [= <- <-] _. reflexivity.
  - split.
    + intros result w''. split.
      * intros [= <- <-]. exists resp, w1, first, others.
        repeat split; reflexivity || assumption.
      * intros (resp' & w' & first' & others' & [= <- <-] & Hc & -> & ->).
        rewrite Hchoices in Hc. injection Hc as <- <-. reflexivity.
    + intros resp' w' [= <- <-] Hc. congruence.
Qed.

(** X6.  Both adapters summarize a book by one call of their [_generate] with
    the system message of [SUMMARIZE_BOOK], the user message rendered
    from the text truncated to 4000 tokens, and the 1024 output tokens of
    the template, whatever the text holds. *)
Theorem adapters_summarize_book_request (text : string) :
  let system := Templates.system SUMMARIZE_BOOK in
  let user :=
    SUMMARY_HEAD +:+ truncate_to_tokens text 4000 +:+ SUMMARY_TAIL in
  (forall post self,
      exists call,
        OllamaMethods.summarize_book post self text = Some call
        /\ forall w,
             call w = Ollama._generate post self system user 1024 w)
  /\ (forall create self,
        exists call,
          OpenAIMethods.summarize_book create self text = Some call
          /\ forall w,
               call w = OpenAI._generate create self system user 1024 w).
Proof.
  cbn zeta. split.
  - intros post self. unfold OllamaMethods.summarize_book.
    rewrite render_book_summary_prompt_returns.
    eexists. split; [reflexivity|]. intros w.
    unfold io_bind, lift, prompt_getitem.
    rewrite lookup_insert_eq.
    rewrite lookup_insert_ne by discriminate. rewrite lookup_insert_eq.
    reflexivity.
  - intros create self. unfold OpenAIMethods.summarize_book.
    rewrite render_book_summary_prompt_returns.
    eexists. split; [reflexivity|]. intros w.
    unfold io_bind, lift, prompt_getitem.
    rewrite lookup_insert_eq.
    rewrite lookup_insert_ne by discriminate. rewrite lookup_insert_eq.
    reflexivity.
Qed.

(** X7.  Both adapters analyze reviews by one call of their [_generate] with
    the system message of [ANALYZE_REVIEWS], the user message rendered
    from the previous consensus and the reviews joined and truncated to
    3000 tokens, and the 512 output tokens of the template. *)
Theorem adapters_analyze_reviews_request
        (reviews : list ReviewDict) (current_consensus : option string) :
  let system := Templates.system ANALYZE_REVIEWS in
  let user :=
    previous_section_of current_consensus +:+ REVIEWS_HEAD
    +:+ truncate_to_tokens
          (join (nl +:+ nl) (map format_review reviews)) 3000
    +:+ REVIEWS_TAIL in
  (forall post self,
      exists call,
        OllamaMethods.analyze_reviews post self reviews current_consensus
        = Some call
        /\ forall w,
             call w = Ollama._generate post self system user 512 w)
  /\ (forall create self,
        exists call,
          OpenAIMethods.analyze_reviews create self reviews current_consensus
          = Some call
          /\ forall w,
               call w = OpenAI._generate create self system user 512 w).
Proof.
  cbn zeta. split.
  - intros post self. unfold OllamaMethods.analyze_reviews.
    rewrite render_review_consensus_prompt_returns.
    eexists. split; [reflexivity|]. intros w.
    unfold io_bind, lift, prompt_getitem.
    rewrite lookup_insert_eq.
    rewrite lookup_insert_ne by discriminate. rewrite lookup_insert_eq.
    reflexivity.
  - intros create self. unfold OpenAIMethods.analyze_reviews.
    rewrite render_review_consensus_prompt_returns.
    eexists. split; [reflexivity|]. intros w.
    unfold io_bind, lift, prompt_getitem.
    rewrite lookup_insert_eq.
    rewrite lookup_insert_ne by discriminate. rewrite lookup_insert_eq.
    reflexivity.
Qed.

End AdapterMethods.

(** ** The thresholds of the mock sentiment *)

Section MockSentiment.

Import Templates Mock.

(** Rounding to the nearest integer errs by at most a half. *)
Lemma round_half_even_error (num den : Z) :
  0 < den -> 2 * Z.abs (round_half_even num den * den - num) <= den.
Proof.
  intros Hden. unfold round_half_even.
  pose proof (Z.div_mod num den ltac:(lia)) as Hdm.
  pose proof (Z.mod_pos_bound num den Hden) as Hmod.
  destruct (Z.compare_spec (2 * (num mod den)) den) as [Heq|Hlt|Hgt].
  - destruct (Z.even (num / den)); nia.
  - nia.
  - nia.
Qed.

(** The rounded quotient of two ints, the numerator below eight times the
    denominator and the denominator below [2^50], lies on the same side
    of every natural number as the exact quotient. *)
Lemma round_ratio_threshold (n d : Z) :
  0 < n -> 0 < d -> d < 2 ^ 50 -> n < 8 * d ->
  exists m e,
    round_ratio n d = Some (m, e) /\ e < 0
    /\ forall k, 0 <= k -> (k * 2 ^ (- e) <= m <-> k * d <= n).
Proof.
  intros Hn Hd Hd50 Hn8. unfold round_ratio.
  assert ((n =? 0) = false) as -> by (apply Z.eqb_neq; lia).
  cbv zeta.
  destruct (Z.log2_spec n Hn) as [Ha1 Ha2].
  destruct (Z.log2_spec d Hd) as [Hb1 Hb2].
  pose proof (Z.log2_nonneg n) as Ha0.
  pose proof (Z.log2_nonneg d) as Hb0.
  assert (Z.log2 d < 50) as Hb50 by (apply Z.log2_lt_pow2; lia).
  assert (Z.log2 n <= Z.log2 d + 3) as Hab.
  { assert (Z.log2 n <= Z.log2 (8 * d)) as H
      by (apply Z.log2_le_mono; lia).
    replace (8 * d) with (d * 2 ^ 3) in H by lia.
    rewrite Z.log2_mul_pow2 in H by lia. lia. }
  set (e1 := Z.log2 n - Z.log2 d - 53) in *.
  assert (-102 <= e1 <= -50) as He1 by (subst e1; lia).
  assert ((0 <=? e1) = false) as -> by (apply Z.leb_gt; lia).
  set (carry := 2 ^ 53 * d <=? n * 2 ^ (- e1)).
  set (e0 := if carry then e1 + 1 else e1).
  assert (-102 <= e0 <= -49) as He0 by (subst e0; destruct carry; lia).
  rewrite Z.max_l by lia.
  assert ((0 <=? e0) = false) as -> by (apply Z.leb_gt; lia).
  set (P := 2 ^ (- e0)).
  assert (2 ^ 49 <= P) as HP by (apply Z.pow_le_mono_r; lia).
  set (m0 := round_half_even (n * P) d).
  pose proof (round_half_even_error (n * P) d Hd) as Herr.
  fold m0 in Herr.
  assert (Hside : forall k, 0 <= k -> (k * P <= m0 <-> k * d <= n)).
  { intros k Hk. split; intros H.
    - destruct (Z.le_gt_cases (k * d) n) as [|Hlt]; [assumption|].
      exfalso.
      assert (n * P <= k * d * P - P) by nia.
      assert (2 * (m0 * d) <= 2 * (n * P) + d) by lia.
      assert (d < 2 * P) by lia.
      assert (m0 * d < k * P * d) by nia.
      nia.
    - assert (k * d * P <= n * P) by nia.
      assert (2 * (n * P) - d <= 2 * (m0 * d)) by lia.
      assert (2 * (k * P) * d - d <= 2 * m0 * d) by nia.
      assert (2 * (k * P) - 1 <= 2 * m0) by nia.
      lia. }
  destruct (m0 =? 2 ^ 53) eqn:Hm0.
  - apply Z.eqb_eq in Hm0.
    assert ((971 <? e0 + 1) = false) as -> by (apply Z.ltb_ge; lia).
    exists (2 ^ 52), (e0 + 1). split; [reflexivity|]. split; [lia|].
    intros k Hk. rewrite <- (Hside k Hk), Hm0.
    assert (P = 2 * 2 ^ (- (e0 + 1))) as ->.
    { subst P. replace (- e0) with (1 + - (e0 + 1)) by lia.
      rewrite Z.pow_add_r by lia. reflexivity. }
    change (2 ^ 53) with (2 * 2 ^ 52). lia.
  - assert ((971 <? e0) = false) as -> by (apply Z.ltb_ge; lia).
    exists m0, e0. split; [reflexivity|]. split; [lia|]. exact Hside.
Qed.

Lemma float_ge_literal (m e k : Z) :
  e < 0 -> 0 <= k ->
  float_ge {| neg := false; mant := m; expo := e |} (float_literal k)
  = (k * 2 ^ (- e) <=? m).
Proof.
  intros He Hk. unfold float_ge, float_compare, float_literal, signed_mant.
  cbn [neg mant expo].
  assert ((k <? 0) = false) as -> by (apply Z.ltb_ge; lia).
  rewrite Z.min_l by lia. rewrite Z.sub_diag, Z.abs_eq by lia.
  replace (0 - e) with (- e) by lia.
  change (2 ^ 0) with 1. rewrite Z.mul_1_r.
  destruct (Z.compare_spec m (k * 2 ^ (- e))) as [H|H|H];
    symmetry; [apply Z.leb_le | apply Z.leb_gt | apply Z.leb_le]; lia.
Qed.

Lemma sum_nonneg (xs : list Z) :
  Forall (fun x => 0 <= x) xs -> 0 <= sum xs.
Proof.
  induction 1 as [|x xs Hx _ IH].
  - cbn. lia.
  - unfold sum in *. cbn [fold_left]. rewrite sum_from. unfold sum. lia.
Qed.

(** X11.  The sentiment the mock provider reports is decided by the exact
    average: for up to [2^50] reviews with ratings from 0 to 5, the
    rounding of the division never moves the average across one of the
    thresholds 4.0, 3.0 and 2.0. *)
Theorem mock_sentiment_thresholds (reviews : list ReviewDict) :
  reviews <> [] ->
  Forall (fun r => 0 <= rating r <= 5) reviews ->
  Z.of_nat (length reviews) < 2 ^ 50 ->
  let total := sum (map rating reviews) in
  let count := Z.of_nat (length reviews) in
  exists avg,
    average_rating reviews = Returns avg
    /\ sentiment_of avg
       = if 4 * count <=? total then "overwhelmingly positive"
         else if 3 * count <=? total
         then "generally positive with some reservations"
         else if 2 * count <=? total
         then "mixed, with both praise and criticism"
         else "predominantly critical".
Proof.
  intros Hne Hrange Hcount total count.
  assert (0 < count) as Hpos.
  { subst count. destruct reviews; [congruence | cbn [length]; lia]. }
  assert (0 <= total) as Htotal.
  { subst total. apply sum_nonneg, Forall_map.
    eapply Forall_impl; [exact Hrange|]. cbn beta. intros r Hr. lia. }
  assert (total <= count * 5) as Hfive.
  { subst total count. rewrite <- (length_map rating).
    pose proof (sum_abs_bound (map rating reviews) 5) as H.
    assert (Forall (fun x => Z.abs x <= 5) (map rating reviews)) as Hall.
    { apply Forall_map. eapply Forall_impl; [exact Hrange|].
      cbn beta. intros r Hr. lia. }
    specialize (H Hall). lia. }
  unfold average_rating. fold count. fold total.
  assert ((count =? 0) = false) as Hc0 by (apply Z.eqb_neq; lia).
  rewrite Hc0. unfold truediv. rewrite Hc0.
  rewrite (Z.abs_eq total), (Z.abs_eq count) by lia.
  assert ((total <? 0) = false) as -> by (apply Z.ltb_ge; lia).
  assert ((count <? 0) = false) as -> by (apply Z.ltb_ge; lia).
  cbn [xorb].
  destruct (Z.eq_dec total 0) as [Hzero|Hnonzero].
  - rewrite Hzero. unfold round_ratio. cbn [Z.eqb].
    eexists. split; [reflexivity|].
    assert ((4 * count <=? 0) = false) as -> by (apply Z.leb_gt; lia).
    assert ((3 * count <=? 0) = false) as -> by (apply Z.leb_gt; lia).
    assert ((2 * count <=? 0) = false) as -> by (apply Z.leb_gt; lia).
    reflexivity.
  - destruct (round_ratio_threshold total count) as (m & e & -> & He & Hside);
      [lia | lia | lia | lia |].
    eexists. split; [reflexivity|].
    unfold sentiment_of. rewrite !float_ge_literal by lia.
    assert (forall k, 0 <= k ->
              (k * 2 ^ (- e) <=? m) = (k * count <=? total)) as Hsame.
    { intros k Hk. specialize (Hside k Hk).
      destruct (Z.leb_spec (k * count) total) as [H|H].
      - apply Z.leb_le. now apply Hside.
      - apply Z.leb_gt.
        destruct (Z.le_gt_cases (k * 2 ^ (- e)) m) as [H'|H']; [|lia].
        apply Hside in H'. lia. }
    rewrite !Hsame by lia. reflexivity.
Qed.

(** The theorem at two reviews with the ratings 4 and 3. *)
Lemma mock_sentiment_thresholds_witness :
  let reviews := [ {| rating := 4; text := "Good." |};
                   {| rating := 3; text := "Fine." |} ] in
  reviews <> []
  /\ Forall (fun r => 0 <= rating r <= 5) reviews
  /\ Z.of_nat (length reviews) < 2 ^ 50
  /\ exists avg,
       average_rating reviews = Returns avg
       /\ sentiment_of avg
          = if 4 * Z.of_nat (length reviews) <=? sum (map rating reviews)
            then "overwhelmingly positive"
            else if 3 * Z.of_nat (length reviews)
                    <=? sum (map rating reviews)
            then "generally positive with some reservations"
            else if 2 * Z.of_nat (length reviews)
                    <=? sum (map rating reviews)
            then "mixed, with both praise and criticism"
            else "predominantly critical".
Proof.
  cbn zeta. split; [discriminate|].
  assert (Forall (fun r => 0 <= rating r <= 5)
            [ {| rating := 4; text := "Good." |};
              {| rating := 3; text := "Fine." |} ]) as Hrange.
  { repeat constructor; cbn; lia. }
  split; [exact Hrange|]. split; [cbn; lia|].
  apply (mock_sentiment_thresholds
           [ {| rating := 4; text := "Good." |};
             {| rating := 3; text := "Fine." |} ]).
  - discriminate.
  - exact Hrange.
  - cbn. lia.
Defined.

End MockSentiment.

(** ** More on the review service *)

Section MoreReviews.

Import ReviewService.

(** Inserting rows appends to the reviews and to the interactions. *)
Lemma insert_all_appends (objs : list Obj) (s : Session.t) :
  exists added_reviews added_interactions,
    reviews (fold_left insert objs s) = reviews s ++ added_reviews
    /\ user_interactions (fold_left insert objs s)
       = user_interactions s ++ added_interactions.
Proof.
  revert s. induction objs as [|o objs IH]; intros s.
  - exists [], []. cbn [fold_left]. now rewrite !app_nil_r.
  - cbn [fold_left]. destruct (IH (insert s o)) as (rs & ints & -> & ->).
    destruct o as [r|i]; cbn [insert reviews user_interactions].
    + eexists (_ :: rs), ints. rewrite <- List.app_assoc. split; reflexivity.
    + eexists rs, (_ :: ints). rewrite <- List.app_assoc. split; reflexivity.
Qed.

Lemma float_of_int_returns (n : Z) :
  Z.abs n <= 2 ^ 1000 -> exists x, float_of_int n = Returns x.
Proof.
  intros Hn. unfold float_of_int.
  destruct (round_ratio_in_range (Z.abs n) 1 ltac:(lia) ltac:(lia)
              ltac:(lia)) as (m & e & ->).
  now eexists.
Qed.

(** X12.  Whatever [create_review] does and however it ends, it leaves the
    books and the borrows as they are and only appends to the reviews and
    to the interaction log: no stored row is changed or removed. *)
Theorem create_review_appends_only (s : Session.t) (book_id user_id : UUID)
        (data : ReviewCreateRequest) :
  let s' := snd (create_review book_id user_id data s) in
  books s' = books s
  /\ borrows s' = borrows s
  /\ (exists added, reviews s' = reviews s ++ added)
  /\ (exists added, user_interactions s' = user_interactions s ++ added)
  /\ (forall e, fst (create_review book_id user_id data s) = Raises e ->
      reviews s' = reviews s /\ user_interactions s' = user_interactions s).
Proof.
  cbn zeta. unfold create_review, io_bind.
  destruct (select_borrows book_id user_id s) as [|b [|b' rows]];
    cbn [scalar_one_or_none snd fst raise].
  1,3: repeat split; try reflexivity; exists []; now rewrite app_nil_r.
  unfold add, lift. cbn beta iota.
  destruct (float_of_int (rating data)) as [as_float|e]; cbn [snd fst].
  2:{ cbn [with_new books borrows reviews user_interactions].
      repeat split; try reflexivity; exists []; now rewrite app_nil_r. }
  unfold flush. cbn [new with_new snd fst]. rewrite !with_new_idem.
  match goal with
  | |- context [fold_left insert ?objs ?s0] =>
      destruct (insert_all_frame objs s0) as (-> & -> & _);
      destruct (insert_all_appends objs s0) as (rs & ints & -> & ->)
  end.
  cbn [with_new books borrows reviews user_interactions].
  split; [reflexivity|]. split; [reflexivity|].
  split; [now exists rs|]. split; [now exists ints|]. discriminate.
Qed.

(** X13.  A user who has borrowed the book may review it again and again: a
    second call for the same user and book succeeds like the first, and
    the reviews then hold both, in the order of the calls. *)
Theorem create_review_allows_a_second_review
        (s : Session.t) (book_id user_id : UUID)
        (data1 data2 : ReviewCreateRequest) :
  new s = [] ->
  length (select_borrows book_id user_id s) = 1%nat ->
  Z.abs (rating data1) <= 2 ^ 1000 -> Z.abs (rating data2) <= 2 ^ 1000 ->
  exists r1 s1 r2 s2,
    create_review book_id user_id data1 s = (Returns r1, s1)
    /\ create_review book_id user_id data2 s1 = (Returns r2, s2)
    /\ reviews s2 = reviews s ++ [r1; r2]
    /\ Review.user_id r1 = user_id /\ Review.user_id r2 = user_id
    /\ Review.book_id r1 = book_id /\ Review.book_id r2 = book_id
    /\ Review.rating r1 = rating data1 /\ Review.rating r2 = rating data2
    /\ Review.text r1 = text data1 /\ Review.text r2 = text data2
    /\ length (user_interactions s2)
       = (length (user_interactions s) + 2)%nat.
Proof.
  intros Hnew Hone Hr1 Hr2.
  destruct (float_of_int_returns _ Hr1) as (f1 & Hf1).
  destruct (float_of_int_returns _ Hr2) as (f2 & Hf2).
  pose proof (create_review_cases s book_id user_id data1) as H1.
  destruct (select_borrows book_id user_id s) as [|b [|b' rows]] eqn:Hsel;
    try discriminate.
  rewrite Hf1 in H1.
  destruct H1 as (s1 & Hrun1 & Hrev1 & Hint1 & Hnew1 & Hbooks1 & Hborrows1).
  rewrite (flushed_nothing_pending s Hnew) in Hrev1, Hint1.
  pose proof (create_review_cases s1 book_id user_id data2) as H2.
  assert (select_borrows book_id user_id s1 = [b]) as Hsel1.
  { unfold select_borrows in *. now rewrite Hborrows1. }
  rewrite Hsel1, Hf2 in H2.
  destruct H2 as (s2 & Hrun2 & Hrev2 & Hint2 & _).
  rewrite (flushed_nothing_pending s1 Hnew1) in Hrev2, Hint2.
  eexists _, s1, _, s2.
  split; [exact Hrun1|]. split; [exact Hrun2|]. split.
  { rewrite Hrev2, Hrev1, <- List.app_assoc. reflexivity. }
  repeat (split; [reflexivity|]).
  rewrite Hint2, Hint1, !length_app. cbn [length]. lia.
Qed.

(** The theorem in [once_borrowed]: user 7 reviews book 3 twice. *)
Lemma create_review_allows_a_second_review_witness :
  let data1 := {| rating := 2; text := "Slow start." |} in
  let data2 := {| rating := 5; text := "Changed my mind." |} in
  new once_borrowed = []
  /\ length (select_borrows 3%N 7%N once_borrowed) = 1%nat
  /\ Z.abs (rating data1) <= 2 ^ 1000 /\ Z.abs (rating data2) <= 2 ^ 1000
  /\ exists r1 s1 r2 s2,
       create_review 3%N 7%N data1 once_borrowed = (Returns r1, s1)
       /\ create_review 3%N 7%N data2 s1 = (Returns r2, s2)
       /\ reviews s2 = reviews once_borrowed ++ [r1; r2]
       /\ Review.user_id r1 = 7%N /\ Review.user_id r2 = 7%N
       /\ Review.book_id r1 = 3%N /\ Review.book_id r2 = 3%N
       /\ Review.rating r1 = rating data1 /\ Review.rating r2 = rating data2
       /\ Review.text r1 = text data1 /\ Review.text r2 = text data2
       /\ length (user_interactions s2)
          = (length (user_interactions once_borrowed) + 2)%nat.
Proof.
  cbn zeta.
  split; [reflexivity|]. split; [reflexivity|].
  split; [cbn; lia|]. split; [cbn; lia|].
  apply (create_review_allows_a_second_review once_borrowed 3%N 7%N).
  - reflexivity.
  - reflexivity.
  - cbn. lia.
  - cbn. lia.
Defined.

(** X14.  A user with two or more borrow records for the book, such as one who
    borrowed it, returned it and borrowed it again, cannot review it:
    [scalar_one_or_none] raises [MultipleResultsFound], which is not the
    403 of a missing borrow, and nothing is stored. *)
Theorem create_review_borrowed_more_than_once
        (s : Session.t) (book_id user_id : UUID) (data : ReviewCreateRequest) :
  (2 <= length (select_borrows book_id user_id s))%nat ->
  has_borrowed s book_id user_id
  /\ create_review book_id user_id data s = (Raises MultipleResultsFound, s)
  /\ class_name MultipleResultsFound <> "HTTPException".
Proof.
  intros Htwo.
  pose proof (create_review_cases s book_id user_id data) as Hcases.
  destruct (select_borrows book_id user_id s) as [|b [|b' rows]] eqn:Hsel;
    cbn [length] in Htwo; try lia.
  split; [exact (select_borrows_cons s book_id user_id b _ Hsel)|].
  split; [exact Hcases | discriminate].
Qed.

(** The theorem in [twice_borrowed]. *)
Lemma create_review_borrowed_more_than_once_witness :
  let data := {| rating := 4; text := "Worth a second loan." |} in
  (2 <= length (select_borrows 3%N 7%N twice_borrowed))%nat
  /\ has_borrowed twice_borrowed 3%N 7%N
  /\ create_review 3%N 7%N data twice_borrowed
     = (Raises MultipleResultsFound, twice_borrowed)
  /\ class_name MultipleResultsFound <> "HTTPException".
Proof.
  cbn zeta. split; [cbn; lia|].
  apply (create_review_borrowed_more_than_once twice_borrowed 3%N 7%N).
  cbn. lia.
Defined.

End MoreReviews.

(** ** More on the intelligence routes *)

Section MoreIntelligence.

Import Intelligence.

Variable sql_avg : list Z -> option float.

Lemma select_reviews_app (book_id : UUID) (s s' : Session.t)
      (added : list Review.t) :
  reviews s' = reviews s ++ added ->
  select_reviews book_id s'
  = select_reviews book_id s
    ++ List.filter (fun r => (Review.book_id r =? book_id)%N) added.
Proof.
  intros H. unfold select_reviews. rewrite H. apply List.filter_app.
Qed.

(** X15.  A review that [create_review] has stored is counted by
    [get_analysis]: the total of the reviewed book grows by one, the
    totals of the other books stay, and the summary and the consensus
    that are reported do not change; a book that was not found is still
    not found. *)
Theorem get_analysis_counts_a_new_review
        (s s' : Session.t) (book_id user_id other : UUID)
        (data : ReviewService.ReviewCreateRequest) (review : Review.t) :
  new s = [] ->
  ReviewService.create_review book_id user_id data s = (Returns review, s') ->
  match get_analysis sql_avg other s with
  | (Returns before, _) =>
      exists after,
        get_analysis sql_avg other s' = (Returns after, s')
        /\ total_reviews after
           = total_reviews before + (if (other =? book_id)%N then 1 else 0)
        /\ summary after = summary before
        /\ review_consensus after = review_consensus before
        /\ Intelligence.book_id after = Intelligence.book_id before
  | (Raises e, _) => get_analysis sql_avg other s' = (Raises e, s')
  end.
Proof.
  intros Hnew Hrun.
  pose proof (create_review_cases s book_id user_id data) as Hcases.
  destruct (select_borrows book_id user_id s) as [|b [|b' rows]];
    [congruence| |congruence].
  destruct (float_of_int (ReviewService.rating data)) as [as_float|e].
  2:{ destruct Hcases as (? & Hc & _). congruence. }
  destruct Hcases as (s1 & Hc & Hrev & _ & _ & Hbooks & _).
  rewrite Hrun in Hc. injection Hc as -> <-.
  rewrite (flushed_nothing_pending s Hnew) in Hrev.
  unfold get_analysis. rewrite Hbooks.
  destruct (books s !! other) as [book|]; [|reflexivity].
  eexists. split; [reflexivity|].
  cbn [total_reviews summary review_consensus Intelligence.book_id].
  split; [|repeat split; reflexivity].
  rewrite (select_reviews_app other s s' _ Hrev), map_app, length_app.
  cbn [List.filter stored_review Review.book_id].
  rewrite N.eqb_sym.
  destruct (other =? book_id)%N; cbn [map length]; lia.
Qed.

End MoreIntelligence.

(** The theorem in [library_session]: user 7 reviews book 3, and the
    analysis of book 3 counts the review. *)
Lemma get_analysis_counts_a_new_review_witness :
  let data := {| ReviewService.rating := 5;
                 ReviewService.text := "A wonderful book." |} in
  let result := ReviewService.create_review 3%N 7%N data library_session in
  let sql_avg : list Z -> option float := fun _ => None in
  exists review s',
    new library_session = []
    /\ result = (Returns review, s')
    /\ match Intelligence.get_analysis sql_avg 3%N library_session with
       | (Returns before, _) =>
           exists after,
             Intelligence.get_analysis sql_avg 3%N s' = (Returns after, s')
             /\ Intelligence.total_reviews after
                = Intelligence.total_reviews before
                  + (if (3 =? 3)%N then 1 else 0)
             /\ Intelligence.summary after = Intelligence.summary before
             /\ Intelligence.review_consensus after
                = Intelligence.review_consensus before
             /\ Intelligence.book_id after = Intelligence.book_id before
       | (Raises e, _) =>
           Intelligence.get_analysis sql_avg 3%N s' = (Raises e, s')
       end.
Proof.
  cbn zeta.
  pose proof (create_review_cases library_session 3%N 7%N
                {| ReviewService.rating := 5;
                   ReviewService.text := "A wonderful book." |}) as Hcases.
  change (select_borrows 3%N 7%N library_session)
    with (borrows once_borrowed) in Hcases.
  cbn [borrows once_borrowed] in Hcases.
  change (float_of_int _)
    with (Returns {| neg := false; mant := 5629499534213120; expo := -50 |})
    in Hcases.
  cbv beta iota in Hcases.
  destruct Hcases as (s' & Hrun & _).
  eexists _, s'. split; [reflexivity|]. split; [exact Hrun|].
  refine (get_analysis_counts_a_new_review (fun _ => None) library_session s'
            3%N 7%N 3%N _ _ _ Hrun).
  reflexivity.
Defined.

Section Recommending.

Import Recommendations.

Lemma omap_cons {A B} (f : A -> option B) (x : A) (l : list A) :
  omap f (x :: l)
  = match f x with
    | Some y => y :: omap f l
    | None => omap f l
    end.
Proof. reflexivity. Qed.

Lemma collect_spec (results : list Recommender.RecommendationResult)
      (items : list RecommendationItem) (s : Session.t) :
  collect results items s
  = (Returns
       (items ++ omap (fun rec =>
                         (fun b => item_of b rec)
                           <$> books s !! Recommender.book_id rec)
                      results), s).
Proof.
  revert items. induction results as [|rec rest IH]; intros items.
  - cbn. now rewrite app_nil_r.
  - cbn [collect]. unfold io_bind.
    rewrite omap_cons.
    destruct (books s !! Recommender.book_id rec) as [b|];
      cbn [fmap option_fmap option_map].
    + rewrite IH, <- List.app_assoc. reflexivity.
    + apply IH.
Qed.

(** X16.  [get_recommendations] asks the engine for ten results and answers
    with one item for each result whose book is in the catalog, in the
    order of the engine, carrying the title and the author of the book
    and the score and the reason of the result; a result whose book is
    missing is dropped without an error, so the answer has at most as
    many items as the engine gave results, however many those are.  An
    exception of the engine is the exception of the route. *)
Theorem get_recommendations_spec
        (recommend : UUID -> Z -> DB (list Recommender.RecommendationResult))
        (user_id : UUID) (s : Session.t) :
  match recommend user_id 10 s with
  | (Returns results, s1) =>
      exists items,
        get_recommendations recommend user_id s
        = (Returns {| recommendations := items |}, s1)
        /\ items
           = omap (fun rec =>
                     (fun b => item_of b rec)
                       <$> books s1 !! Recommender.book_id rec)
                  results
        /\ (length items <= length results)%nat
        /\ (forall item,
              In item items ->
              exists rec book,
                In rec results
                /\ books s1 !! Recommender.book_id rec = Some book
                /\ title item = Book.title book
                /\ author item = Book.author book
                /\ score item = Recommender.score rec
                /\ reason item = Recommender.reason rec)
        /\ (Forall (fun rec => is_Some (books s1 !! Recommender.book_id rec))
                   results ->
            length items = length results)
  | (Raises e, s1) =>
      get_recommendations recommend user_id s = (Raises e, s1)
  end.
Proof.
  unfold get_recommendations, io_bind.
  destruct (recommend user_id 10 s) as [[results|e] s1]; [|reflexivity].
  rewrite collect_spec. cbn [app]. eexists. split; [reflexivity|].
  split; [reflexivity|].
  set (f := fun rec => (fun b => item_of b rec)
                         <$> books s1 !! Recommender.book_id rec).
  split; [|split].
  - clear. induction results as [|rec rest IH]; [reflexivity|].
    rewrite omap_cons. destruct (f rec); cbn [length]; lia.
  - intros item Hin. apply list_elem_of_In in Hin.
    apply list_elem_of_omap in Hin as (rec & Hrec & Hitem).
    apply list_elem_of_In in Hrec. subst f. cbn beta in Hitem.
    destruct (books s1 !! Recommender.book_id rec) as [book|] eqn:Hbook;
      [|discriminate].
    injection Hitem as <-. exists rec, book. repeat split; assumption.
  - intros Hall. induction Hall as [|rec rest [book Hbook] _ IH];
      [reflexivity|].
    rewrite omap_cons. subst f. cbn beta. rewrite Hbook.
    cbn [fmap option_fmap option_map length]. now rewrite IH.
Qed.

End Recommending.

(** ** Accounts and preferences *)

Section AccountsAndPreferences.

Lemma store_flush_nothing_pending (st : Store.t) :
  nothing_pending st -> Store.flush st = (Returns tt, st).
Proof.
  intros (Hnew & Hdirty & Hinner). unfold Store.flush.
  rewrite Hnew, Hdirty. cbn.
  change (fold_left insert (Session.new (Store.session st))
            (with_new [] (Store.session st)))
    with (flushed (Store.session st)).
  rewrite (flushed_nothing_pending _ Hinner).
  destruct st; cbn in *; subst; reflexivity.
Qed.

Lemma filter_nil_forall {A} (f : A -> bool) (l : list A) :
  List.filter f l = [] -> forall x, In x l -> f x = false.
Proof.
  intros Hnil x Hin. destruct (f x) eqn:Hfx; [|reflexivity].
  assert (In x (List.filter f l)) as H by (apply filter_In; now split).
  rewrite Hnil in H. destruct H.
Qed.

Lemma filter_forall_nil {A} (f : A -> bool) (l : list A) :
  (forall x, In x l -> f x = false) -> List.filter f l = [].
Proof.
  induction l as [|x l IH]; intros H; [reflexivity|].
  cbn [List.filter]. rewrite (H x) by now left.
  apply IH. intros y Hy. apply H. now right.
Qed.

Lemma filter_map_commute {A} (f : A -> bool) (g : A -> A) (l : list A) :
  (forall x, In x l -> f (g x) = f x) ->
  List.filter f (map g l) = map g (List.filter f l).
Proof.
  induction l as [|x l IH]; intros H; [reflexivity|].
  cbn [map List.filter]. rewrite (H x) by now left.
  rewrite IH by (intros y Hy; apply H; now right).
  now destruct (f x).
Qed.

Lemma map_id_on {A} (g : A -> A) (l : list A) :
  (forall x, In x l -> g x = x) -> map g l = l.
Proof.
  induction l as [|x l IH]; intros H; [reflexivity|].
  cbn [map]. rewrite (H x) by now left.
  f_equal. apply IH. intros y Hy. apply H. now right.
Qed.

Lemma NoDup_map_inj_on {A B} (f : A -> B) (l : list A) (x y : A) :
  NoDup (map f l) -> In x l -> In y l -> f x = f y -> x = y.
Proof.
  induction l as [|a l IH]; intros Hnd Hx Hy Hxy; [destruct Hx|].
  cbn [map] in Hnd. apply NoDup_cons in Hnd as [Hnotin Hnd].
  destruct Hx as [<-|Hx], Hy as [<-|Hy].
  - reflexivity.
  - exfalso. apply Hnotin. rewrite Hxy.
    apply list_elem_of_In. now apply in_map.
  - exfalso. apply Hnotin. rewrite <- Hxy.
    apply list_elem_of_In. now apply in_map.
  - now apply IH.
Qed.


Section Auth.

Variable hash_password : string -> string.
Variable verify_password : string -> string -> bool.
Variable create_access_token : option UUID -> string.

(** The three ways [signup] can go, by the number of users that have the
    email or the username. *)
Lemma signup_cases (data : AuthService.SignupRequest) (st : Store.t) :
  match Store.select_users_by_email_or_username
          (AuthService.email data) (AuthService.username data) st with
  | [] =>
      (exists user st',
         AuthService.signup hash_password data st = (Returns user, st'))
      /\ (nothing_pending st ->
          exists st',
            AuthService.signup hash_password data st
            = (Returns (stored_user hash_password st data), st')
            /\ Store.users st'
               = Store.users st ++ [stored_user hash_password st data]
            /\ Store.user_preferences st' = Store.user_preferences st
            /\ nothing_pending st')
  | [_] =>
      AuthService.signup hash_password data st
      = (Raises (HTTPException 409 "Email or username already registered"),
         st)
  | _ :: _ :: _ =>
      AuthService.signup hash_password data st
      = (Raises MultipleResultsFound, st)
  end.
Proof.
  unfold AuthService.signup, io_bind.
  destruct (Store.select_users_by_email_or_username _ _ st)
    as [|u [|u' rows]]; cbn [scalar_one_or_none]; try reflexivity.
  split; [now eexists _, _|].
  intros (Hnew & Hdirty & Hinner).
  unfold Store.add, Store.flush. cbn [Store.new Store.dirty Store.session
    Store.users Store.user_preferences].
  rewrite Hnew, Hdirty.
  cbn [app Store.pending_users Store.pending_preferences omap list_omap
       fold_left Store.insert_user Store.session Store.users
       Store.user_preferences Store.new Store.dirty].
  change (snd (Session.flush ?s)) with (flushed s).
  rewrite flushed_nothing_pending by exact Hinner.
  eexists. split; [|split; [|split]].
  - cbn [Store.users]. rewrite last_last. reflexivity.
  - reflexivity.
  - reflexivity.
  - repeat split; try reflexivity. exact Hinner.
Qed.


(** X18.  [signup] answers 409 exactly when one user has the email or the
    username, and raises [MultipleResultsFound] exactly when two or more
    have: so when the email belongs to one user and the username to
    another, the caller gets no 409.  Whenever it raises, it has stored
    nothing. *)
Theorem signup_conflict (data : AuthService.SignupRequest) (st : Store.t) :
  let matching :=
    Store.select_users_by_email_or_username
      (AuthService.email data) (AuthService.username data) st in
  let result := AuthService.signup hash_password data st in
  (fst result
   = Raises (HTTPException 409 "Email or username already registered")
   <-> length matching = 1%nat)
  /\ (fst result = Raises MultipleResultsFound
      <-> (2 <= length matching)%nat)
  /\ ((exists user, fst result = Returns user) <-> matching = [])
  /\ (forall e, fst result = Raises e -> snd result = st)
  /\ (forall a b,
        In a (Store.users st) -> In b (Store.users st) -> a <> b ->
        User.email a = AuthService.email data ->
        User.username b = AuthService.username data ->
        result = (Raises MultipleResultsFound, st)).
Proof.
  cbn zeta.
  pose proof (signup_cases data st) as Hcases.
  assert (forall a b,
            In a (Store.users st) -> In b (Store.users st) -> a <> b ->
            User.email a = AuthService.email data ->
            User.username b = AuthService.username data ->
            (2 <= length (Store.select_users_by_email_or_username
                            (AuthService.email data)
                            (AuthService.username data) st))%nat) as Htwo.
  { intros a b Ha Hb Hab Hemail Hname.
    assert (In a (Store.select_users_by_email_or_username
                    (AuthService.email data) (AuthService.username data) st))
      as Hina.
    { apply filter_In. split; [exact Ha|]. rewrite Hemail.
      now rewrite String.eqb_refl. }
    assert (In b (Store.select_users_by_email_or_username
                    (AuthService.email data) (AuthService.username data) st))
      as Hinb.
    { apply filter_In. split; [exact Hb|]. rewrite Hname.
      rewrite String.eqb_refl. apply orb_true_r. }
    destruct (Store.select_users_by_email_or_username _ _ st)
      as [|x [|y rows]]; cbn [length]; [destruct Hina| |lia].
    destruct Hina as [<-|[]], Hinb as [<-|[]]. congruence. }
  destruct (Store.select_users_by_email_or_username _ _ st)
    as [|u [|u' rows]].
  - destruct Hcases as [(user & st' & Hrun) _]. rewrite Hrun.
    cbn [fst snd length].
    split; [split; [discriminate | lia]|].
    split; [split; [discriminate | lia]|].
    split; [split; [reflexivity | now exists user]|].
    split; [discriminate|].
    intros a b Ha Hb Hab He Hn. specialize (Htwo a b Ha Hb Hab He Hn).
    cbn [length] in Htwo. lia.
  - rewrite Hcases. cbn [fst snd length].
    split; [split; reflexivity|].
    split; [split; [discriminate | lia]|].
    split; [split; [intros (? & ?) |]; discriminate|].
    split; [reflexivity|].
    intros a b Ha Hb Hab He Hn. specialize (Htwo a b Ha Hb Hab He Hn).
    cbn [length] in Htwo. lia.
  - rewrite Hcases. cbn [fst snd length].
    split; [split; [discriminate | lia]|].
    split; [split; [lia | reflexivity]|].
    split; [split; [intros (? & ?) |]; discriminate|].
    split; [reflexivity|].
    intros; reflexivity.
Qed.

(** X19.  When nothing is pending, [signup] keeps the emails and the usernames
    unique: its own check lets a user in only if no row has the email or
    the username.  The user it returns is the row it has appended, with
    the hash of the password and an [id]; nothing else is written. *)
Theorem signup_keeps_accounts_unique
        (data : AuthService.SignupRequest) (st : Store.t) :
  nothing_pending st -> accounts_unique st ->
  let result := AuthService.signup hash_password data st in
  accounts_unique (snd result)
  /\ nothing_pending (snd result)
  /\ Store.user_preferences (snd result) = Store.user_preferences st
  /\ (forall user,
        fst result = Returns user ->
        Store.users (snd result) = Store.users st ++ [user]
        /\ User.email user = AuthService.email data
        /\ User.username user = AuthService.username data
        /\ User.hashed_password user
           = hash_password (AuthService.password data)
        /\ is_Some (User.id user))
  /\ (forall e, fst result = Raises e -> snd result = st).
Proof.
  intros Hpending [Hemails Hnames]. cbn zeta.
  pose proof (signup_cases data st) as Hcases.
  destruct (Store.select_users_by_email_or_username _ _ st)
    as [|u [|u' rows]] eqn:Hsel.
  - destruct Hcases as [_ Hcases].
    destruct (Hcases Hpending) as (st' & Hrun & Husers & Hprefs & Hpending').
    rewrite Hrun. cbn [fst snd].
    pose proof (filter_nil_forall _ _ Hsel) as Hfree.
    split; [|split; [exact Hpending'|split; [exact Hprefs|split]]].
    + unfold accounts_unique. rewrite Husers, !map_app. cbn [map].
      split; apply NoDup_app; (split; [assumption|]);
        (split; [|apply NoDup_singleton]);
        intros x Hx Hx'; apply list_elem_of_singleton in Hx'; subst x;
        apply list_elem_of_In, in_map_iff in Hx as (v & Hv & Hin);
        specialize (Hfree v Hin); cbn beta in Hfree;
        apply orb_false_iff in Hfree as [He Hn];
        cbn [stored_user User.email User.username] in Hv.
      * rewrite Hv, String.eqb_refl in He. discriminate.
      * rewrite Hv, String.eqb_refl in Hn. discriminate.
    + intros user [= <-]. split; [exact Husers|].
      repeat split; try reflexivity. now eexists.
    + discriminate.
  - rewrite Hcases. cbn [fst snd].
    split; [now split|]. split; [exact Hpending|]. split; [reflexivity|].
    split; [discriminate | reflexivity].
  - rewrite Hcases. cbn [fst snd].
    split; [now split|]. split; [exact Hpending|]. split; [reflexivity|].
    split; [discriminate | reflexivity].
Qed.

(** X20.  [login] returns a token exactly when one user has the email and
    [verify_password] accepts the password against the stored hash; the
    token is the one made for the [id] of that user.  An unknown email
    and a wrong password raise the same 401 with the same detail, and
    [login] never writes. *)
Theorem login_outcomes (email password : string) (st : Store.t) :
  let result :=
    AuthService.login verify_password create_access_token email password
      st in
  (forall token,
      fst result = Returns token
      <-> exists user,
            Store.select_users_by_email email st = [user]
            /\ verify_password password (User.hashed_password user) = true
            /\ token = create_access_token (User.id user))
  /\ (Store.select_users_by_email email st = [] ->
      fst result = Raises (HTTPException 401 "Invalid credentials"))
  /\ (forall user,
        Store.select_users_by_email email st = [user] ->
        verify_password password (User.hashed_password user) = false ->
        fst result = Raises (HTTPException 401 "Invalid credentials"))
  /\ ((2 <= length (Store.select_users_by_email email st))%nat ->
      fst result = Raises MultipleResultsFound)
  /\ snd result = st.
Proof.
  cbn zeta. unfold AuthService.login, io_bind.
  destruct (Store.select_users_by_email email st) as [|u [|u' rows]];
    cbn [scalar_one_or_none fst snd raise length].
  - split; [|repeat split; try reflexivity; try discriminate; lia].
    intros token. split; [discriminate|]. intros (? & ? & _). discriminate.
  - destruct (verify_password password (User.hashed_password u)) eqn:Hv;
      cbn [fst snd ret raise].
    + split; [|repeat split; try reflexivity; try discriminate;
                try lia].
      * intros token. split.
        -- intros [= <-]. now exists u.
        -- intros (user & [= <-] & _ & ->). reflexivity.
      * intros user [= <-] Hfalse. congruence.
    + split; [|repeat split; try reflexivity; try discriminate; lia].
      intros token. split; [discriminate|].
      intros (user & [= <-] & Htrue & _). congruence.
  - split; [|repeat split; try reflexivity; try discriminate].
    intros token. split; [discriminate|]. intros (? & ? & _). discriminate.
Qed.

(** X21.  A user who has signed up can log in: when nothing is pending, no row
    has the email or the username, and [verify_password] accepts a
    password against its own hash, [signup] followed by [login] with the
    same email and password returns the token made for the [id] of the
    new user; a password that [verify_password] rejects against that hash
    gets the 401. *)
Theorem signup_then_login
        (data : AuthService.SignupRequest) (st : Store.t) :
  nothing_pending st ->
  Store.select_users_by_email_or_username
    (AuthService.email data) (AuthService.username data) st = [] ->
  verify_password (AuthService.password data)
    (hash_password (AuthService.password data)) = true ->
  exists user st',
    AuthService.signup hash_password data st = (Returns user, st')
    /\ is_Some (User.id user)
    /\ AuthService.login verify_password create_access_token
         (AuthService.email data) (AuthService.password data) st'
       = (Returns (create_access_token (User.id user)), st')
    /\ (forall wrong,
          verify_password wrong
            (hash_password (AuthService.password data)) = false ->
          AuthService.login verify_password create_access_token
            (AuthService.email data) wrong st'
          = (Raises (HTTPException 401 "Invalid credentials"), st')).
Proof.
  intros Hpending Hsel Hverify.
  pose proof (signup_cases data st) as Hcases. rewrite Hsel in Hcases.
  destruct Hcases as [_ Hcases].
  destruct (Hcases Hpending) as (st' & Hrun & Husers & _).
  exists (stored_user hash_password st data), st'.
  split; [exact Hrun|]. split; [now eexists|].
  assert (Store.select_users_by_email (AuthService.email data) st'
          = [stored_user hash_password st data]) as Hfound.
  { unfold Store.select_users_by_email. rewrite Husers, List.filter_app.
    cbn [List.filter stored_user User.email].
    rewrite String.eqb_refl.
    replace (List.filter _ (Store.users st)) with (@nil User.t);
      [reflexivity|].
    symmetry. apply filter_forall_nil. intros x Hx.
    pose proof (filter_nil_forall _ _ Hsel x Hx) as Hv. cbn beta in Hv.
    now apply orb_false_iff in Hv as [-> _]. }
  unfold AuthService.login, io_bind. rewrite Hfound.
  cbn [scalar_one_or_none stored_user User.hashed_password].
  rewrite Hverify. split; [reflexivity|].
  intros wrong ->. reflexivity.
Qed.

End Auth.


Section Upsert.

Import Preferences.

(** X17.  [update_preferences] upserts: when nothing is pending and the user
    has at most one preference row, the call returns the two lists of the
    request, and afterwards the user has exactly one row, which holds
    those lists; the rows of the other users, and the users, are as
    before, and a row is added only if the user had none. *)
Theorem update_preferences_upserts
        (data : PreferencesRequest.t) (user_id : UUID) (st : Store.t) :
  nothing_pending st -> preference_keys st ->
  (length (Store.select_preferences user_id st) <= 1)%nat ->
  exists st' row,
    update_preferences data user_id st
    = (Returns
         {| PreferencesResponse.favorite_genres :=
              PreferencesRequest.favorite_genres data;
            PreferencesResponse.favorite_authors :=
              PreferencesRequest.favorite_authors data |}, st')
    /\ Store.select_preferences user_id st' = [row]
    /\ UserPreference.user_id row = user_id
    /\ UserPreference.favorite_genres row
       = PreferencesRequest.favorite_genres data
    /\ UserPreference.favorite_authors row
       = PreferencesRequest.favorite_authors data
    /\ (forall other,
          other <> user_id ->
          Store.select_preferences other st'
          = Store.select_preferences other st)
    /\ Store.users st' = Store.users st
    /\ length (Store.user_preferences st')
       = (length (Store.user_preferences st)
          + (1 - length (Store.select_preferences user_id st)))%nat
    /\ nothing_pending st'.
Proof.
  intros (Hnew & Hdirty & Hinner) [Hsome Hkeys] Hone.
  unfold update_preferences, io_bind.
  destruct (Store.select_preferences user_id st) as [|found [|more rows]]
    eqn:Hsel; cbn [length] in Hone; [| |lia];
    cbn [scalar_one_or_none].
  - (* no row: one is inserted *)
    unfold Store.add, Store.flush, ret.
    cbn [Store.new Store.dirty Store.session Store.users
         Store.user_preferences].
    rewrite Hnew, Hdirty.
    cbn [app Store.pending_users Store.pending_preferences omap list_omap
         fold_left Store.insert_preference Store.session Store.users
         Store.user_preferences Store.new Store.dirty].
    change (snd (Session.flush ?s)) with (flushed s).
    rewrite flushed_nothing_pending by exact Hinner.
    eexists _, _. split; [reflexivity|].
    unfold Store.select_preferences, Store.insert_preference.
    cbn [Store.user_preferences Store.users Store.new Store.dirty
         Store.session].
    rewrite List.filter_app. cbn [List.filter UserPreference.user_id].
    rewrite N.eqb_refl.
    unfold Store.select_preferences in Hsel. rewrite Hsel.
    split; [reflexivity|]. repeat (split; [reflexivity|]).
    split.
    { intros other Hother. rewrite List.filter_app.
      cbn [List.filter UserPreference.user_id].
      destruct (N.eqb_spec user_id other) as [->|_]; [congruence|].
      now rewrite app_nil_r. }
    split; [reflexivity|]. split.
    { rewrite length_app. cbn [length]. lia. }
    repeat split; try reflexivity. exact Hinner.
  - (* one row: it is updated *)
    unfold Store.assign, Store.flush, ret.
    cbn [Store.new Store.dirty Store.session Store.users
         Store.user_preferences].
    rewrite Hnew, Hdirty.
    cbn [app Store.pending_users Store.pending_preferences omap list_omap
         fold_left Store.update_preference Store.session Store.users
         Store.user_preferences Store.new Store.dirty UserPreference.id].
    change (snd (Session.flush ?s)) with (flushed s).
    rewrite flushed_nothing_pending by exact Hinner.
    assert (In found (Store.user_preferences st)
            /\ UserPreference.user_id found = user_id) as [Hin Huser].
    { assert (In found (Store.select_preferences user_id st)) as H
        by (rewrite Hsel; now left).
      apply filter_In in H as [H1 H2]. split; [exact H1|].
      now apply N.eqb_eq in H2. }
    set (updated :=
           {| UserPreference.id := UserPreference.id found;
              UserPreference.user_id := UserPreference.user_id found;
              UserPreference.favorite_genres :=
                PreferencesRequest.favorite_genres data;
              UserPreference.favorite_authors :=
                PreferencesRequest.favorite_authors data |}).
    set (g := fun row =>
                if Store.same_id (UserPreference.id row)
                                 (UserPreference.id found)
                then updated else row).
    assert (Hfound : g found = updated).
    { subst g. cbn beta. rewrite Forall_forall in Hsome.
      destruct (Hsome found) as [k Hk]; [now apply list_elem_of_In|].
      rewrite Hk. cbn [Store.same_id]. now rewrite N.eqb_refl. }
    assert (Hg : forall row,
               In row (Store.user_preferences st) ->
               row = found \/ g row = row).
    { intros row Hrow. subst g. cbn beta.
      destruct (Store.same_id _ _) eqn:Hsame; [left | now right].
      apply (NoDup_map_inj_on UserPreference.id
               (Store.user_preferences st)); try assumption.
      unfold Store.same_id in Hsame.
      destruct (UserPreference.id row), (UserPreference.id found);
        try discriminate.
      apply N.eqb_eq in Hsame. now subst. }
    assert (Hguser : forall row,
               In row (Store.user_preferences st) ->
               UserPreference.user_id (g row) = UserPreference.user_id row).
    { intros row Hrow. destruct (Hg row Hrow) as [->| ->]; [|reflexivity].
      now rewrite Hfound. }
    eexists _, updated. split; [reflexivity|].
    unfold Store.select_preferences, Store.update_preference in *.
    cbn [Store.user_preferences Store.users Store.new Store.dirty
         Store.session].
    change (map _ (Store.user_preferences st))
      with (map g (Store.user_preferences st)).
    split.
    { rewrite filter_map_commute
        by (intros row Hrow; cbn beta; now rewrite (Hguser row Hrow)).
      rewrite Hsel. cbn [map]. now rewrite Hfound. }
    split; [exact Huser|]. split; [reflexivity|]. split; [reflexivity|].
    split.
    { intros other Hother.
      rewrite filter_map_commute
        by (intros row Hrow; cbn beta; now rewrite (Hguser row Hrow)).
      apply map_id_on. intros row Hrow.
      apply filter_In in Hrow as [Hrow Htest].
      destruct (Hg row Hrow) as [->|Hsame]; [|exact Hsame].
      apply N.eqb_eq in Htest. congruence. }
    split; [reflexivity|]. split.
    { rewrite length_map. cbn [length]. lia. }
    repeat split; try reflexivity. exact Hinner.
Qed.

End Upsert.

End AccountsAndPreferences.

(** In [ada_store] nothing is pending. *)
Lemma ada_store_nothing_pending : nothing_pending ada_store.
Proof. repeat split; reflexivity. Qed.

(** The theorem in [ada_store], where bob signs up. *)
Lemma signup_keeps_accounts_unique_witness :
  let result :=
    AuthService.signup example_hash_password bob_signup ada_store in
  nothing_pending ada_store /\ accounts_unique ada_store
  /\ accounts_unique (snd result)
  /\ nothing_pending (snd result)
  /\ Store.user_preferences (snd result) = Store.user_preferences ada_store
  /\ (forall user,
        fst result = Returns user ->
        Store.users (snd result) = Store.users ada_store ++ [user]
        /\ User.email user = AuthService.email bob_signup
        /\ User.username user = AuthService.username bob_signup
        /\ User.hashed_password user
           = example_hash_password (AuthService.password bob_signup)
        /\ is_Some (User.id user))
  /\ (forall e, fst result = Raises e -> snd result = ada_store).
Proof.
  cbn zeta.
  assert (accounts_unique ada_store) as Hunique
    by (split; apply NoDup_singleton).
  split; [exact ada_store_nothing_pending|]. split; [exact Hunique|].
  exact (signup_keeps_accounts_unique example_hash_password bob_signup
           ada_store ada_store_nothing_pending Hunique).
Defined.

(** The theorem in [ada_store] with the middleware of the examples. *)
Lemma signup_then_login_witness :
  nothing_pending ada_store
  /\ Store.select_users_by_email_or_username
       (AuthService.email bob_signup) (AuthService.username bob_signup)
       ada_store = []
  /\ example_verify_password (AuthService.password bob_signup)
       (example_hash_password (AuthService.password bob_signup)) = true
  /\ exists user st',
       AuthService.signup example_hash_password bob_signup ada_store
       = (Returns user, st')
       /\ is_Some (User.id user)
       /\ AuthService.login example_verify_password
            example_create_access_token
            (AuthService.email bob_signup) (AuthService.password bob_signup)
            st'
          = (Returns (example_create_access_token (User.id user)), st')
       /\ (forall wrong,
             example_verify_password wrong
               (example_hash_password (AuthService.password bob_signup))
             = false ->
             AuthService.login example_verify_password
               example_create_access_token
               (AuthService.email bob_signup) wrong st'
             = (Raises (HTTPException 401 "Invalid credentials"), st')).
Proof.
  split; [exact ada_store_nothing_pending|].
  split; [reflexivity|]. split; [reflexivity|].
  apply (signup_then_login example_hash_password example_verify_password
           example_create_access_token bob_signup ada_store).
  - exact ada_store_nothing_pending.
  - reflexivity.
  - reflexivity.
Defined.

(** The theorem in [ada_store], where ada replaces her preferences. *)
Lemma update_preferences_upserts_witness :
  nothing_pending ada_store /\ preference_keys ada_store
  /\ (length (Store.select_preferences 7%N ada_store) <= 1)%nat
  /\ exists st' row,
       Preferences.update_preferences new_preferences 7%N ada_store
       = (Returns
            {| Preferences.PreferencesResponse.favorite_genres :=
                 Preferences.PreferencesRequest.favorite_genres
                   new_preferences;
               Preferences.PreferencesResponse.favorite_authors :=
                 Preferences.PreferencesRequest.favorite_authors
                   new_preferences |}, st')
       /\ Store.select_preferences 7%N st' = [row]
       /\ UserPreference.user_id row = 7%N
       /\ UserPreference.favorite_genres row
          = Preferences.PreferencesRequest.favorite_genres new_preferences
       /\ UserPreference.favorite_authors row
          = Preferences.PreferencesRequest.favorite_authors new_preferences
       /\ (forall other,
             other <> 7%N ->
             Store.select_preferences other st'
             = Store.select_preferences other ada_store)
       /\ Store.users st' = Store.users ada_store
       /\ length (Store.user_preferences st')
          = (length (Store.user_preferences ada_store)
             + (1 - length (Store.select_preferences 7%N ada_store)))%nat
       /\ nothing_pending st'.
Proof.
  assert (preference_keys ada_store) as Hkeys.
  { split; [|apply NoDup_singleton].
    constructor; [now eexists | constructor]. }
  split; [exact ada_store_nothing_pending|]. split; [exact Hkeys|].
  split; [cbn; lia|].
  apply (update_preferences_upserts new_preferences 7%N ada_store).
  - exact ada_store_nothing_pending.
  - exact Hkeys.
  - cbn. lia.
Defined.

(** ** What a rendering depends on *)

Section RenderingFrame.

Import Templates.

Implicit Types (kwargs : gmap string string) (st : scan_state).

Lemma get_field_agree kwargs1 kwargs2 (field_name : string) :
  kwargs1 !! field_name = kwargs2 !! field_name ->
  get_field kwargs1 field_name = get_field kwargs2 field_name.
Proof. intros H. unfold get_field. now rewrite H. Qed.

(** Two scans of the same format string agree when the keyword arguments
    agree on its fields. *)
Lemma format_scan_agree kwargs1 kwargs2 (n : nat) :
  forall (s : string) st (ns : list string),
    (String.length s <= n)%nat ->
    scan_fields st s = Some ns ->
    (forall x, In x ns -> kwargs1 !! x = kwargs2 !! x) ->
    format_scan kwargs1 st s = format_scan kwargs2 st s.
Proof.
  induction n as [|n IH]; intros s st ns Hlen Hscan Hagree.
  - destruct s; [|cbn in Hlen; lia]. now destruct st.
  - destruct s as [|c rest]; [now destruct st|].
    cbn [String.length] in Hlen.
    destruct st as [|field_name]; cbn [scan_fields format_scan] in *.
    + destruct (Ascii.eqb c "{").
      * destruct rest as [|c2 rest2]; [discriminate|].
        cbn [String.length] in Hlen.
        destruct (Ascii.eqb c2 "{").
        -- now rewrite (IH rest2 InText ns ltac:(lia) Hscan Hagree).
        -- exact (IH (String c2 rest2) (InField "") ns
                     ltac:(cbn [String.length]; lia) Hscan Hagree).
      * destruct (Ascii.eqb c "}").
        -- destruct rest as [|c2 rest2]; [discriminate|].
           cbn [String.length] in Hlen.
           destruct (Ascii.eqb c2 "}"); [|discriminate].
           now rewrite (IH rest2 InText ns ltac:(lia) Hscan Hagree).
        -- now rewrite (IH rest InText ns ltac:(lia) Hscan Hagree).
    + destruct (Ascii.eqb c "}").
      * destruct (scan_fields InText rest) as [ns'|] eqn:Hrest;
          [|discriminate].
        cbn in Hscan. injection Hscan as <-.
        rewrite (get_field_agree kwargs1 kwargs2 field_name)
          by (apply Hagree; now left).
        destruct (get_field kwargs2 field_name); [|reflexivity].
        rewrite (IH rest InText ns' ltac:(lia) Hrest); [reflexivity|].
        intros x Hx. apply Hagree. now right.
      * destruct (Ascii.eqb c "{"); [discriminate|].
        destruct (is_unmodelled_field_char c); [discriminate|].
        exact (IH rest (InField (field_name +:+ String c "")) ns
                 ltac:(lia) Hscan Hagree).
Qed.

(** X22.  A rendering depends on the keyword arguments only through the
    fields of the template: two calls whose arguments agree on those
    fields give the same outcome, so an argument the template has no
    field for is ignored, and asking [render_with_truncation] to truncate
    such an argument changes nothing. *)
Theorem render_depends_only_on_fields
        (self : PromptTemplate) (ns : list string) kwargs1 kwargs2 :
  placeholders (user_template self) = Some ns ->
  (forall x, In x ns -> kwargs1 !! x = kwargs2 !! x) ->
  render self kwargs1 = render self kwargs2
  /\ (forall key value,
        ~ In key ns ->
        render self (<[key := value]> kwargs1) = render self kwargs1)
  /\ (forall content_key,
        ~ In content_key ns ->
        render_with_truncation self content_key kwargs1
        = render self kwargs1).
Proof.
  intros Hfields Hagree.
  assert (Hrender : forall k1 k2,
             (forall x, In x ns -> k1 !! x = k2 !! x) ->
             render self k1 = render self k2).
  { intros k1 k2 H. unfold render, str_format.
    now rewrite (format_scan_agree k1 k2 _ _ InText ns (le_n _) Hfields H). }
  assert (Hextra : forall key value,
             ~ In key ns ->
             render self (<[key := value]> kwargs1) = render self kwargs1).
  { intros key value Hkey. apply Hrender. intros x Hx.
    apply lookup_insert_ne. intros ->. contradiction. }
  split; [now apply Hrender|]. split; [exact Hextra|].
  intros content_key Hkey. unfold render_with_truncation.
  destruct (kwargs1 !! content_key); [|reflexivity].
  now apply Hextra.
Qed.

(** The theorem at the summary prompt, with and without an argument
    [language]. *)
Lemma render_depends_only_on_fields_witness :
  placeholders (user_template SUMMARIZE_BOOK) = Some ["content"]
  /\ (forall x, In x ["content"] ->
                summary_kwargs !! x = summary_kwargs_extra !! x)
  /\ render SUMMARIZE_BOOK summary_kwargs
     = render SUMMARIZE_BOOK summary_kwargs_extra
  /\ (forall key value,
        ~ In key ["content"] ->
        render SUMMARIZE_BOOK (<[key := value]> summary_kwargs)
        = render SUMMARIZE_BOOK summary_kwargs)
  /\ (forall content_key,
        ~ In content_key ["content"] ->
        render_with_truncation SUMMARIZE_BOOK content_key summary_kwargs
        = render SUMMARIZE_BOOK summary_kwargs).
Proof.
  assert (forall x, In x ["content"] ->
                    summary_kwargs !! x = summary_kwargs_extra !! x) as Hagree.
  { intros x [<-|[]]. unfold summary_kwargs_extra, summary_kwargs.
    symmetry. apply lookup_insert_ne. discriminate. }
  split; [reflexivity|]. split; [exact Hagree|].
  apply (render_depends_only_on_fields SUMMARIZE_BOOK ["content"]
           summary_kwargs summary_kwargs_extra).
  - reflexivity.
  - exact Hagree.
Defined.

(** X23.  The size of the consensus prompt.  The reviews take at most
    12036 characters of the user message, the fixed text 140; the
    previous consensus is not truncated: without one the user message has
    at most 12176 characters, with one it is at least as long as the
    consensus plus 266 characters, whatever the length of the
    consensus. *)
Theorem render_review_consensus_prompt_length
        (reviews : list ReviewDict) (current_consensus : option string) :
  exists user,
    render_review_consensus_prompt reviews current_consensus
    = Some (Returns (<["system" := system ANALYZE_REVIEWS]>
                       (<["user" := user]> ∅)))
    /\ (truthy current_consensus = false -> len user <= 12176)
    /\ (forall consensus,
          current_consensus = Some consensus -> consensus <> "" ->
          len consensus + 266 <= len user <= len consensus + 12302).
Proof.
  eexists. split; [apply render_review_consensus_prompt_returns|].
  pose proof (len_truncate_to_tokens
                (join (nl +:+ nl) (map format_review reviews)) 3000
                ltac:(lia)) as Hcut.
  pose proof (len_nonneg
                (truncate_to_tokens
                   (join (nl +:+ nl) (map format_review reviews)) 3000))
    as Hcut0.
  rewrite !len_append.
  change (len REVIEWS_HEAD) with 65. change (len REVIEWS_TAIL) with 75.
  split.
  - intros Hfalsy.
    assert (previous_section_of current_consensus = "") as ->.
    { unfold previous_section_of. destruct current_consensus; [|reflexivity].
      now rewrite Hfalsy. }
    change (len "") with 0. lia.
  - intros consensus -> Hne.
    assert (len (previous_section_of (Some consensus))
            = len consensus + 126) as ->.
    { unfold previous_section_of, truthy.
      destruct (String.eqb_spec consensus "") as [->|_]; [congruence|].
      cbn [negb]. rewrite !len_append.
      change (len nl) with 1.
      change (len "--- PREVIOUS CONSENSUS (START) ---") with 34.
      change (len "--- PREVIOUS CONSENSUS (END) ---") with 32.
      change (len "Update the above consensus with the new reviews below.")
        with 54.
      lia. }
    lia.
Qed.

End RenderingFrame.
